(** * Enrollment progress and quiz grading of the e-learning platform

    A shallow embedding of the parts of [models.py] and [app.py] that grade
    a quiz, record the student's response, recompute the progress of an
    enrollment and delete content, followed by the properties of the
    specification that concern them.  Further modules embed the sorting
    and counting methods of [models.py], [mark_as_completed], the handlers
    that create and delete courses, modules and content, the check of
    uploaded file names, the catalogue of a student, and the roles and users
    set up at start-up and by [register_user].

    Conventions of the embedding.
    - The SQL tables are lists of rows, in insertion order; a query is a
      [filter] over the table, [.first()] is the head of the result and
      [.count()] its length.
    - Python [int] is [Z] (row counts are [nat]); a Python [float] is an
      exact rational of [Q].  The only float operations of the code are one
      division of two row counts followed by one multiplication by 10 or by
      100, and comparisons with 7 and 100.
    - Python [str] is [string], read as a sequence of code points below 256.
    - [datetime.utcnow()] is an argument of the function that calls it.
    - An unhandled Python exception is a value [Raise e]. *)

From Stdlib Require Import ZArith QArith List String Ascii Bool Lia.
From Stdlib Require Import Permutation Sorted.
Import ListNotations.

Local Open Scope Z_scope.

(** ** Python values and exceptions *)

Module Py.

Inductive exn : Type :=
| ZeroDivisionError
| AttributeError
| IntegrityError.

Inductive result (A : Type) : Type :=
| Ok (a : A)
| Raise (e : exn).

Arguments Ok {A} a.
Arguments Raise {A} e.

Definition bind {A B : Type} (m : result A) (k : A -> result B) : result B :=
  match m with
  | Ok a => k a
  | Raise e => Raise e
  end.

(** [a / b] on two ints: true division, [ZeroDivisionError] when [b = 0]. *)
Definition truediv (a b : nat) : result Q :=
  match b with
  | O => Raise ZeroDivisionError
  | S _ => Ok (inject_Z (Z.of_nat a) / inject_Z (Z.of_nat b))%Q
  end.

(** [str(x)] for a nullable text column: [str(None)] is ["None"]. *)
Definition str (x : option string) : string :=
  match x with
  | Some s => s
  | None => "None"%string
  end.

(** Truth value of [x] for [x] a [str] or [None]. *)
Definition truthy (x : option string) : bool :=
  match x with
  | Some s => negb (String.eqb s EmptyString)
  | None => false
  end.

(** [c.isspace()] on the code points below 256: TAB..CR, FS..US, space,
    NEL (0x85) and NBSP (0xA0). *)
Definition isspace (c : ascii) : bool :=
  let n := N_of_ascii c in
  (((9 <=? n) && (n <=? 13)) || ((28 <=? n) && (n <=? 32))
   || (n =? 133) || (n =? 160))%N.

(** [c.lower()] on the code points below 256: A..Z and the Latin-1 capitals
    0xC0..0xDE (but not the multiplication sign 0xD7) move up by 32. *)
Definition lower_char (c : ascii) : ascii :=
  let n := N_of_ascii c in
  if (((65 <=? n) && (n <=? 90))
      || ((192 <=? n) && (n <=? 222) && negb (n =? 215)))%N
  then ascii_of_N (n + 32)
  else c.

Fixpoint lstrip_chars (l : list ascii) : list ascii :=
  match l with
  | [] => []
  | c :: l' => if isspace c then lstrip_chars l' else l
  end.

Definition rstrip_chars (l : list ascii) : list ascii :=
  rev (lstrip_chars (rev l)).

(** [s.strip()] *)
Definition strip (s : string) : string :=
  string_of_list_ascii (rstrip_chars (lstrip_chars (list_ascii_of_string s))).

(** [s.lower()] *)
Definition lower (s : string) : string :=
  string_of_list_ascii (map lower_char (list_ascii_of_string s)).

End Py.

Notation "x <- m ;; k" := (Py.bind m (fun x => k))
  (at level 61, m at next level, right associativity).

(** ** The data model of [models.py] *)

Definition datetime := Z.

Record Course : Type := mkCourse {
  course_id : Z;
  course_name : string;
  course_description : string;
  course_instructor_id : Z
}.

Record Module_ : Type := mkModule {
  module_id : Z;
  module_title : string;
  module_description : string;
  module_order : Z;
  module_course_id : Z
}.

Record ContentItem : Type := mkContentItem {
  content_id : Z;
  content_title : string;
  content_type : string;
  content_content : option string;
  content_file_path : option string;
  content_order : Z;
  content_module_id : Z
}.

Record QuizQuestion : Type := mkQuizQuestion {
  question_id : Z;
  question_text : string;
  question_content_item_id : Z;
  question_type : string;
  correct_answer : option string;
  question_options : option string
}.

Record CourseEnrollment : Type := mkCourseEnrollment {
  enrollment_id : Z;
  enrollment_student_id : Z;
  enrollment_course_id : Z;
  enrollment_date : datetime;
  enrollment_completed : bool;
  enrollment_progress : Q;
  enrollment_completion_date : option datetime
}.

(** [request.form] of the quiz page: the field [question_<id>] is keyed by
    the question id. *)
Definition form := list (Z * string).

Record StudentResponse : Type := mkStudentResponse {
  response_id : Z;
  response_student_id : Z;
  response_content_item_id : Z;
  response_payload : option form;
  response_score : option Q;
  response_completed : bool;
  response_completion_date : option datetime
}.

(** The database: one list of rows per table. *)
Record store : Type := mkStore {
  courses : list Course;
  modules : list Module_;
  content_items : list ContentItem;
  quiz_questions : list QuizQuestion;
  enrollments : list CourseEnrollment;
  responses : list StudentResponse
}.

(** ** Queries and relationships *)

Module Models.

Section Relationships.

Variable st : store.

(** [Model.query.get(id)]: the row with that primary key, if any. *)
Definition get_course (id : Z) : option Course :=
  find (fun c => course_id c =? id) (courses st).

Definition get_module (id : Z) : option Module_ :=
  find (fun m => module_id m =? id) (modules st).

Definition get_content (id : Z) : option ContentItem :=
  find (fun c => content_id c =? id) (content_items st).

(** [course.modules] *)
Definition course_modules (c : Course) : list Module_ :=
  filter (fun m => module_course_id m =? course_id c) (modules st).

(** [module.content_items] *)
Definition module_content_items (m : Module_) : list ContentItem :=
  filter (fun c => content_module_id c =? module_id m) (content_items st).

(** [content_item.questions] *)
Definition content_questions (c : ContentItem) : list QuizQuestion :=
  filter (fun q => question_content_item_id q =? content_id c)
         (quiz_questions st).

(** [content_item.responses] (the backref of
    [StudentResponse.content_item]) *)
Definition content_responses (c : ContentItem) : list StudentResponse :=
  filter (fun r => response_content_item_id r =? content_id c)
         (responses st).

(** [content_item.module], [module.course], [enrollment.course]: [None]
    when the foreign key points at no row. *)
Definition content_module (c : ContentItem) : option Module_ :=
  get_module (content_module_id c).

Definition module_course (m : Module_) : option Course :=
  get_course (module_course_id m).

Definition enrollment_course (e : CourseEnrollment) : option Course :=
  get_course (enrollment_course_id e).

(** [[content.id for module in course.modules
                 for content in module.content_items]] *)
Definition course_content_ids (c : Course) : list Z :=
  flat_map (fun m => map content_id (module_content_items m))
           (course_modules c).

(** [sum(len(module.content_items) for module in course.modules)] *)
Definition total_content (c : Course) : nat :=
  list_sum (map (fun m => List.length (module_content_items m))
                (course_modules c)).

(** [StudentResponse.query.filter_by(student_id=sid, completed=True)
      .filter(StudentResponse.content_item_id.in_(ids))] *)
Definition completed_responses_in (sid : Z) (ids : list Z)
  : list StudentResponse :=
  filter (fun r => (response_student_id r =? sid)
                   && response_completed r
                   && existsb (Z.eqb (response_content_item_id r)) ids)
         (responses st).

(** The [.count()] of the query above for the ids of a course: the
    [completed_content] of [update_progress]. *)
Definition completed_content (sid : Z) (c : Course) : nat :=
  List.length (completed_responses_in sid (course_content_ids c)).

(** [(completed_content / total_content) * 100 if total_content > 0
     else 0] *)
Definition progress_of (completed total : nat) : Q :=
  if (0 <? total)%nat
  then (inject_Z (Z.of_nat completed) / inject_Z (Z.of_nat total) * 100)%Q
  else 0%Q.

End Relationships.

(** [QuizQuestion.is_answer_correct] *)
Definition is_answer_correct (self : QuizQuestion)
                             (user_answer : option string) : bool :=
  String.eqb (Py.lower (Py.strip (Py.str (correct_answer self))))
             (Py.lower (Py.strip (Py.str user_answer))).

Definition set_progress (e : CourseEnrollment) (p : Q) : CourseEnrollment :=
  mkCourseEnrollment (enrollment_id e) (enrollment_student_id e)
    (enrollment_course_id e) (enrollment_date e)
    (enrollment_completed e) p (enrollment_completion_date e).

Definition set_completion (e : CourseEnrollment) (b : bool)
                          (d : option datetime) : CourseEnrollment :=
  mkCourseEnrollment (enrollment_id e) (enrollment_student_id e)
    (enrollment_course_id e) (enrollment_date e)
    b (enrollment_progress e) d.

(** [db.session.commit()] with one dirty enrollment: the row with its
    primary key takes the new field values. *)
Definition commit_enrollment (st : store) (e : CourseEnrollment) : store :=
  mkStore (courses st) (modules st) (content_items st) (quiz_questions st)
    (map (fun x => if enrollment_id x =? enrollment_id e then e else x)
         (enrollments st))
    (responses st).

(** [CourseEnrollment.update_progress], run at time [now]: the updated
    object and the committed store. *)
Definition update_progress (now : datetime) (st : store)
                           (self : CourseEnrollment)
  : Py.result (CourseEnrollment * store) :=
  match enrollment_course st self with
  | None => Py.Raise Py.AttributeError
  | Some course =>
      let total := total_content st course in
      let completed :=
        completed_content st (enrollment_student_id self) course in
      let self1 := set_progress self (progress_of completed total) in
      let self2 :=
        if Qeq_bool (enrollment_progress self1) 100
        then set_completion self1 true (Some now)
        else self1 in
      Py.Ok (self2, commit_enrollment st self2)
  end.

End Models.

(** ** The request handlers of [app.py] *)

Module App.

Import Models.

Inductive http_method : Type := GET | POST.

(** The messages passed to [flash]. *)
Inductive flash : Type :=
| NotAQuiz          (* take_quiz: the content item is not a quiz *)
| AlreadyPassed     (* take_quiz: a response with score >= 7 exists *)
| QuizPassed        (* take_quiz: graded, score >= 7 *)
| QuizFailed        (* take_quiz: graded, score < 7 *)
| AlreadyEnrolled   (* enroll_course: an enrollment exists *)
| Enrolled          (* enroll_course: enrollment created *)
| NoPermission      (* delete_content: not the course's instructor *)
| ContentDeleted.   (* delete_content: done *)

(** What a handler answers: [get_or_404] aborting, a flash followed by a
    redirect, a rendered page, or an unhandled exception (HTTP 500; the
    session is discarded, so nothing uncommitted reaches the store). *)
Inductive reply : Type :=
| NotFound
| Redirect (f : flash)
| Render
| ServerError (e : Py.exn).

(** The primary key given to a new row: one more than the largest in use. *)
Definition next_id (ids : list Z) : Z := 1 + fold_right Z.max 0 ids.

(** [request.form.get('question_<id>')] *)
Definition form_get (f : form) (qid : Z) : option string :=
  option_map snd (find (fun kv => fst kv =? qid) f).

(** [StudentResponse.query.filter_by(student_id=uid, content_item_id=quiz_id)
      .filter(StudentResponse.score >= 7).first()];
    a NULL score satisfies no comparison. *)
Definition existing_response (st : store) (uid quiz_id : Z)
  : option StudentResponse :=
  find (fun r => (response_student_id r =? uid)
                 && (response_content_item_id r =? quiz_id)
                 && match response_score r with
                    | Some s => Qle_bool 7 s
                    | None => false
                    end)
       (responses st).

(** The loop of [take_quiz] over [quiz.questions], with its counter
    [correct_answers]. *)
Definition count_correct_answers (f : form) (questions : list QuizQuestion)
  : nat :=
  fold_left
    (fun correct_answers question =>
       let student_answer := form_get f (question_id question) in
       if Py.truthy student_answer
          && is_answer_correct question student_answer
       then S correct_answers
       else correct_answers)
    questions O.

(** [score = (correct_answers / total_questions) * 10] *)
Definition grade (f : form) (questions : list QuizQuestion) : Py.result Q :=
  let total_questions := List.length questions in
  let correct_answers := count_correct_answers f questions in
  d <- Py.truediv correct_answers total_questions ;;
  Py.Ok (d * 10)%Q.

(** [db.session.add(response)] *)
Definition add_response (st : store) (r : StudentResponse) : store :=
  mkStore (courses st) (modules st) (content_items st) (quiz_questions st)
    (enrollments st) (responses st ++ [r]).

(** [CourseEnrollment.query.filter_by(student_id=uid, course_id=cid)
      .first()] *)
Definition find_enrollment (st : store) (uid cid : Z)
  : option CourseEnrollment :=
  find (fun e => (enrollment_student_id e =? uid)
                 && (enrollment_course_id e =? cid))
       (enrollments st).

(** [take_quiz(quiz_id)] for the logged-in student [current_user].  [now]
    is the time stamped on the response, [now'] the time at which
    [update_progress] runs. *)
Definition take_quiz (current_user quiz_id : Z) (method : http_method)
                     (request_form : form) (now now' : datetime)
                     (st : store) : store * reply :=
  match get_content st quiz_id with
  | None => (st, NotFound)
  | Some quiz =>
    if negb (String.eqb (content_type quiz) "quiz") then
      (st, Redirect NotAQuiz)
    else
      match existing_response st current_user quiz_id with
      | Some _ => (st, Redirect AlreadyPassed)
      | None =>
        match method with
        | GET => (st, Render)
        | POST =>
          match grade request_form (content_questions st quiz) with
          | Py.Raise e => (st, ServerError e)
          | Py.Ok score =>
            let response :=
              mkStudentResponse
                (next_id (map response_id (responses st)))
                current_user (content_id quiz) (Some request_form)
                (Some score) true (Some now) in
            let st1 := add_response st response in
            match content_module st1 quiz with
            | None => (st, ServerError Py.AttributeError)
            | Some module =>
              match module_course st1 module with
              | None => (st, ServerError Py.AttributeError)
              | Some course =>
                let message :=
                  if Qle_bool 7 score then QuizPassed else QuizFailed in
                match find_enrollment st1 current_user (course_id course)
                with
                | None => (st1, Redirect message)
                | Some enrollment =>
                  match update_progress now' st1 enrollment with
                  | Py.Raise e => (st, ServerError e)
                  | Py.Ok (_, st2) => (st2, Redirect message)
                  end
                end
              end
            end
          end
        end
      end
  end.

(** [enroll_course(course_id)] at time [now]. *)
Definition enroll_course (current_user cid : Z) (now : datetime)
                         (st : store) : store * reply :=
  match get_course st cid with
  | None => (st, NotFound)
  | Some course =>
    match find_enrollment st current_user cid with
    | Some _ => (st, Redirect AlreadyEnrolled)
    | None =>
      let new_enrollment :=
        mkCourseEnrollment
          (next_id (map enrollment_id (enrollments st)))
          current_user cid now false 0%Q None in
      (mkStore (courses st) (modules st) (content_items st)
               (quiz_questions st)
               (enrollments st ++ [new_enrollment]) (responses st),
       Redirect Enrolled)
    end
  end.

(** [db.session.delete(content_item); db.session.commit()] under the
    relationships declared in [models.py].
    - [ContentItem.questions] has [cascade='all, delete-orphan']: the
      questions of the item are deleted with it.
    - [ContentItem.responses] is the plain backref of
      [StudentResponse.content_item], with no delete cascade: the unit of
      work detaches each response by setting its [content_item_id] to NULL.
      The column is [nullable=False], so when the item has a response the
      flush fails with [IntegrityError] and nothing is committed. *)
Definition session_delete_content (st : store) (c : ContentItem)
  : Py.result store :=
  match content_responses st c with
  | _ :: _ => Py.Raise Py.IntegrityError
  | [] =>
      Py.Ok (mkStore (courses st) (modules st)
               (filter (fun x => negb (content_id x =? content_id c))
                       (content_items st))
               (filter (fun q =>
                          negb (question_content_item_id q =? content_id c))
                       (quiz_questions st))
               (enrollments st) (responses st))
  end.

(** [delete_content(content_id)] for the logged-in instructor. *)
Definition delete_content (current_user cid : Z) (st : store)
  : store * reply :=
  match get_content st cid with
  | None => (st, NotFound)
  | Some content_item =>
    match content_module st content_item with
    | None => (st, ServerError Py.AttributeError)
    | Some module =>
      match module_course st module with
      | None => (st, ServerError Py.AttributeError)
      | Some course =>
        if negb (course_instructor_id course =? current_user) then
          (st, Redirect NoPermission)
        else
          match session_delete_content st content_item with
          | Py.Raise e => (st, ServerError e)
          | Py.Ok st' => (st', Redirect ContentDeleted)
          end
      end
    end
  end.

(** The body of the module-level loop that refreshes every enrollment when
    the application starts. *)
Definition backfill_enrollment (now : datetime) (st : store)
                               (enrollment : CourseEnrollment)
  : Py.result (CourseEnrollment * store) :=
  match enrollment_course st enrollment with
  | None => Py.Raise Py.AttributeError
  | Some course =>
      let total := total_content st course in
      let completed :=
        List.length
          (filter (fun r => (response_student_id r
                             =? enrollment_student_id enrollment)
                            && response_completed r)
                  (responses st)) in
      let e1 := set_progress enrollment (progress_of completed total) in
      let e2 :=
        if Qeq_bool (enrollment_progress e1) 100
        then set_completion e1 true (Some now)
        else set_completion e1 false None in
      Py.Ok (e2, commit_enrollment st e2)
  end.

(** [for enrollment in CourseEnrollment.query.all(): ...]; the [i]-th
    iteration reads the time [clock i]. *)
Fixpoint backfill_loop (clock : nat -> datetime) (i : nat)
                       (todo : list CourseEnrollment) (st : store)
  : Py.result store :=
  match todo with
  | [] => Py.Ok st
  | enrollment :: todo' =>
      match backfill_enrollment (clock i) st enrollment with
      | Py.Raise e => Py.Raise e
      | Py.Ok (_, st') => backfill_loop clock (S i) todo' st'
      end
  end.

Definition backfill (clock : nat -> datetime) (st : store)
  : Py.result store :=
  backfill_loop clock O (enrollments st) st.

(** [instructor_dashboard]: the number of content items of the course the
    student has completed,
    [db.session.query(ContentItem.id).join(StudentResponse).filter(
       StudentResponse.student_id == sid, StudentResponse.completed == True,
       ContentItem.module_id.in_([module.id for module in course.modules]))
     .group_by(ContentItem.id).count()]: one group per content item that
    joins with at least one such response. *)
Definition dashboard_completed_quizzes (st : store) (sid : Z) (c : Course)
  : nat :=
  List.length
    (filter (fun item =>
               existsb (Z.eqb (content_module_id item))
                       (map module_id (course_modules st c))
               && existsb (fun r => (response_content_item_id r
                                     =? content_id item)
                                    && (response_student_id r =? sid)
                                    && response_completed r)
                          (responses st))
            (content_items st)).

End App.

(** ** Vocabulary of the statements

    The specification's wording of the operations, next to descriptions of
    what the code writes. *)

Module Stated.

Import Models App.

(** Trimming surrounding whitespace, then folding case with [lower]. *)
Definition normalize (s : string) : string := Py.lower (Py.strip s).

(** Completed content "deduplicated by content-item id": the number of
    distinct content items of the course for which the student has a
    completed response. *)
Definition distinct_completed_content (st : store) (sid : Z) (c : Course)
  : nat :=
  List.length
    (nodup Z.eq_dec
       (map response_content_item_id
            (completed_responses_in st sid (course_content_ids st c)))).

(** A submitted answer "matches" when it equals the correct answer after
    normalization of both sides. *)
Definition answer_matches (f : form) (q : QuizQuestion) : bool :=
  match form_get f (question_id q) with
  | Some a => String.eqb (normalize (Py.str (correct_answer q)))
                         (normalize a)
  | None => false
  end.

Definition matching_answers (f : form) (questions : list QuizQuestion)
  : nat :=
  List.length (filter (answer_matches f) questions).

(** What the code counts: a matching answer that is not the empty
    string. *)
Definition counted_answers (f : form) (questions : list QuizQuestion)
  : nat :=
  List.length
    (filter (fun q => Py.truthy (form_get f (question_id q))
                      && answer_matches f q)
            questions).

Definition score_of (correct total : nat) : Q :=
  (inject_Z (Z.of_nat correct) / inject_Z (Z.of_nat total) * 10)%Q.

(** Grading as the specification words it: the score is computed from the
    number of matching answers, and three matching answers out of four
    give 7.5. *)
Definition grading_as_stated (f : form) (questions : list QuizQuestion)
  : Prop :=
  forall s, grade f questions = Py.Ok s ->
    (s == score_of (matching_answers f questions) (List.length questions))%Q
    /\ (List.length questions = 4%nat ->
        matching_answers f questions = 3%nat -> (s == 75 # 10)%Q).

(** The stored progress of an enrollment is the one a recomputation on
    the current store gives. *)
Definition progress_up_to_date (st : store) (e : CourseEnrollment) : Prop :=
  forall now e' st',
    update_progress now st e = Py.Ok (e', st') ->
    (enrollment_progress e == enrollment_progress e')%Q.

Definition no_reference_to (st : store) (x : Z) : Prop :=
  (forall r, In r (responses st) -> response_content_item_id r <> x)
  /\ (forall q, In q (quiz_questions st) -> question_content_item_id q <> x).

(** Cascade completeness as the specification words it, for the deletion of
    content item [x] by instructor [u]. *)
Definition cascade_complete_as_stated (u x : Z) (st : store) : Prop :=
  forall st', delete_content u x st = (st', Redirect ContentDeleted) ->
    no_reference_to st' x
    /\ (forall item m c e,
           get_content st x = Some item ->
           content_module st item = Some m ->
           module_course st m = Some c ->
           In e (enrollments st') ->
           enrollment_course_id e = course_id c ->
           progress_up_to_date st' e).

(** The student has a prior response to the quiz with score >= 7. *)
Definition passed_before (st : store) (u qid : Z) : Prop :=
  exists r s,
    In r (responses st)
    /\ response_student_id r = u
    /\ response_content_item_id r = qid
    /\ response_score r = Some s
    /\ (7 <= s)%Q.

(** The submission was graded with score [s] and recorded as the new
    response row [r]. *)
Definition graded_and_recorded (st st' : store) (f : form)
                               (quiz : ContentItem)
                               (r : StudentResponse) (s : Q) : Prop :=
  grade f (content_questions st quiz) = Py.Ok s
  /\ response_score r = Some s
  /\ responses st' = responses st ++ [r].

(** The retry policy as the specification words it, for one submission. *)
Definition retry_policy_as_stated (u qid : Z) (f : form)
                                  (now now' : datetime) (st : store)
  : Prop :=
  forall quiz,
    get_content st qid = Some quiz ->
    content_type quiz = "quiz"%string ->
    (passed_before st u qid ->
     take_quiz u qid POST f now now' st = (st, Redirect AlreadyPassed))
    /\ (~ passed_before st u qid ->
        exists r s,
          graded_and_recorded
            st (fst (take_quiz u qid POST f now now' st)) f quiz r s).

(** "Every submission that is not blocked creates a completed response",
    for one submission. *)
Definition completion_as_stated (u qid : Z) (f : form)
                                (now now' : datetime) (st : store) : Prop :=
  forall quiz,
    get_content st qid = Some quiz ->
    content_type quiz = "quiz"%string ->
    ~ passed_before st u qid ->
    exists r,
      responses (fst (take_quiz u qid POST f now now' st))
      = responses st ++ [r]
      /\ response_completed r = true
      /\ response_completion_date r <> None.

(** Idempotence as the specification words it: a second run changes
    nothing, the completion date included. *)
Definition recompute_idempotent_as_stated (now1 now2 : datetime)
                                          (st : store)
                                          (e : CourseEnrollment) : Prop :=
  forall e1 st1,
    update_progress now1 st e = Py.Ok (e1, st1) ->
    update_progress now2 st1 e1 = Py.Ok (e1, st1).

(** The row [take_quiz] records for a submission graded [s] at [now]. *)
Definition recorded_response (st : store) (u : Z) (quiz : ContentItem)
                             (f : form) (s : Q) (now : datetime)
  : StudentResponse :=
  mkStudentResponse (next_id (map response_id (responses st)))
    u (content_id quiz) (Some f) (Some s) true (Some now).

(** An enrollment row after a recomputation at [now] that found progress
    [p]: completed and stamped when [p] is 100, and otherwise only the
    progress is written. *)
Definition refreshed (now : datetime) (p : Q) (e : CourseEnrollment)
  : CourseEnrollment :=
  mkCourseEnrollment (enrollment_id e) (enrollment_student_id e)
    (enrollment_course_id e) (enrollment_date e)
    (if Qeq_bool p 100 then true else enrollment_completed e)
    p
    (if Qeq_bool p 100 then Some now else enrollment_completion_date e).

(** Two stores with the same courses, modules, content and questions. *)
Definition same_catalogue (st st' : store) : Prop :=
  courses st' = courses st
  /\ modules st' = modules st
  /\ content_items st' = content_items st
  /\ quiz_questions st' = quiz_questions st.

(** The number of enrollment rows of a (student, course) pair. *)
Definition enrollment_count (st : store) (u c : Z) : nat :=
  List.length
    (filter (fun e => (enrollment_student_id e =? u)
                      && (enrollment_course_id e =? c))
            (enrollments st)).

(** No (student, course) pair has two enrollment rows. *)
Definition pairs_unique (st : store) : Prop :=
  forall u c, (enrollment_count st u c <= 1)%nat.

(** Primary keys of the enrollment rows are distinct and no pair is enrolled
    twice. *)
Definition enrollments_ok (st : store) : Prop :=
  NoDup (map enrollment_id (enrollments st)) /\ pairs_unique st.

(** The completed flag of a row agrees with its progress. *)
Definition flag_agrees (e : CourseEnrollment) : Prop :=
  enrollment_completed e = true <-> (enrollment_progress e == 100)%Q.

(** The completed responses of student [u] to content item [x]. *)
Definition completed_responses_to (st : store) (u x : Z)
  : list StudentResponse :=
  filter (fun r => (response_student_id r =? u)
                   && response_completed r
                   && (response_content_item_id r =? x))
         (responses st).

(** The stores the application can be in: it starts without enrollments,
    students enroll and take quizzes, the start-up loop refreshes the
    enrollments, and anything else (the instructor's edits and deletions of
    courses, modules, content and questions) leaves the enrollment rows as
    they are or removes some of them. *)
Inductive reachable : store -> Prop :=
| reach_start (st : store) :
    enrollments st = [] -> reachable st
| reach_enroll (st : store) (u c : Z) (now : datetime) :
    reachable st -> reachable (fst (enroll_course u c now st))
| reach_take_quiz (st : store) (u q : Z) (method : http_method) (f : form)
                  (now now' : datetime) :
    reachable st -> reachable (fst (take_quiz u q method f now now' st))
| reach_delete_content (st : store) (u x : Z) :
    reachable st -> reachable (fst (delete_content u x st))
| reach_backfill (st st' : store) (clock : nat -> datetime) :
    reachable st -> backfill clock st = Py.Ok st' -> reachable st'
| reach_other (st st' : store) (keep : CourseEnrollment -> bool) :
    reachable st ->
    enrollments st' = filter keep (enrollments st) ->
    reachable st'.

End Stated.

(** ** Concrete stores *)

Module Scenario.

Import Models App.
Local Open Scope string_scope.

Definition algebra : Course := mkCourse 1 "Algebra" "Linear algebra" 100.
Definition vectors : Module_ := mkModule 1 "Vectors" "Week 1" 1 1.

Definition quiz (id order : Z) : ContentItem :=
  mkContentItem id "Quiz" "quiz" None None order 1.

Definition question (id quiz_id : Z) (answer : string) : QuizQuestion :=
  mkQuizQuestion id "?" quiz_id "short_answer" (Some answer) None.

(** A course of one module holding one quiz of one question. *)
Definition one_quiz : store :=
  mkStore [algebra] [vectors] [quiz 10 1] [question 1 10 "Paris"] [] [].

Definition wrong_answer : form := [(1, "Rome")].

(** Student 7 enrolls, then fails the quiz, then fails it again. *)
Definition enrolled : store := fst (enroll_course 7 1 1000 one_quiz).
Definition failed_once : store :=
  fst (take_quiz 7 10 POST wrong_answer 1001 1002 enrolled).
Definition failed_twice : store :=
  fst (take_quiz 7 10 POST wrong_answer 1003 1004 failed_once).

(** Student 7 enrolls and answers the quiz correctly. *)
Definition passed_once : store :=
  fst (take_quiz 7 10 POST [(1, "Paris")] 1001 1002 enrolled).

(** The enrollment row of student 7 after that submission. *)
Definition completed_enrollment : CourseEnrollment :=
  mkCourseEnrollment 1 7 1 1000 true 100 (Some 1002).

(** The instructor then adds two more quizzes to the module. *)
Definition grown : store :=
  mkStore (courses passed_once) (modules passed_once)
    (content_items passed_once ++ [quiz 11 2; quiz 12 3])
    (quiz_questions passed_once
       ++ [question 2 11 "4"; question 3 12 "Blue"])
    (enrollments passed_once) (responses passed_once).

Definition after_second_quiz : store :=
  fst (take_quiz 7 11 POST [(2, "4")] 2001 2002 grown).

(** The enrollment row of student 7 after the second failed submission,
    and after the submission to the second quiz of [grown]. *)
Definition overshot_enrollment : CourseEnrollment :=
  mkCourseEnrollment 1 7 1 1000 true 200 (Some 1002).

Definition stale_enrollment : CourseEnrollment :=
  mkCourseEnrollment 1 7 1 1000 true (200 # 3) (Some 1002).

(** A course of two quizzes; student 7 enrolls and answers the first. *)
Definition two_quizzes : store :=
  mkStore [algebra] [vectors] [quiz 10 1; quiz 11 2]
    [question 1 10 "Paris"; question 2 11 "4"] [] [].

Definition half_done : store :=
  fst (take_quiz 7 10 POST [(1, "paris")] 1001 1002
         (fst (enroll_course 7 1 1000 two_quizzes))).

(** A quiz all of whose questions were removed by [edit_quiz]. *)
Definition empty_quiz : store :=
  mkStore [algebra] [vectors] [quiz 20 1] [] [] [].

(** Four questions; the third has the empty correct answer that [new_quiz]
    stores when none is given. *)
Definition four_questions : list QuizQuestion :=
  [question 1 10 "Paris"; question 2 10 "4"; question 3 10 EmptyString;
   question 4 10 "Blue"].

Definition three_matching : form :=
  [(1, "  PARIS "); (2, "4"); (3, EmptyString); (4, "red")].

Definition three_counted : form :=
  [(1, "  PARIS "); (2, "4"); (3, "x"); (4, " bLue")].

End Scenario.

(** ** Further methods of [models.py] *)

Module ModelsMore.

Import Models App.

(** [sorted(l, key=key)]: Python's sort is stable, so an element is put in
    front of the first element whose key is not smaller. *)
Fixpoint insert_by {A : Type} (key : A -> Z) (a : A) (l : list A) : list A :=
  match l with
  | [] => [a]
  | b :: l' => if key a <=? key b then a :: l else b :: insert_by key a l'
  end.

Definition sorted {A : Type} (key : A -> Z) (l : list A) : list A :=
  fold_right (insert_by key) [] l.

(** [max(l, default=d)] on ints *)
Definition max_default (d : Z) (l : list Z) : Z :=
  match l with
  | [] => d
  | x :: l' => fold_left Z.max l' x
  end.

(** [Course.get_modules_sorted] *)
Definition get_modules_sorted (st : store) (self : Course) : list Module_ :=
  sorted module_order (course_modules st self).

(** [Course.get_total_content], with its loop and its counter. *)
Definition get_total_content (st : store) (self : Course) : nat :=
  fold_left (fun total_content module =>
               (total_content + List.length (module_content_items st module))%nat)
            (course_modules st self) O.

(** [Module.get_content_items_sorted] *)
Definition get_content_items_sorted (st : store) (self : Module_)
  : list ContentItem :=
  sorted content_order (module_content_items st self).

(** [Module.get_next_content_order] *)
Definition get_next_content_order (st : store) (self : Module_) : Z :=
  max_default 0 (map content_order (module_content_items st self)) + 1.

(** [db.session.commit()] with one dirty response. *)
Definition commit_response (st : store) (r : StudentResponse) : store :=
  mkStore (courses st) (modules st) (content_items st) (quiz_questions st)
    (enrollments st)
    (map (fun x => if response_id x =? response_id r then r else x)
         (responses st)).

(** [StudentResponse.mark_as_completed]: the flag and the date are committed
    first; [now] is the time stamped on the response and [now'] the time at
    which [update_progress] runs.  The store returned is what is committed
    when the method returns or raises. *)
Definition mark_as_completed (now now' : datetime) (st : store)
                             (self : StudentResponse)
  : store * Py.result unit :=
  let self1 :=
    mkStudentResponse (response_id self) (response_student_id self)
      (response_content_item_id self) (response_payload self)
      (response_score self) true (Some now) in
  let st1 := commit_response st self1 in
  match get_content st1 (response_content_item_id self1) with
  | None => (st1, Py.Raise Py.AttributeError)
  | Some content_item =>
    match content_module st1 content_item with
    | None => (st1, Py.Raise Py.AttributeError)
    | Some module =>
      let module_contents := module_content_items st1 module in
      let completed_contents :=
        List.length
          (completed_responses_in st1 (response_student_id self1)
             (map content_id module_contents)) in
      if (completed_contents =? List.length module_contents)%nat then
        match module_course st1 module with
        | None => (st1, Py.Raise Py.AttributeError)
        | Some course =>
          match find_enrollment st1 (response_student_id self1)
                                (course_id course) with
          | None => (st1, Py.Ok tt)
          | Some enrollment =>
            match update_progress now' st1 enrollment with
            | Py.Raise e => (st1, Py.Raise e)
            | Py.Ok (_, st2) => (st2, Py.Ok tt)
            end
          end
        end
      else (st1, Py.Ok tt)
    end
  end.

End ModelsMore.

(** ** Further handlers of [app.py] *)

Module AppMore.

Import Models App ModelsMore.

(** The text after the last ['.'] of a file name, [None] without a dot:
    [filename.rsplit('.', 1)[1]] under the test ['.' in filename]. *)
Fixpoint after_last_dot (l : list ascii) : option (list ascii) :=
  match l with
  | [] => None
  | c :: l' =>
      match after_last_dot l' with
      | Some ext => Some ext
      | None => if Ascii.eqb c "."%char then Some l' else None
      end
  end.

Definition ALLOWED_EXTENSIONS : list string :=
  ["pdf"; "docx"; "txt"; "mp4"]%string.

(** [allowed_file(filename)] *)
Definition allowed_file (filename : string) : bool :=
  match after_last_dot (list_ascii_of_string filename) with
  | None => false
  | Some ext =>
      existsb (String.eqb (Py.lower (string_of_list_ascii ext)))
              ALLOWED_EXTENSIONS
  end.

(** The messages the handlers below pass to [flash]. *)
Inductive notice : Type :=
| FieldsMissing         (* new_course, new_module: a field is empty *)
| TitleAndTypeMissing   (* new_content: title or type is empty *)
| NotYours              (* the course belongs to another instructor *)
| CourseCreated
| ModuleCreated
| ContentAdded
| CourseDeleted
| ModuleDeleted
| QuizDeleted
| DeleteFailed (e : Py.exn).  (* the except branch: rolled back *)

(** What these handlers answer. *)
Inductive answer : Type :=
| Missing                     (* get_or_404 aborts *)
| Notice (n : notice)         (* flash, then redirect *)
| Page                        (* render_template *)
| Failure (e : Py.exn).       (* unhandled exception *)

(** [new_course()] *)
Definition new_course (current_user : Z) (method : http_method)
                      (title description : option string) (st : store)
  : store * answer :=
  match method with
  | GET => (st, Page)
  | POST =>
    match title, description with
    | Some t, Some d =>
      if negb (Py.truthy title) || negb (Py.truthy description) then
        (st, Notice FieldsMissing)
      else
        let course :=
          mkCourse (next_id (map course_id (courses st))) t d current_user in
        (mkStore (courses st ++ [course]) (modules st) (content_items st)
                 (quiz_questions st) (enrollments st) (responses st),
         Notice CourseCreated)
    | _, _ => (st, Notice FieldsMissing)
    end
  end.

(** [new_module(course_id)] *)
Definition new_module (current_user cid : Z) (method : http_method)
                      (title description : option string) (st : store)
  : store * answer :=
  match get_course st cid with
  | None => (st, Missing)
  | Some course =>
    if negb (course_instructor_id course =? current_user) then
      (st, Notice NotYours)
    else
      match method with
      | GET => (st, Page)
      | POST =>
        match title, description with
        | Some t, Some d =>
          if negb (Py.truthy title) || negb (Py.truthy description) then
            (st, Notice FieldsMissing)
          else
            let last_order :=
              max_default 0 (map module_order (course_modules st course)) in
            let module :=
              mkModule (next_id (map module_id (modules st))) t d
                       (last_order + 1) (course_id course) in
            (mkStore (courses st) (modules st ++ [module])
                     (content_items st) (quiz_questions st)
                     (enrollments st) (responses st),
             Notice ModuleCreated)
        | _, _ => (st, Notice FieldsMissing)
        end
      end
  end.

(** [new_content(module_id)].  [file] is the name of the uploaded file, if
    any, and [stored_path name] stands for
    [os.path.join(UPLOAD_FOLDER, secure_filename(name))]; the file system is
    not part of the store. *)
Definition new_content (stored_path : string -> string)
                       (current_user mid : Z) (method : http_method)
                       (title content_type text_content video_url
                          file : option string)
                       (st : store) : store * answer :=
  match get_module st mid with
  | None => (st, Missing)
  | Some module =>
    match module_course st module with
    | None => (st, Failure Py.AttributeError)
    | Some course =>
      if negb (course_instructor_id course =? current_user) then
        (st, Notice NotYours)
      else
        match method with
        | GET => (st, Page)
        | POST =>
          match title, content_type with
          | Some t, Some ty =>
            if negb (Py.truthy title) || negb (Py.truthy content_type) then
              (st, Notice TitleAndTypeMissing)
            else
              let content :=
                if String.eqb ty "text" then text_content
                else if String.eqb ty "video" then video_url
                else None in
              let file_path :=
                if String.eqb ty "text" then None
                else if String.eqb ty "video" then None
                else if String.eqb ty "file" && Py.truthy file
                        && allowed_file (Py.str file)
                     then Some (stored_path (Py.str file))
                     else None in
              let last_order :=
                max_default 0
                  (map content_order (module_content_items st module)) in
              let new_item :=
                mkContentItem (next_id (map content_id (content_items st)))
                  t ty content file_path (last_order + 1) mid in
              (mkStore (courses st) (modules st)
                       (content_items st ++ [new_item]) (quiz_questions st)
                       (enrollments st) (responses st),
               Notice ContentAdded)
          | _, _ => (st, Notice TitleAndTypeMissing)
          end
        end
    end
  end.

(** The content items of the modules of a course. *)
Definition course_content_items (st : store) (c : Course)
  : list ContentItem :=
  flat_map (module_content_items st) (course_modules st c).

(** [delete_course(course_id)].  Inside the [try]: the responses to every
    content item of the course are deleted by query, then
    [db.session.delete(course)] removes the course and, through the
    [cascade='all, delete-orphan'] relationships of [models.py], its
    modules, their content items, the questions of these, and the
    enrollments of the course. *)
Definition delete_course (current_user cid : Z) (st : store)
  : store * answer :=
  match get_course st cid with
  | None => (st, Missing)
  | Some course =>
    if negb (course_instructor_id course =? current_user) then
      (st, Notice NotYours)
    else
      let module_ids := map module_id (course_modules st course) in
      let item_ids := map content_id (course_content_items st course) in
      (mkStore
         (filter (fun c => negb (course_id c =? course_id course))
                 (courses st))
         (filter (fun m => negb (module_course_id m =? course_id course))
                 (modules st))
         (filter (fun i => negb (existsb (Z.eqb (content_module_id i))
                                         module_ids))
                 (content_items st))
         (filter (fun q => negb (existsb (Z.eqb (question_content_item_id q))
                                         item_ids))
                 (quiz_questions st))
         (filter (fun e => negb (enrollment_course_id e =? course_id course))
                 (enrollments st))
         (filter (fun r => negb (existsb (Z.eqb (response_content_item_id r))
                                         item_ids))
                 (responses st)),
       Notice CourseDeleted)
  end.

(** [db.session.delete(module); db.session.commit()]: the content items of
    the module and their questions go with it; a response to one of these
    items makes the flush fail as in [session_delete_content]. *)
Definition session_delete_module (st : store) (m : Module_)
  : Py.result store :=
  let items := module_content_items st m in
  if existsb (fun i => negb (Nat.eqb (List.length (content_responses st i)) 0))
             items
  then Py.Raise Py.IntegrityError
  else
    let item_ids := map content_id items in
    Py.Ok (mkStore (courses st)
             (filter (fun x => negb (module_id x =? module_id m))
                     (modules st))
             (filter (fun i => negb (content_module_id i =? module_id m))
                     (content_items st))
             (filter (fun q =>
                        negb (existsb (Z.eqb (question_content_item_id q))
                                      item_ids))
                     (quiz_questions st))
             (enrollments st) (responses st)).

(** [delete_module(module_id)] *)
Definition delete_module (current_user mid : Z) (st : store)
  : store * answer :=
  match get_module st mid with
  | None => (st, Missing)
  | Some module =>
    match module_course st module with
    | None => (st, Failure Py.AttributeError)
    | Some course =>
      if negb (course_instructor_id course =? current_user) then
        (st, Notice NotYours)
      else
        match session_delete_module st module with
        | Py.Raise e => (st, Failure e)
        | Py.Ok st' => (st', Notice ModuleDeleted)
        end
    end
  end.

(** [delete_quiz(quiz_id)]: the questions are deleted one by one, then the
    item; an exception is caught, rolled back and reported. *)
Definition delete_quiz (current_user qid : Z) (st : store)
  : store * answer :=
  match get_content st qid with
  | None => (st, Missing)
  | Some quiz =>
    match content_module st quiz with
    | None => (st, Failure Py.AttributeError)
    | Some module =>
      match module_course st module with
      | None => (st, Failure Py.AttributeError)
      | Some course =>
        if negb (course_instructor_id course =? current_user) then
          (st, Notice NotYours)
        else
          match session_delete_content st quiz with
          | Py.Raise e => (st, Notice (DeleteFailed e))
          | Py.Ok st' => (st', Notice QuizDeleted)
          end
      end
    end
  end.

(** [explore_courses()]: the courses the student is not enrolled in. *)
Definition explore_courses (current_user : Z) (st : store) : list Course :=
  let enrolled_courses :=
    map enrollment_course_id
        (filter (fun e => enrollment_student_id e =? current_user)
                (enrollments st)) in
  filter (fun c => negb (existsb (Z.eqb (course_id c)) enrolled_courses))
         (courses st).

End AppMore.

(** ** Roles and users *)

Module Accounts.

Import App.

Record Role : Type := mkRole {
  role_id : Z;
  role_name : string
}.

Record User : Type := mkUser {
  user_id : Z;
  user_username : string;
  user_email : string;
  user_password : string;
  user_role_id : Z
}.

(** The tables [roles] and [users]. *)
Record accounts : Type := mkAccounts {
  roles : list Role;
  users : list User
}.

(** [Role.query.filter_by(name=name).first()] *)
Definition find_role (acc : accounts) (name : string) : option Role :=
  find (fun r => String.eqb (role_name r) name) (roles acc).

(** [User.query.filter_by(username=username).first()] *)
Definition find_user (acc : accounts) (username : string) : option User :=
  find (fun u => String.eqb (user_username u) username) (users acc).

(** [db.session.add(Role(name=name))] *)
Definition add_role (acc : accounts) (name : string) : accounts :=
  mkAccounts (roles acc ++ [mkRole (next_id (map role_id (roles acc))) name])
             (users acc).

(** [db.session.add(user); db.session.commit()]: [username] and [email] are
    [unique=True], so a second row with either raises [IntegrityError]. *)
Definition insert_user (acc : accounts)
                       (username email password : string) (role : Role)
  : Py.result accounts :=
  if existsb (fun u => String.eqb (user_username u) username
                       || String.eqb (user_email u) email)
             (users acc)
  then Py.Raise Py.IntegrityError
  else
    Py.Ok (mkAccounts (roles acc)
             (users acc
                ++ [mkUser (next_id (map user_id (users acc)))
                           username email password (role_id role)])).

(** [UserService.create_role(name)] *)
Definition create_role (name : string) (acc : accounts) : accounts :=
  match find_role acc name with
  | Some _ => acc
  | None => add_role acc name
  end.

(** The database initialization at start-up: the default roles, then the
    default admin user, inside [try ... except Exception] with a rollback.
    [password_hash] is what [bcrypt.generate_password_hash('admin123')]
    returns. *)
Definition init_db (password_hash : string) (acc : accounts) : accounts :=
  let acc1 :=
    fold_left (fun a role_name =>
                 match find_role a role_name with
                 | Some _ => a
                 | None => add_role a role_name
                 end)
              ["admin"; "instructor"; "student"]%string acc in
  match find_user acc1 "admin", find_role acc1 "admin" with
  | None, Some admin_role =>
      match insert_user acc1 "admin" "admin@example.com" password_hash
                        admin_role with
      | Py.Ok acc2 => acc2
      | Py.Raise _ => acc1
      end
  | _, _ => acc1
  end.

(** What [register_user] answers. *)
Inductive registration : Type :=
| RegistrationForm        (* GET *)
| RoleNotFound            (* flash 'Rol no encontrado.' *)
| UserCreated
| RegistrationError (e : Py.exn).

(** [register_user()]; [password] is the bcrypt hash of the form's
    password. *)
Definition register_user (method : http_method)
                         (username email password role_name : string)
                         (acc : accounts) : accounts * registration :=
  match method with
  | GET => (acc, RegistrationForm)
  | POST =>
    match find_role acc role_name with
    | None => (acc, RoleNotFound)
    | Some role =>
      match insert_user acc username email password role with
      | Py.Raise e => (acc, RegistrationError e)
      | Py.Ok acc' => (acc', UserCreated)
      end
    end
  end.

End Accounts.

(** ** Vocabulary of the further statements *)

Module StatedMore.

(** The completed flag of a row agrees with its progress, and its
    completion date with the flag. *)
Definition lifecycle_ok (e : CourseEnrollment) : Prop :=
  (enrollment_completed e = true <-> (enrollment_progress e == 100)%Q)
  /\ (enrollment_completion_date e = None <-> enrollment_completed e = false).

(** A list of characters without a dot. *)
Definition dotless (l : list ascii) : Prop := ~ In "."%char l.

(** No two users share a username, and no two an email. *)
Definition users_unique (acc : Accounts.accounts) : Prop :=
  NoDup (map Accounts.user_username (Accounts.users acc))
  /\ NoDup (map Accounts.user_email (Accounts.users acc)).

(** The roles the application works with. *)
Definition default_roles : list string :=
  ["admin"; "instructor"; "student"]%string.

(** A response row with [completed = True] and [completion_date = now]. *)
Definition marked (now : datetime) (r : StudentResponse) : StudentResponse :=
  mkStudentResponse (response_id r) (response_student_id r)
    (response_content_item_id r) (response_payload r) (response_score r)
    true (Some now).

End StatedMore.

(** ** More concrete stores *)

Module ScenarioMore.

Import Models App ModelsMore AppMore Accounts Scenario.
Local Open Scope string_scope.

Definition geometry : Course := mkCourse 2 "Geometry" "Plane geometry" 200.
Definition circles : Module_ := mkModule 2 "Circles" "Week 1" 1 2.

(** Two courses of two instructors, each with one quiz; student 7 is
    enrolled in both and has answered both quizzes. *)
Definition two_courses : store :=
  mkStore [algebra; geometry] [vectors; circles]
    [quiz 10 1; mkContentItem 30 "Quiz" "quiz" None None 1 2]
    [question 1 10 "Paris"; question 5 30 "pi"]
    [mkCourseEnrollment 1 7 1 1000 true 100 (Some 1002);
     mkCourseEnrollment 2 7 2 1000 true 100 (Some 1003)]
    [mkStudentResponse 1 7 10 None (Some 10%Q) true (Some 1001);
     mkStudentResponse 2 7 30 None (Some 10%Q) true (Some 1003)].

(** A module with three content items whose orders are not in insertion
    order and tie once. *)
Definition shuffled : store :=
  mkStore [algebra] [vectors]
    [mkContentItem 1 "c" "text" (Some "C") None 3 1;
     mkContentItem 2 "a" "text" (Some "A") None 1 1;
     mkContentItem 3 "b" "video" (Some "B") None 3 1]
    [] [] [].

(** The tables of roles and users before the first start. *)
Definition no_accounts : accounts := mkAccounts [] [].

End ScenarioMore.

(** * Properties *)

(** ** Arithmetic of the two ratios *)

Section RatioArithmetic.

Lemma Zcompare_scale (k a b : Z) :
  0 < k -> (a * k ?= b * k) = (a ?= b).
Proof.
  intro Hk.
  destruct (Z.compare_spec a b);
    [apply Z.compare_eq_iff | apply Z.compare_lt_iff | apply Z.compare_gt_iff];
    nia.
Qed.

(** Comparing [c / t * k] with [a * k] is comparing [c] with [a * t]. *)
Lemma ratio_compare (c n : nat) (k a : Z) :
  0 < k ->
  (inject_Z (Z.of_nat c) / inject_Z (Z.of_nat (S n)) * inject_Z k
   ?= inject_Z a * inject_Z k)%Q
  = (Z.of_nat c ?= a * Z.of_nat (S n)).
Proof.
  intro Hk.
  unfold Qcompare, Qdiv, Qmult, Qinv, inject_Z. cbn [Qnum Qden Z.of_nat].
  rewrite !Z.mul_1_r, Pos.mul_1_l, !Pos.mul_1_r.
  rewrite <- (Zcompare_scale k (Z.of_nat c)) by assumption.
  f_equal. ring.
Qed.

Lemma ratio_nonneg (c n : nat) (k : Z) :
  0 < k ->
  (0 <= inject_Z (Z.of_nat c) / inject_Z (Z.of_nat (S n)) * inject_Z k)%Q.
Proof.
  intro Hk. apply Qle_alt.
  rewrite <- Qcompare_antisym.
  change 0%Q with (0 # 1)%Q.
  assert (E : (0 # 1 == inject_Z 0 * inject_Z k)%Q) by reflexivity.
  rewrite E, ratio_compare by assumption.
  destruct (Z.compare_spec (Z.of_nat c) (0 * Z.of_nat (S n)));
    cbn; try discriminate; lia.
Qed.

Lemma ratio_le (c n : nat) (k : Z) :
  0 < k -> (c <= S n)%nat ->
  (inject_Z (Z.of_nat c) / inject_Z (Z.of_nat (S n)) * inject_Z k
   <= inject_Z k)%Q.
Proof.
  intros Hk Hle. apply Qle_alt.
  assert (E : (inject_Z k == inject_Z 1 * inject_Z k)%Q)
    by (now rewrite Qmult_1_l).
  rewrite E at 2. rewrite ratio_compare by assumption.
  intro H. apply Z.compare_gt_iff in H. lia.
Qed.

End RatioArithmetic.

(** ** The progress formula *)

Section ProgressFormula.

Import Models.

Lemma progress_of_succ (c n : nat) :
  progress_of c (S n)
  = (inject_Z (Z.of_nat c) / inject_Z (Z.of_nat (S n)) * inject_Z 100)%Q.
Proof. reflexivity. Qed.

(** No division is performed for a course without content. *)
Lemma progress_of_zero_total (c : nat) : progress_of c 0 = 0%Q.
Proof. reflexivity. Qed.

Lemma progress_of_nonneg (c t : nat) : (0 <= progress_of c t)%Q.
Proof.
  destruct t as [|n]; [apply Qle_refl|].
  rewrite progress_of_succ. now apply ratio_nonneg.
Qed.

Lemma progress_of_le_100 (c t : nat) :
  (c <= t)%nat -> (progress_of c t <= 100)%Q.
Proof.
  intro Hle. destruct t as [|n]; [discriminate|].
  rewrite progress_of_succ. now apply (ratio_le c n 100).
Qed.

Lemma progress_of_eq_100 (c t : nat) :
  (progress_of c t == 100)%Q <-> (0 < t)%nat /\ c = t.
Proof.
  destruct t as [|n].
  - cbn. split; [discriminate | lia].
  - rewrite progress_of_succ, Qeq_alt.
    change 100%Q with (inject_Z 1 * inject_Z 100)%Q.
    rewrite ratio_compare, Z.compare_eq_iff by lia. lia.
Qed.

Lemma progress_of_pos (c t : nat) :
  (0 < c)%nat -> (0 < t)%nat -> (0 < progress_of c t)%Q.
Proof.
  intros Hc Ht. destruct t as [|n]; [lia|].
  rewrite progress_of_succ. apply Qgt_alt.
  change 0%Q with (inject_Z 0 * inject_Z 100)%Q.
  rewrite ratio_compare by lia. apply Z.compare_gt_iff. lia.
Qed.

(** More completed rows than content items push the progress past 100. *)
Lemma progress_of_gt_100 (c t : nat) :
  (0 < t < c)%nat -> (100 < progress_of c t)%Q.
Proof.
  intros [Ht Hc]. destruct t as [|n]; [lia|].
  rewrite progress_of_succ. apply Qgt_alt.
  change 100%Q with (inject_Z 1 * inject_Z 100)%Q.
  rewrite ratio_compare by lia. apply Z.compare_gt_iff. lia.
Qed.

End ProgressFormula.

(** ** Normalization of answers *)

Section Normalization.

Lemma lstrip_chars_app (l : list ascii) (c : ascii) :
  Py.isspace c = true ->
  Py.lstrip_chars (l ++ [c]) = []
  \/ Py.lstrip_chars (l ++ [c]) = Py.lstrip_chars l ++ [c].
Proof.
  intro Hc. induction l as [|x l IH]; cbn.
  - rewrite Hc. now left.
  - destruct (Py.isspace x); [exact IH | now right].
Qed.

Lemma lstrip_chars_nil_app (l : list ascii) (c : ascii) :
  Py.lstrip_chars (l ++ [c]) = [] -> Py.lstrip_chars l = [].
Proof.
  induction l as [|x l IH]; cbn; [reflexivity|].
  destruct (Py.isspace x); [exact IH | discriminate].
Qed.

(** Whitespace at either end of the characters is trimmed away. *)
Lemma strip_chars_leading (l : list ascii) (c : ascii) :
  Py.isspace c = true ->
  Py.rstrip_chars (Py.lstrip_chars (c :: l))
  = Py.rstrip_chars (Py.lstrip_chars l).
Proof. intro Hc. cbn. now rewrite Hc. Qed.

Lemma strip_chars_trailing (l : list ascii) (c : ascii) :
  Py.isspace c = true ->
  Py.rstrip_chars (Py.lstrip_chars (l ++ [c]))
  = Py.rstrip_chars (Py.lstrip_chars l).
Proof.
  intro Hc. destruct (lstrip_chars_app l c Hc) as [E|E].
  - rewrite E, (lstrip_chars_nil_app l c E). reflexivity.
  - rewrite E. unfold Py.rstrip_chars. rewrite rev_app_distr. cbn.
    now rewrite Hc.
Qed.

(** A leading whitespace character does not change the trimmed string. *)
Lemma strip_leading (c : ascii) (s : string) :
  Py.isspace c = true -> Py.strip (String c s) = Py.strip s.
Proof.
  intro Hc. unfold Py.strip. cbn [list_ascii_of_string].
  now rewrite strip_chars_leading.
Qed.

(** What is trimmed has no whitespace at its start. *)
Lemma lstrip_chars_head (l : list ascii) :
  match Py.lstrip_chars l with
  | [] => True
  | c :: _ => Py.isspace c = false
  end.
Proof.
  induction l as [|x l IH]; cbn; [trivial|].
  destruct (Py.isspace x) eqn:E; [exact IH | exact E].
Qed.

(** Lower-casing a character twice is lower-casing it once, and it turns
    no character into whitespace or whitespace into another character. *)
Lemma lower_char_idempotent (c : ascii) :
  Py.lower_char (Py.lower_char c) = Py.lower_char c.
Proof.
  destruct c as [[] [] [] [] [] [] [] []]; reflexivity.
Qed.

Lemma lower_char_isspace (c : ascii) :
  Py.isspace (Py.lower_char c) = Py.isspace c.
Proof.
  destruct c as [[] [] [] [] [] [] [] []]; reflexivity.
Qed.

Lemma lower_idempotent (s : string) : Py.lower (Py.lower s) = Py.lower s.
Proof.
  unfold Py.lower. rewrite list_ascii_of_string_of_list_ascii, map_map.
  f_equal. apply map_ext. apply lower_char_idempotent.
Qed.

End Normalization.

(** ** Grading *)

Section Grading.

Import Models App Stated.

Lemma filter_length_le {A : Type} (p : A -> bool) (l : list A) :
  (List.length (filter p l) <= List.length l)%nat.
Proof.
  induction l as [|x l IH]; cbn; [lia|].
  destruct (p x); cbn; lia.
Qed.

(** The guard of the loop body, in terms of [answer_matches]. *)
Lemma loop_guard (f : form) (q : QuizQuestion) :
  Py.truthy (form_get f (question_id q))
  && is_answer_correct q (form_get f (question_id q))
  = Py.truthy (form_get f (question_id q)) && answer_matches f q.
Proof.
  unfold is_answer_correct, answer_matches, normalize.
  destruct (form_get f (question_id q)) as [a|]; reflexivity.
Qed.

Lemma count_loop (f : form) (questions : list QuizQuestion) (n : nat) :
  fold_left
    (fun correct_answers question =>
       let student_answer := form_get f (question_id question) in
       if Py.truthy student_answer
          && is_answer_correct question student_answer
       then S correct_answers
       else correct_answers)
    questions n
  = (n + counted_answers f questions)%nat.
Proof.
  revert n. unfold counted_answers.
  induction questions as [|q qs IH]; intro n; cbn [fold_left filter].
  - cbn. lia.
  - rewrite IH. cbv zeta. rewrite loop_guard.
    destruct (Py.truthy (form_get f (question_id q)) && answer_matches f q);
      cbn [List.length]; lia.
Qed.

(** The loop counts the questions whose submitted answer is not empty and
    matches after normalization. *)
Lemma count_correct_answers_counted (f : form) (qs : list QuizQuestion) :
  count_correct_answers f qs = counted_answers f qs.
Proof. unfold count_correct_answers. now rewrite count_loop. Qed.

Lemma counted_le_matching (f : form) (qs : list QuizQuestion) :
  (counted_answers f qs <= matching_answers f qs)%nat.
Proof.
  unfold counted_answers, matching_answers.
  induction qs as [|q qs IH]; cbn [filter]; [lia|].
  destruct (Py.truthy (form_get f (question_id q))), (answer_matches f q);
    cbn [andb List.length]; lia.
Qed.

Lemma counted_le_total (f : form) (qs : list QuizQuestion) :
  (counted_answers f qs <= List.length qs)%nat.
Proof. apply filter_length_le. Qed.

(** A quiz without questions cannot be graded: the division raises. *)
Lemma grade_no_question (f : form) :
  grade f [] = Py.Raise Py.ZeroDivisionError.
Proof. reflexivity. Qed.

Lemma grade_some_question (f : form) (qs : list QuizQuestion) :
  qs <> [] ->
  grade f qs
  = Py.Ok (score_of (counted_answers f qs) (List.length qs)).
Proof.
  intro Hne. unfold grade. rewrite count_correct_answers_counted.
  destruct qs as [|q qs]; [contradiction|]. reflexivity.
Qed.

Lemma score_of_bounds (c t : nat) :
  (0 < t)%nat -> (c <= t)%nat -> (0 <= score_of c t <= 10)%Q.
Proof.
  intros Ht Hle. destruct t as [|n]; [lia|]. unfold score_of. split.
  - now apply (ratio_nonneg c n 10).
  - now apply (ratio_le c n 10).
Qed.

End Grading.

(** ** Lookups *)

Section Lookups.

Import Models App Stated.

Variable st : store.

Lemma get_content_some (x : Z) (item : ContentItem) :
  get_content st x = Some item ->
  In item (content_items st) /\ content_id item = x.
Proof.
  intro H. apply find_some in H. destruct H as [Hin Hid].
  split; [assumption | now apply Z.eqb_eq].
Qed.

Lemma get_module_some (x : Z) (m : Module_) :
  get_module st x = Some m -> In m (modules st) /\ module_id m = x.
Proof.
  intro H. apply find_some in H. destruct H as [Hin Hid].
  split; [assumption | now apply Z.eqb_eq].
Qed.

Lemma get_course_some (x : Z) (c : Course) :
  get_course st x = Some c -> In c (courses st) /\ course_id c = x.
Proof.
  intro H. apply find_some in H. destruct H as [Hin Hid].
  split; [assumption | now apply Z.eqb_eq].
Qed.

(** A course that was found is found again under its own id. *)
Lemma get_course_self (x : Z) (c : Course) :
  get_course st x = Some c -> get_course st (course_id c) = Some c.
Proof.
  intro H. destruct (get_course_some _ _ H) as [_ E]. now rewrite E.
Qed.

(** The content item belongs to the course: its id is among the ids
    [update_progress] collects. *)
Lemma content_in_course (x : Z) (item : ContentItem) (m : Module_)
                        (c : Course) :
  get_content st x = Some item ->
  content_module st item = Some m ->
  module_course st m = Some c ->
  In (content_id item) (course_content_ids st c).
Proof.
  intros Hi Hm Hc.
  destruct (get_content_some _ _ Hi) as [Hin _].
  destruct (get_module_some _ _ Hm) as [Hmin Hmid].
  destruct (get_course_some _ _ Hc) as [_ Hcid].
  unfold course_content_ids. apply in_flat_map. exists m. split.
  - apply filter_In. split; [assumption | apply Z.eqb_eq; congruence].
  - apply in_map. apply filter_In. split; [assumption|].
    apply Z.eqb_eq. congruence.
Qed.

(** The query of [take_quiz] finds a row exactly when the student has
    passed the quiz before. *)
Lemma existing_response_some (u qid : Z) :
  (exists r, existing_response st u qid = Some r) <-> passed_before st u qid.
Proof.
  unfold existing_response, passed_before. split.
  - intros [r H]. apply find_some in H. destruct H as [Hin Hp].
    apply andb_prop in Hp. destruct Hp as [Hp Hs].
    apply andb_prop in Hp. destruct Hp as [Hu Hq].
    destruct (response_score r) as [s|] eqn:Es; [|discriminate].
    exists r, s. repeat split; try assumption.
    + now apply Z.eqb_eq.
    + now apply Z.eqb_eq.
    + now apply Qle_bool_iff.
  - intros (r & s & Hin & Hu & Hq & Hs & Hle).
    match goal with |- exists _, find ?p ?l = _ =>
      destruct (find p l) as [r'|] eqn:E end.
    + now exists r'.
    + apply (find_none _ _ E) in Hin. revert Hin. rewrite Hs.
      apply Z.eqb_eq in Hu, Hq. apply Qle_bool_iff in Hle.
      rewrite Hu, Hq, Hle. discriminate.
Qed.

Lemma existing_response_none (u qid : Z) :
  existing_response st u qid = None <-> ~ passed_before st u qid.
Proof.
  rewrite <- existing_response_some. split.
  - intros E [r H]. congruence.
  - intro H. destruct (existing_response st u qid) as [r|] eqn:E;
      [|reflexivity]. exfalso. apply H. now exists r.
Qed.

End Lookups.

(** ** One recomputation *)

Section Recompute.

Import Models App Stated.

(** [update_progress] returns normally exactly when the course of the
    enrollment exists, and then writes the row [refreshed]. *)
Lemma update_progress_ok (now : datetime) (st : store)
                         (e : CourseEnrollment) (c : Course) :
  enrollment_course st e = Some c ->
  let p := progress_of (completed_content st (enrollment_student_id e) c)
                       (total_content st c) in
  update_progress now st e
  = Py.Ok (refreshed now p e, commit_enrollment st (refreshed now p e)).
Proof.
  intros Hc p. unfold update_progress. rewrite Hc. fold p.
  unfold refreshed, set_progress, set_completion.
  cbn [enrollment_progress]. destruct (Qeq_bool p 100); reflexivity.
Qed.

Lemma update_progress_raises (now : datetime) (st : store)
                             (e : CourseEnrollment) :
  enrollment_course st e = None ->
  update_progress now st e = Py.Raise Py.AttributeError.
Proof. intro Hc. unfold update_progress. now rewrite Hc. Qed.

(** Inversion of a normal return. *)
Lemma update_progress_inv (now : datetime) (st st' : store)
                          (e e' : CourseEnrollment) :
  update_progress now st e = Py.Ok (e', st') ->
  exists c,
    enrollment_course st e = Some c
    /\ e' = refreshed now
              (progress_of
                 (completed_content st (enrollment_student_id e) c)
                 (total_content st c)) e
    /\ st' = commit_enrollment st e'.
Proof.
  intro H. destruct (enrollment_course st e) as [c|] eqn:Hc.
  - rewrite (update_progress_ok now st e c Hc) in H.
    injection H as <- <-. now exists c.
  - rewrite (update_progress_raises now st e Hc) in H. discriminate.
Qed.

End Recompute.

(** ** Quiz submissions *)

Section TakeQuiz.

Import Models App Stated.

Variables (st : store) (u qid : Z) (f : form) (now now' : datetime).
Variable quiz : ContentItem.
Hypothesis Hquiz : get_content st qid = Some quiz.
Hypothesis Htype : content_type quiz = "quiz"%string.

(** A student who passed before is turned away, whatever the method, and
    the store is left as it was. *)
Lemma take_quiz_blocked (method : http_method) :
  passed_before st u qid ->
  take_quiz u qid method f now now' st = (st, Redirect AlreadyPassed).
Proof.
  intro Hp. apply existing_response_some in Hp. destruct Hp as [r Hr].
  unfold take_quiz. rewrite Hquiz, Htype, Hr. reflexivity.
Qed.

(** A quiz without questions: the division of [take_quiz] raises and
    nothing is written. *)
Lemma take_quiz_no_question :
  ~ passed_before st u qid ->
  content_questions st quiz = [] ->
  take_quiz u qid POST f now now' st
  = (st, ServerError Py.ZeroDivisionError).
Proof.
  intros Hp Hq. apply existing_response_none in Hp.
  unfold take_quiz. rewrite Hquiz, Htype, Hp, Hq. reflexivity.
Qed.

Variables (m : Module_) (c : Course).
Hypothesis Hmodule : content_module st quiz = Some m.
Hypothesis Hcourse : module_course st m = Some c.

(** The graded path: the response is appended, the catalogue is untouched,
    the student's enrollment in the course (if any) is recomputed on the
    store that holds the new response, and the flash depends on the
    score. *)
Lemma take_quiz_graded (s : Q) :
  ~ passed_before st u qid ->
  grade f (content_questions st quiz) = Py.Ok s ->
  let r := recorded_response st u quiz f s now in
  exists st',
    take_quiz u qid POST f now now' st
    = (st', Redirect (if Qle_bool 7 s then QuizPassed else QuizFailed))
    /\ responses st' = responses st ++ [r]
    /\ same_catalogue st st'
    /\ enrollments st'
       = match find_enrollment st u (course_id c) with
         | None => enrollments st
         | Some e =>
             enrollments
               (commit_enrollment st
                  (refreshed now'
                     (progress_of
                        (completed_content (add_response st r) u c)
                        (total_content st c))
                     e))
         end.
Proof.
  intros Hp Hg r. apply existing_response_none in Hp.
  unfold take_quiz. rewrite Hquiz, Htype, Hp, Hg. cbn [negb].
  fold (recorded_response st u quiz f s now). fold r.
  change (content_module (add_response st r) quiz)
    with (content_module st quiz).
  rewrite Hmodule.
  change (module_course (add_response st r) m) with (module_course st m).
  rewrite Hcourse.
  change (find_enrollment (add_response st r) u (course_id c))
    with (find_enrollment st u (course_id c)).
  destruct (find_enrollment st u (course_id c)) as [e|] eqn:He.
  - apply find_some in He. destruct He as [_ He].
    apply andb_prop in He. destruct He as [Hu He].
    apply Z.eqb_eq in He. apply Z.eqb_eq in Hu.
    rewrite (update_progress_ok _ _ _ c).
    + eexists. split; [reflexivity|]. cbn. rewrite Hu.
      repeat split.
    + change (enrollment_course (add_response st r) e)
        with (get_course st (enrollment_course_id e)).
      rewrite He. apply (get_course_self _ _ _ Hcourse).
  - eexists. split; [reflexivity|]. cbn. repeat split.
Qed.

End TakeQuiz.

(** ** Grading a submission (claim C7) *)

Section GradingClaim.

Import Models App Stated Scenario.

(** C7, as stated, fails: with the four questions of [four_questions] and
    the answers of [three_matching], three submitted answers equal the
    correct answer after trimming and case folding (one of them is the
    empty answer to a question whose correct answer is empty), yet the code
    returns 5 and not 7.5: its loop skips an empty answer before comparing
    it. *)
Lemma grading_as_stated_fails :
  ~ grading_as_stated three_matching four_questions.
Proof.
  intro H. destruct (H (20 # 4)%Q eq_refl) as [H1 _].
  vm_compute in H1. discriminate H1.
Qed.

(** C7, amended: grading counts a question as correct when the submitted
    answer is not empty and equals the question's correct answer after
    trimming surrounding whitespace and case-folding (with [str.lower]) both
    sides, with no partial credit, and returns
    (correct_count / total_questions) * 10, a score between 0 and 10; for a
    4-question quiz with exactly 3 such answers the score is 7.5. *)
Theorem grade_score (f : form) (qs : list QuizQuestion) :
  qs <> [] ->
  exists s,
    grade f qs = Py.Ok s
    /\ s = score_of (counted_answers f qs) (List.length qs)
    /\ (0 <= s <= 10)%Q
    /\ (List.length qs = 4%nat -> counted_answers f qs = 3%nat ->
        (s == 75 # 10)%Q).
Proof.
  intro Hne. eexists. split; [now apply grade_some_question|].
  split; [reflexivity|]. split.
  - apply score_of_bounds; [|apply counted_le_total].
    destruct qs; [contradiction | cbn; lia].
  - intros H4 H3. rewrite H4, H3. reflexivity.
Qed.

Lemma grade_score_witness :
  exists s,
    grade three_counted four_questions = Py.Ok s
    /\ s = score_of (counted_answers three_counted four_questions)
                    (List.length four_questions)
    /\ (0 <= s <= 10)%Q
    /\ (List.length four_questions = 4%nat ->
        counted_answers three_counted four_questions = 3%nat ->
        (s == 75 # 10)%Q).
Proof. apply (grade_score three_counted four_questions). discriminate. Defined.

(** The normalization at work: surrounding whitespace and case are
    ignored, inner characters are not. *)
Example is_answer_correct_examples :
  is_answer_correct (question 1 10 "Paris") (Some "  pARIS "%string) = true
  /\ is_answer_correct (question 1 10 "Paris") (Some "Par is"%string) = false
  /\ is_answer_correct (question 1 10 EmptyString) (Some "   "%string) = true
  /\ Py.truthy (Some EmptyString) = false.
Proof. repeat split. Qed.

End GradingClaim.

(** ** Quizzes without questions (claim C5) *)

Section EmptyQuizClaim.

Import Models App Stated Scenario.

(** C5: a submission to a quiz that has no question is not rejected by a
    validation: [take_quiz] reaches the division by [total_questions = 0],
    which raises [ZeroDivisionError]; the request ends as a server error
    and nothing is written. *)
Theorem take_quiz_empty_quiz_raises :
  take_quiz 7 20 POST [] 3000 3001 empty_quiz
  = (empty_quiz, ServerError Py.ZeroDivisionError).
Proof. reflexivity. Qed.

End EmptyQuizClaim.

(** ** The retry policy (claim C4) *)

Section RetryClaim.

Import Models App Stated Scenario.

(** C4, as stated, fails: student 7 has no response to quiz 20 of
    [empty_quiz], which has no question; the submission is neither graded
    nor recorded. *)
Lemma retry_policy_as_stated_fails :
  ~ retry_policy_as_stated 7 20 [] 3000 3001 empty_quiz.
Proof.
  intro H. destruct (H (quiz 20 1) eq_refl eq_refl) as [_ H2].
  destruct H2 as (r & s & Hg & _).
  - intros (r & s & Hin & _). destruct Hin.
  - discriminate Hg.
Qed.

(** C4, amended: if some prior response of the student to the quiz has
    score >= 7, a submission is rejected before grading (reported as
    already passed, store unchanged, so no new response row); if there is
    no such response and the quiz has at least one question, the
    submission is graded and a new response row holding the score is
    appended. *)
Theorem retry_policy (st : store) (u qid : Z) (f : form)
                     (now now' : datetime)
                     (quiz : ContentItem) (m : Module_) (c : Course) :
  get_content st qid = Some quiz ->
  content_type quiz = "quiz"%string ->
  content_module st quiz = Some m ->
  module_course st m = Some c ->
  (passed_before st u qid ->
   take_quiz u qid POST f now now' st = (st, Redirect AlreadyPassed))
  /\ (~ passed_before st u qid ->
      content_questions st quiz <> [] ->
      exists r s,
        graded_and_recorded
          st (fst (take_quiz u qid POST f now now' st)) f quiz r s).
Proof.
  intros Hq Ht Hm Hc. split.
  - now apply take_quiz_blocked with (quiz := quiz).
  - intros Hp Hne.
    destruct (take_quiz_graded st u qid f now now' quiz Hq Ht m c Hm Hc
                _ Hp (grade_some_question f _ Hne))
      as (st' & Hrun & Hresp & _).
    rewrite Hrun. cbn [fst].
    eexists. eexists. split; [now apply grade_some_question|].
    split; [|exact Hresp]. reflexivity.
Qed.

Lemma retry_policy_witness :
  (passed_before enrolled 7 10 ->
   take_quiz 7 10 POST wrong_answer 1001 1002 enrolled
   = (enrolled, Redirect AlreadyPassed))
  /\ (~ passed_before enrolled 7 10 ->
      content_questions enrolled (quiz 10 1) <> [] ->
      exists r s,
        graded_and_recorded
          enrolled (fst (take_quiz 7 10 POST wrong_answer 1001 1002 enrolled))
          wrong_answer (quiz 10 1) r s).
Proof.
  apply (retry_policy enrolled 7 10 wrong_answer 1001 1002
           (quiz 10 1) vectors algebra); reflexivity.
Defined.

End RetryClaim.

(** ** Running the recomputation twice (claim C8) *)

Section IdempotenceClaim.

Import Models App Stated Scenario.

Lemma commit_enrollment_twice (st : store) (e : CourseEnrollment) :
  commit_enrollment (commit_enrollment st e) e = commit_enrollment st e.
Proof.
  unfold commit_enrollment. cbn [courses modules content_items
    quiz_questions enrollments responses].
  f_equal. rewrite map_map. apply map_ext. intro x.
  destruct (enrollment_id x =? enrollment_id e) eqn:E;
    [now rewrite Z.eqb_refl | now rewrite E].
Qed.

Lemma refreshed_twice (now1 now2 : datetime) (p : Q) (e : CourseEnrollment) :
  refreshed now2 p (refreshed now1 p e)
  = if Qeq_bool p 100 then refreshed now2 p e else refreshed now1 p e.
Proof. unfold refreshed. cbn. destruct (Qeq_bool p 100); reflexivity. Qed.

(** C8, as stated, fails: on [passed_once] the enrollment of student 7 is
    at 100; a run at time 3000 stamps 3000, a second run at time 4000
    replaces the stamp by 4000. *)
Lemma recompute_idempotent_as_stated_fails :
  enrollments passed_once = [completed_enrollment]
  /\ ~ recompute_idempotent_as_stated 3000 4000 passed_once
                                      completed_enrollment.
Proof.
  split; [reflexivity|].
  intro H. specialize (H _ _ eq_refl). vm_compute in H. discriminate H.
Qed.

(** C8, amended: running the recomputation twice in succession with no
    intervening writes leaves the same progress and the same completed
    flag as running it once; the completion date is the same too unless
    the progress is 100, in which case each run stamps the time at which
    it runs.  When the progress is not 100, or both runs read the same
    time, the second run changes nothing in the enrollment or the
    store. *)
Theorem update_progress_twice (now1 now2 : datetime) (st st1 : store)
                              (e e1 : CourseEnrollment) :
  update_progress now1 st e = Py.Ok (e1, st1) ->
  exists e2 st2,
    update_progress now2 st1 e1 = Py.Ok (e2, st2)
    /\ enrollment_progress e2 = enrollment_progress e1
    /\ enrollment_completed e2 = enrollment_completed e1
    /\ enrollment_completion_date e2
       = (if Qeq_bool (enrollment_progress e1) 100
          then Some now2
          else enrollment_completion_date e1)
    /\ (Qeq_bool (enrollment_progress e1) 100 = false \/ now2 = now1 ->
        e2 = e1 /\ st2 = st1).
Proof.
  intro H. apply update_progress_inv in H.
  destruct H as (c & Hc & He1 & Hst1).
  set (p := progress_of (completed_content st (enrollment_student_id e) c)
                        (total_content st c)) in *.
  assert (Hc1 : enrollment_course st1 e1 = Some c) by (now subst e1 st1).
  pose proof (update_progress_ok now2 st1 e1 c Hc1) as Hrun. cbv zeta in Hrun.
  assert (Hp : progress_of
                 (completed_content st1 (enrollment_student_id e1) c)
                 (total_content st1 c) = p) by (now subst e1 st1).
  rewrite Hp in Hrun. rewrite Hrun.
  eexists. eexists. split; [reflexivity|].
  subst e1. rewrite refreshed_twice. cbn [refreshed enrollment_progress].
  destruct (Qeq_bool p 100) eqn:E.
  - cbn. rewrite E. repeat split.
    + destruct H as [H| ->]; [discriminate | reflexivity].
    + destruct H as [H| ->]; [discriminate|].
      subst st1. apply commit_enrollment_twice.
  - cbn. rewrite E. repeat split.
    subst st1. apply commit_enrollment_twice.
Qed.

Lemma update_progress_twice_witness :
  exists e2 st2,
    update_progress 4000
      (commit_enrollment passed_once
         (refreshed 3000 100 completed_enrollment))
      (refreshed 3000 100 completed_enrollment)
    = Py.Ok (e2, st2)
    /\ enrollment_progress e2
       = enrollment_progress (refreshed 3000 100 completed_enrollment)
    /\ enrollment_completed e2
       = enrollment_completed (refreshed 3000 100 completed_enrollment)
    /\ enrollment_completion_date e2
       = (if Qeq_bool
               (enrollment_progress
                  (refreshed 3000 100 completed_enrollment)) 100
          then Some 4000
          else enrollment_completion_date
                 (refreshed 3000 100 completed_enrollment))
    /\ (Qeq_bool
          (enrollment_progress (refreshed 3000 100 completed_enrollment))
          100 = false \/ 4000 = 3000 ->
        e2 = refreshed 3000 100 completed_enrollment
        /\ st2 = commit_enrollment passed_once
                   (refreshed 3000 100 completed_enrollment)).
Proof.
  apply (update_progress_twice 3000 4000 passed_once _ completed_enrollment).
  reflexivity.
Defined.

End IdempotenceClaim.

(** ** Enrolling twice (claim C9) *)

Section EnrollmentClaim.

Import Models App Stated Scenario.

Lemma find_none_filter {A : Type} (p : A -> bool) (l : list A) :
  find p l = None -> filter p l = [].
Proof.
  induction l as [|x l IH]; cbn; [reflexivity|].
  destruct (p x); [discriminate | exact IH].
Qed.

Lemma find_some_filter {A : Type} (p : A -> bool) (l : list A) (x : A) :
  find p l = Some x -> (1 <= List.length (filter p l))%nat.
Proof.
  induction l as [|y l IH]; cbn; [discriminate|].
  destruct (p y); cbn; [lia | exact IH].
Qed.

Lemma find_app_none {A : Type} (p : A -> bool) (l : list A) (x : A) :
  find p l = None -> p x = true -> find p (l ++ [x]) = Some x.
Proof.
  intros Hn Hx. induction l as [|y l IH]; cbn in *.
  - now rewrite Hx.
  - destruct (p y); [discriminate | now apply IH].
Qed.

(** A request of a student who is already enrolled changes nothing. *)
Lemma enroll_course_again (u c : Z) (now : datetime) (st : store)
                          (course : Course) (e : CourseEnrollment) :
  get_course st c = Some course ->
  find_enrollment st u c = Some e ->
  enroll_course u c now st = (st, Redirect AlreadyEnrolled).
Proof. intros Hc He. unfold enroll_course. now rewrite Hc, He. Qed.

(** A request of a student who is not enrolled appends one row. *)
Lemma enroll_course_new (u c : Z) (now : datetime) (st : store)
                        (course : Course) :
  get_course st c = Some course ->
  find_enrollment st u c = None ->
  exists st',
    enroll_course u c now st = (st', Redirect Enrolled)
    /\ courses st' = courses st
    /\ enrollments st'
       = enrollments st
         ++ [mkCourseEnrollment
               (next_id (map enrollment_id (enrollments st)))
               u c now false 0%Q None].
Proof.
  intros Hc He. unfold enroll_course. rewrite Hc, He.
  eexists. split; [reflexivity|]. split; reflexivity.
Qed.

(** [enroll_course] never creates a second row for a pair. *)
Lemma enroll_course_keeps_pairs_unique (u c : Z) (now : datetime)
                                       (st : store) :
  pairs_unique st -> pairs_unique (fst (enroll_course u c now st)).
Proof.
  intros Hu u' c'. unfold enroll_course.
  destruct (get_course st c) as [course|]; [|apply Hu].
  destruct (find_enrollment st u c) as [e|] eqn:He; [apply Hu|].
  unfold enrollment_count. cbn [fst enrollments].
  rewrite filter_app, length_app. cbn [filter enrollment_student_id
    enrollment_course_id].
  destruct ((u =? u') && (c =? c')) eqn:E.
  - apply andb_prop in E. destruct E as [E1 E2].
    apply Z.eqb_eq in E1. apply Z.eqb_eq in E2. subst u' c'.
    unfold find_enrollment in He. rewrite (find_none_filter _ _ He).
    cbn. lia.
  - cbn [List.length]. specialize (Hu u' c'). unfold enrollment_count in Hu.
    lia.
Qed.

(** C9: for a course that exists and a pair that has at most one
    enrollment row (as every pair has in the stores the application
    reaches), after a first enrollment request a second request for the
    same pair is a no-op and not an error: it answers that the student is
    already enrolled, returns the store of the first request unchanged (so
    no row is created and no field changes), and exactly one row exists for
    the pair. *)
Theorem enroll_twice (u c : Z) (now1 now2 : datetime) (st : store)
                     (course : Course) :
  get_course st c = Some course ->
  (enrollment_count st u c <= 1)%nat ->
  let st1 := fst (enroll_course u c now1 st) in
  enroll_course u c now2 st1 = (st1, Redirect AlreadyEnrolled)
  /\ enrollment_count st1 u c = 1%nat.
Proof.
  intros Hc Hle st1. subst st1.
  destruct (find_enrollment st u c) as [e|] eqn:He.
  - rewrite (enroll_course_again u c now1 st course e Hc He). cbn [fst].
    split; [now apply enroll_course_again with (course := course) (e := e)|].
    apply find_some_filter in He. unfold enrollment_count in *. lia.
  - destruct (enroll_course_new u c now1 st course Hc He)
      as (st' & Hrun & Hcs & Hes).
    rewrite Hrun. cbn [fst].
    set (row := mkCourseEnrollment
                  (next_id (map enrollment_id (enrollments st)))
                  u c now1 false 0%Q None) in *.
    assert (Hrow : (enrollment_student_id row =? u)
                   && (enrollment_course_id row =? c) = true)
      by (cbn; now rewrite !Z.eqb_refl).
    split.
    + apply enroll_course_again with (course := course) (e := row).
      * unfold get_course in *. now rewrite Hcs.
      * unfold find_enrollment in *. rewrite Hes.
        now apply find_app_none.
    + unfold enrollment_count, find_enrollment in *.
      rewrite Hes, filter_app, length_app, (find_none_filter _ _ He).
      cbn [filter]. rewrite Hrow. reflexivity.
Qed.

Lemma enroll_twice_witness :
  let st1 := fst (enroll_course 7 1 1000 one_quiz) in
  enroll_course 7 1 5000 st1 = (st1, Redirect AlreadyEnrolled)
  /\ enrollment_count st1 7 1 = 1%nat.
Proof.
  apply (enroll_twice 7 1 1000 5000 one_quiz algebra).
  - reflexivity.
  - cbn. lia.
Defined.

End EnrollmentClaim.

(** ** Deleting a content item (claim C3) *)

Section DeletionClaim.

Import Models App Stated Scenario.

Lemma filter_nil_false {A : Type} (p : A -> bool) (l : list A) (x : A) :
  filter p l = [] -> In x l -> p x = false.
Proof.
  intros Hf Hin. destruct (p x) eqn:E; [|reflexivity].
  assert (H : In x (filter p l)) by (apply filter_In; now split).
  rewrite Hf in H. destruct H.
Qed.

(** What a successful [delete_content] does to the store. *)
Lemma delete_content_done (u x : Z) (st st' : store) :
  delete_content u x st = (st', Redirect ContentDeleted) ->
  exists item,
    get_content st x = Some item
    /\ content_responses st item = []
    /\ session_delete_content st item = Py.Ok st'.
Proof.
  unfold delete_content. intro H.
  destruct (get_content st x) as [item|]; [|discriminate].
  destruct (content_module st item) as [m|]; [|discriminate].
  destruct (module_course st m) as [c|]; [|discriminate].
  destruct (negb (course_instructor_id c =? u)); [discriminate|].
  destruct (session_delete_content st item) as [st''|err] eqn:Hd;
    [|discriminate].
  injection H as ->. exists item. split; [reflexivity|]. split; [|exact Hd].
  unfold session_delete_content in Hd.
  destruct (content_responses st item); [reflexivity | discriminate].
Qed.

(** A content item that has a response cannot be deleted: the flush raises
    and the store stays as it was. *)
Lemma delete_content_with_responses (u x : Z) (st : store)
      (item : ContentItem) (m : Module_) (c : Course) :
  get_content st x = Some item ->
  content_module st item = Some m ->
  module_course st m = Some c ->
  course_instructor_id c = u ->
  content_responses st item <> [] ->
  delete_content u x st = (st, ServerError Py.IntegrityError).
Proof.
  intros Hi Hm Hc Hu Hr. unfold delete_content.
  rewrite Hi, Hm, Hc, Hu, Z.eqb_refl. cbn [negb].
  unfold session_delete_content.
  destruct (content_responses st item); [contradiction | reflexivity].
Qed.

(** C3, as stated, fails: in [half_done] student 7 has answered one of the
    two quizzes and the enrollment stands at 50; deleting the other quiz
    leaves the stored progress at 50 although a recomputation gives 100. *)
Lemma cascade_complete_as_stated_fails :
  ~ cascade_complete_as_stated 100 11 half_done.
Proof.
  intro H. destruct (H _ eq_refl) as [_ H2].
  specialize (H2 (quiz 11 2) vectors algebra
                 (mkCourseEnrollment 1 7 1 1000 false (100 # 2) None)
                 eq_refl eq_refl eq_refl (or_introl eq_refl) eq_refl).
  specialize (H2 6000 _ _ eq_refl). vm_compute in H2. discriminate H2.
Qed.

(** C3, amended: after a content item X has been deleted, no
    StudentResponse row and no QuizQuestion row referencing X remains in
    the store and X itself is gone; the deletion recomputes no progress:
    every enrollment row is exactly as it was before. *)
Theorem delete_content_cascade (u x : Z) (st st' : store) :
  delete_content u x st = (st', Redirect ContentDeleted) ->
  no_reference_to st' x
  /\ get_content st' x = None
  /\ enrollments st' = enrollments st.
Proof.
  intro H. apply delete_content_done in H.
  destruct H as (item & Hi & Hr & Hd).
  destruct (get_content_some st x item Hi) as [_ Hid].
  unfold session_delete_content in Hd. rewrite Hr in Hd.
  injection Hd as <-. rewrite Hid. cbn [responses quiz_questions
    enrollments]. split; [split|split].
  - intros r Hin E.
    apply (filter_nil_false _ _ r Hr) in Hin.
    rewrite Hid in Hin. apply Z.eqb_neq in Hin. contradiction.
  - intros q Hin E. apply filter_In in Hin. destruct Hin as [_ Hin].
    apply negb_true_iff, Z.eqb_neq in Hin. contradiction.
  - unfold get_content. cbn [content_items].
    match goal with |- find ?p ?l = None =>
      destruct (find p l) as [y|] eqn:E; [|reflexivity] end.
    apply find_some in E. destruct E as [Hin Hy].
    apply filter_In in Hin. destruct Hin as [_ Hin].
    rewrite Hy in Hin. discriminate.
  - reflexivity.
Qed.

Lemma delete_content_cascade_witness :
  no_reference_to (fst (delete_content 100 11 half_done)) 11
  /\ get_content (fst (delete_content 100 11 half_done)) 11 = None
  /\ enrollments (fst (delete_content 100 11 half_done))
     = enrollments half_done.
Proof.
  apply (delete_content_cascade 100 11 half_done). reflexivity.
Defined.

End DeletionClaim.

(** ** Counting completed content (claims C1 and C6) *)

Section CountingClaims.

Import Models App Stated Scenario.

Lemma nodup_length_le (l : list Z) :
  (List.length (nodup Z.eq_dec l) <= List.length l)%nat.
Proof.
  induction l as [|x l IH]; cbn; [lia|].
  destruct (in_dec Z.eq_dec x l); cbn; lia.
Qed.

(** The deduplicated count never exceeds the count of rows. *)
Lemma distinct_le_completed (st : store) (sid : Z) (c : Course) :
  (distinct_completed_content st sid c <= completed_content st sid c)%nat.
Proof.
  unfold distinct_completed_content, completed_content.
  rewrite <- (length_map response_content_item_id
                (completed_responses_in st sid (course_content_ids st c))).
  apply nodup_length_le.
Qed.

(** [total_content] is the number of ids [update_progress] collects. *)
Lemma total_content_ids (st : store) (c : Course) :
  total_content st c = List.length (course_content_ids st c).
Proof.
  unfold total_content, course_content_ids.
  induction (course_modules st c) as [|m ms IH]; [reflexivity|].
  cbn [map flat_map]. rewrite length_app, length_map, <- IH. reflexivity.
Qed.

(** When no content item has two completed responses of the student, the
    completed content is at most the total content. *)
Lemma completed_le_total (st : store) (sid : Z) (c : Course) :
  NoDup (map response_content_item_id
             (completed_responses_in st sid (course_content_ids st c))) ->
  (completed_content st sid c <= total_content st c)%nat.
Proof.
  intro Hnd. rewrite total_content_ids. unfold completed_content.
  rewrite <- (length_map response_content_item_id
                (completed_responses_in st sid (course_content_ids st c))).
  apply NoDup_incl_length; [assumption|].
  intros x Hx. apply in_map_iff in Hx. destruct Hx as (r & <- & Hr).
  apply filter_In in Hr. destruct Hr as [_ Hr].
  apply andb_prop in Hr. destruct Hr as [_ Hr].
  apply existsb_exists in Hr. destruct Hr as (y & Hy & E).
  apply Z.eqb_eq in E. now rewrite E.
Qed.

(** What does hold of every recomputation: the progress is not negative,
    it is 0 for a course without content, and it is at most 100 when no
    content item has two completed responses of the student. *)
Lemma update_progress_bounds (now : datetime) (st st' : store)
                             (e e' : CourseEnrollment) :
  update_progress now st e = Py.Ok (e', st') ->
  exists c,
    enrollment_course st e = Some c
    /\ (0 <= enrollment_progress e')%Q
    /\ (total_content st c = 0%nat -> enrollment_progress e' = 0%Q)
    /\ (NoDup (map response_content_item_id
                   (completed_responses_in st (enrollment_student_id e)
                      (course_content_ids st c))) ->
        (enrollment_progress e' <= 100)%Q).
Proof.
  intro H. apply update_progress_inv in H.
  destruct H as (c & Hc & -> & _). exists c. split; [assumption|].
  cbn [refreshed enrollment_progress]. split; [apply progress_of_nonneg|].
  split.
  - intros ->. apply progress_of_zero_total.
  - intro Hnd. apply progress_of_le_100. now apply completed_le_total.
Qed.

Lemma filter_length_mono {A : Type} (p q : A -> bool) (l : list A) :
  (forall x, p x = true -> q x = true) ->
  (List.length (filter p l) <= List.length (filter q l))%nat.
Proof.
  intro H. induction l as [|x l IH]; cbn; [lia|].
  destruct (p x) eqn:E.
  - rewrite (H x E). cbn. lia.
  - destruct (q x); cbn; lia.
Qed.

(** Every completed response to a content item of the course is counted:
    an item with [n] completed responses of the student contributes [n]. *)
Lemma completed_content_counts_each_row (st : store) (u x : Z) (c : Course) :
  In x (course_content_ids st c) ->
  (List.length (completed_responses_to st u x)
   <= completed_content st u c)%nat.
Proof.
  intro Hin. unfold completed_responses_to, completed_content,
    completed_responses_in.
  apply filter_length_mono. intros r Hr.
  apply andb_prop in Hr. destruct Hr as [Hr Hx]. rewrite Hr. cbn [andb].
  apply Z.eqb_eq in Hx. apply existsb_exists. exists x.
  split; [assumption | now apply Z.eqb_eq].
Qed.

(** C1: [update_progress] counts response rows, not content items.  After
    student 7 has failed the only quiz of the course twice, the two
    completed responses to that quiz make the count of completed content 2
    for a course of 1 content item, where the count deduplicated by
    content-item id, and the count the instructor dashboard makes with
    [group_by(ContentItem.id)], are 1. *)
Theorem completed_content_counts_rows :
  total_content failed_twice algebra = 1%nat
  /\ List.length (completed_responses_to failed_twice 7 10) = 2%nat
  /\ completed_content failed_twice 7 algebra = 2%nat
  /\ distinct_completed_content failed_twice 7 algebra = 1%nat
  /\ dashboard_completed_quizzes failed_twice 7 algebra = 1%nat.
Proof. repeat split. Qed.

(** C6: the progress leaves [0, 100].  The store [failed_twice] is reached
    from a course with one quiz by an enrollment and two failed
    submissions, and the second submission stores the enrollment with
    progress 200. *)
Theorem progress_exceeds_100 :
  reachable failed_twice
  /\ find_enrollment failed_twice 7 1 = Some overshot_enrollment
  /\ (enrollment_progress overshot_enrollment == 200)%Q
  /\ ~ (0 <= enrollment_progress overshot_enrollment <= 100)%Q.
Proof.
  split.
  - apply reach_take_quiz, reach_take_quiz, reach_enroll, reach_start.
    reflexivity.
  - split; [reflexivity|]. split; [reflexivity|].
    intros [_ H]. vm_compute in H. now apply H.
Qed.

End CountingClaims.

(** ** Every graded submission completes its content item (claim C10) *)

Section CompletionClaim.

Import Models App Stated Scenario.

(** The row recorded for a submission is one more completed response of
    the student within the course. *)
Lemma completed_content_add_response
      (st : store) (u x : Z) (quiz : ContentItem) (m : Module_)
      (c : Course) (f : form) (s : Q) (now : datetime) :
  get_content st x = Some quiz ->
  content_module st quiz = Some m ->
  module_course st m = Some c ->
  completed_content (add_response st (recorded_response st u quiz f s now))
                    u c
  = S (completed_content st u c).
Proof.
  intros Hq Hm Hc.
  pose proof (content_in_course st x quiz m c Hq Hm Hc) as Hin.
  unfold completed_content, completed_responses_in.
  change (course_content_ids (add_response st ?r) c)
    with (course_content_ids st c).
  cbn [responses add_response].
  rewrite filter_app, length_app. cbn [filter recorded_response
    response_student_id response_completed response_content_item_id].
  rewrite Z.eqb_refl. cbn [andb].
  assert (E : existsb (Z.eqb (content_id quiz)) (course_content_ids st c)
              = true).
  { apply existsb_exists. exists (content_id quiz). split; [assumption|].
    apply Z.eqb_refl. }
  rewrite E. cbn [List.length]. lia.
Qed.

(** After a commit the query for the pair finds the committed row. *)
Lemma find_enrollment_commit (st : store) (u c : Z)
                             (e e' : CourseEnrollment) :
  find_enrollment st u c = Some e ->
  enrollment_id e' = enrollment_id e ->
  enrollment_student_id e' = u ->
  enrollment_course_id e' = c ->
  find_enrollment (commit_enrollment st e') u c = Some e'.
Proof.
  intros Hf Hid Hu Hc. unfold find_enrollment in *.
  cbn [enrollments commit_enrollment].
  induction (enrollments st) as [|x l IH]; [discriminate|].
  cbn [map find] in *.
  destruct (enrollment_id x =? enrollment_id e') eqn:Ex.
  - now rewrite Hu, Hc, !Z.eqb_refl.
  - destruct ((enrollment_student_id x =? u)
              && (enrollment_course_id x =? c)) eqn:Ep.
    + injection Hf as ->. rewrite Hid, Z.eqb_refl in Ex. discriminate.
    + now apply IH.
Qed.

(** C10, as stated, fails: student 8 is not blocked on quiz 20 of
    [empty_quiz], and the submission creates no response. *)
Lemma completion_as_stated_fails :
  ~ completion_as_stated 8 20 [(1, "x"%string)] 3000 3001 empty_quiz.
Proof.
  intro H. destruct (H (quiz 20 1) eq_refl eq_refl) as (r & Hr & _).
  - intros (r & s & Hin & _). destruct Hin.
  - discriminate Hr.
Qed.

(** C10, amended: every submission to a quiz with at least one question
    that is not blocked by the passed-quiz rule appends a response with
    [completed = True] and a completion date, whatever the score; that
    response is among the completed responses the progress recomputation
    counts for the course, and the student's enrollment in the course, if
    there is one, is left with the progress computed from that count,
    which is positive, also when the score is below 7. *)
Theorem submission_completes_content
        (st : store) (u qid : Z) (f : form) (now now' : datetime)
        (quiz : ContentItem) (m : Module_) (c : Course) :
  get_content st qid = Some quiz ->
  content_type quiz = "quiz"%string ->
  content_module st quiz = Some m ->
  module_course st m = Some c ->
  ~ passed_before st u qid ->
  content_questions st quiz <> [] ->
  exists (st' : store) (msg : flash) (r : StudentResponse) (s : Q),
    take_quiz u qid POST f now now' st = (st', Redirect msg)
    /\ responses st' = responses st ++ [r]
    /\ response_score r = Some s
    /\ response_completed r = true
    /\ response_completion_date r = Some now
    /\ In r (completed_responses_in st' u (course_content_ids st' c))
    /\ (forall e, find_enrollment st u (course_id c) = Some e ->
          exists e',
            find_enrollment st' u (course_id c) = Some e'
            /\ enrollment_progress e'
               = progress_of (completed_content st' u c)
                             (total_content st' c)
            /\ (0 < enrollment_progress e')%Q).
Proof.
  intros Hq Ht Hm Hc Hp Hne.
  destruct (take_quiz_graded st u qid f now now' quiz Hq Ht m c Hm Hc
              _ Hp (grade_some_question f _ Hne))
    as (st' & Hrun & Hresp & (Hcs & Hms & His & Hqs) & Henr).
  set (s := score_of (counted_answers f (content_questions st quiz))
                     (List.length (content_questions st quiz))) in *.
  pose proof (completed_content_add_response st u qid quiz m c f s now
                Hq Hm Hc) as Hinc.
  pose proof (content_in_course st qid quiz m c Hq Hm Hc) as Hin.
  assert (Hids : course_content_ids st' c = course_content_ids st c).
  { unfold course_content_ids, course_modules, module_content_items.
    now rewrite Hms, His. }
  assert (Hcount : completed_content st' u c = S (completed_content st u c)).
  { rewrite <- Hinc. unfold completed_content, completed_responses_in.
    rewrite Hids, Hresp. reflexivity. }
  assert (Htotal : total_content st' c = total_content st c).
  { now rewrite !total_content_ids, Hids. }
  exists st'. eexists. exists (recorded_response st u quiz f s now), s.
  split; [exact Hrun|]. split; [exact Hresp|].
  split; [reflexivity|]. split; [reflexivity|]. split; [reflexivity|].
  split.
  - unfold completed_responses_in. apply filter_In. split.
    + rewrite Hresp. apply in_or_app. right. now left.
    + cbn [recorded_response response_student_id response_completed
           response_content_item_id].
      rewrite Z.eqb_refl, Hids. cbn [andb]. apply existsb_exists.
      exists (content_id quiz). split; [assumption | apply Z.eqb_refl].
  - intros e He. rewrite He, Hinc in Henr.
    exists (refreshed now'
              (progress_of (S (completed_content st u c))
                           (total_content st c)) e).
    split; [|split].
    + unfold find_enrollment in *. rewrite Henr.
      pose proof He as He'. apply find_some in He'. destruct He' as [_ He'].
      apply andb_prop in He'. destruct He' as [Hu Hcid].
      apply Z.eqb_eq in Hu. apply Z.eqb_eq in Hcid.
      now apply (find_enrollment_commit st u (course_id c) e).
    + now rewrite Hcount, Htotal.
    + cbn [refreshed enrollment_progress]. apply progress_of_pos; [lia|].
      rewrite total_content_ids. destruct (course_content_ids st c);
        [destruct Hin | cbn; lia].
Qed.

Lemma submission_completes_content_witness :
  exists (st' : store) (msg : flash) (r : StudentResponse) (s : Q),
    take_quiz 7 10 POST wrong_answer 1001 1002 enrolled
    = (st', Redirect msg)
    /\ responses st' = responses enrolled ++ [r]
    /\ response_score r = Some s
    /\ response_completed r = true
    /\ response_completion_date r = Some 1001
    /\ In r (completed_responses_in st' 7 (course_content_ids st' algebra))
    /\ (forall e, find_enrollment enrolled 7 (course_id algebra) = Some e ->
          exists e',
            find_enrollment st' 7 (course_id algebra) = Some e'
            /\ enrollment_progress e'
               = progress_of (completed_content st' 7 algebra)
                             (total_content st' algebra)
            /\ (0 < enrollment_progress e')%Q).
Proof.
  apply (submission_completes_content enrolled 7 10 wrong_answer 1001 1002
           (quiz 10 1) vectors algebra); try reflexivity.
  - intros (r & s & Hin & _). destruct Hin.
  - discriminate.
Defined.

End CompletionClaim.

(** ** Completion and progress (claim C2) *)

Section CompletionFlagClaim.

Import Models App Stated Scenario.

(** A recomputation that finds 100 marks the enrollment completed and
    stamps it; one that finds another value leaves the flag and the date
    as they were. *)
Lemma update_progress_flag (now : datetime) (st st' : store)
                           (e e' : CourseEnrollment) :
  update_progress now st e = Py.Ok (e', st') ->
  ((enrollment_progress e' == 100)%Q ->
   enrollment_completed e' = true
   /\ enrollment_completion_date e' = Some now)
  /\ (~ (enrollment_progress e' == 100)%Q ->
      enrollment_completed e' = enrollment_completed e
      /\ enrollment_completion_date e' = enrollment_completion_date e).
Proof.
  intro H. apply update_progress_inv in H.
  destruct H as (c & _ & -> & _).
  cbn [refreshed enrollment_progress enrollment_completed
       enrollment_completion_date].
  split; intro Hp.
  - apply Qeq_bool_iff in Hp. rewrite Hp. now split.
  - destruct (Qeq_bool _ 100) eqn:E; [|now split].
    apply Qeq_bool_iff in E. contradiction.
Qed.

(** The loop run at start-up does keep the flag and the date in step with
    the progress, in both directions. *)
Lemma backfill_enrollment_flag (now : datetime) (st st' : store)
                               (e e' : CourseEnrollment) :
  backfill_enrollment now st e = Py.Ok (e', st') ->
  (enrollment_completed e' = true <-> (enrollment_progress e' == 100)%Q)
  /\ (enrollment_completion_date e'
      = if enrollment_completed e' then Some now else None).
Proof.
  unfold backfill_enrollment. intro H.
  destruct (enrollment_course st e) as [c|]; [|discriminate].
  injection H as <- _.
  cbn [set_progress enrollment_progress].
  destruct (Qeq_bool _ 100) eqn:E; cbn; (split; [|reflexivity]).
  - split; [intros _; now apply Qeq_bool_iff | reflexivity].
  - split; [discriminate|]. intro Hp. apply Qeq_bool_iff in Hp.
    congruence.
Qed.

(** C2: [update_progress] does not revert a completed enrollment.  Student
    7 completed the course when it had one quiz; the course then grew to
    three quizzes and the student answered a second one.  The
    recomputation of that submission stores progress 200/3 and leaves
    [completed = True] with the old completion date, whereas the start-up
    loop run on the same store resets the flag and clears the date. *)
Theorem completed_not_reverted :
  find_enrollment grown 7 1 = Some completed_enrollment
  /\ find_enrollment after_second_quiz 7 1 = Some stale_enrollment
  /\ enrollment_completed stale_enrollment = true
  /\ enrollment_completion_date stale_enrollment = Some 1002
  /\ ~ (enrollment_progress stale_enrollment == 100)%Q
  /\ (exists e' st',
        backfill_enrollment 7000 after_second_quiz stale_enrollment
        = Py.Ok (e', st')
        /\ enrollment_completed e' = false
        /\ enrollment_completion_date e' = None).
Proof.
  split; [reflexivity|]. split; [reflexivity|]. split; [reflexivity|].
  split; [reflexivity|]. split; [discriminate|].
  eexists. eexists. split; [reflexivity|]. split; reflexivity.
Qed.

End CompletionFlagClaim.


(** ** Enrollment rows of the reachable stores *)

Section ReachableStores.

Import Models App Stated.

Lemma max_id_bound (ids : list Z) (x : Z) :
  In x ids -> x <= fold_right Z.max 0 ids.
Proof.
  induction ids as [|y ids IH]; cbn; [contradiction|].
  intros [->|Hin]; [lia|]. specialize (IH Hin). lia.
Qed.

(** A new primary key is not in use. *)
Lemma next_id_fresh (ids : list Z) : ~ In (next_id ids) ids.
Proof.
  intro Hin. apply max_id_bound in Hin. unfold next_id in Hin. lia.
Qed.

Lemma NoDup_snoc {A : Type} (l : list A) (x : A) :
  NoDup l -> ~ In x l -> NoDup (l ++ [x]).
Proof.
  intros Hnd Hx. induction Hnd as [|y l Hy Hnd IH]; cbn.
  - constructor; [intros [] | constructor].
  - constructor.
    + rewrite in_app_iff. intros [H|[->|[]]]; [contradiction|].
      apply Hx. now left.
    + apply IH. intro H. apply Hx. now right.
Qed.

Lemma NoDup_map_filter {A B : Type} (g : A -> B) (p : A -> bool)
                       (l : list A) :
  NoDup (map g l) -> NoDup (map g (filter p l)).
Proof.
  induction l as [|x l IH]; cbn; [trivial|].
  intro H. inversion H as [|? ? Hx Hnd]; subst.
  destruct (p x); [|now apply IH]. cbn. constructor; [|now apply IH].
  intro Hin. apply Hx. apply in_map_iff in Hin.
  destruct Hin as (y & E & Hy). apply filter_In in Hy.
  apply in_map_iff. exists y. tauto.
Qed.

Lemma filter_map_length {A : Type} (p : A -> bool) (g : A -> A)
                        (l : list A) :
  (forall x, In x l -> p (g x) = p x) ->
  List.length (filter p (map g l)) = List.length (filter p l).
Proof.
  induction l as [|x l IH]; cbn; [reflexivity|]. intro H.
  rewrite (H x (or_introl eq_refl)).
  destruct (p x); cbn; rewrite IH; auto.
Qed.

Lemma filter_filter_length {A : Type} (p keep : A -> bool) (l : list A) :
  (List.length (filter p (filter keep l)) <= List.length (filter p l))%nat.
Proof.
  induction l as [|x l IH]; cbn; [lia|].
  destruct (keep x), (p x) eqn:E; cbn; rewrite ?E; cbn; lia.
Qed.

(** Two rows of a table with distinct primary keys that share their key are
    the same row. *)
Lemma same_id_same_row (l : list CourseEnrollment) (x y : CourseEnrollment) :
  NoDup (map enrollment_id l) ->
  In x l -> In y l -> enrollment_id x = enrollment_id y -> x = y.
Proof.
  induction l as [|z l IH]; cbn; [contradiction|].
  intros Hnd Hx Hy E. inversion Hnd as [|? ? Hz Hnd']; subst.
  destruct Hx as [->|Hx], Hy as [->|Hy]; try reflexivity.
  - exfalso. apply Hz. rewrite E. now apply in_map.
  - exfalso. apply Hz. rewrite <- E. now apply in_map.
  - now apply IH.
Qed.

(** Committing a recomputed row keeps both. *)
Lemma commit_enrollment_ok (st : store) (e e' : CourseEnrollment) :
  enrollments_ok st ->
  In e (enrollments st) ->
  enrollment_id e' = enrollment_id e ->
  enrollment_student_id e' = enrollment_student_id e ->
  enrollment_course_id e' = enrollment_course_id e ->
  enrollments_ok (commit_enrollment st e').
Proof.
  intros [Hnd Hu] Hin Hid Hs Hc. split.
  - cbn [enrollments commit_enrollment]. rewrite map_map.
    erewrite map_ext; [exact Hnd|]. intro x. cbn.
    destruct (enrollment_id x =? enrollment_id e') eqn:E; [|reflexivity].
    apply Z.eqb_eq in E. congruence.
  - intros u c. unfold enrollment_count.
    cbn [enrollments commit_enrollment].
    rewrite filter_map_length; [apply Hu|].
    intros x Hx.
    destruct (enrollment_id x =? enrollment_id e') eqn:E; [|reflexivity].
    apply Z.eqb_eq in E. rewrite Hid in E.
    rewrite (same_id_same_row _ x e Hnd Hx Hin E). now rewrite Hs, Hc.
Qed.

Lemma enroll_course_ok (u c : Z) (now : datetime) (st : store) :
  enrollments_ok st -> enrollments_ok (fst (enroll_course u c now st)).
Proof.
  intros [Hnd Hu]. split; [|now apply enroll_course_keeps_pairs_unique].
  unfold enroll_course.
  destruct (get_course st c); [|exact Hnd].
  destruct (find_enrollment st u c); [exact Hnd|].
  cbn [fst enrollments]. rewrite map_app. cbn [map enrollment_id].
  apply NoDup_snoc; [exact Hnd | apply next_id_fresh].
Qed.

(** [take_quiz] either leaves the enrollment rows alone or commits the
    recomputed row of an enrollment it found. *)
Lemma take_quiz_enrollments (u q : Z) (method : http_method) (f : form)
                            (now now' : datetime) (st : store) :
  enrollments (fst (take_quiz u q method f now now' st)) = enrollments st
  \/ exists e p,
       In e (enrollments st)
       /\ enrollments (fst (take_quiz u q method f now now' st))
          = enrollments (commit_enrollment st (refreshed now' p e)).
Proof.
  unfold take_quiz.
  destruct (get_content st q) as [quiz|]; [|now left].
  destruct (negb (String.eqb (content_type quiz) "quiz")); [now left|].
  destruct (existing_response st u q); [now left|].
  destruct method; [now left|].
  destruct (grade f (content_questions st quiz)) as [s|]; [|now left].
  match goal with |- context [add_response st ?r] => set (st1 := add_response st r) end.
  destruct (content_module st1 quiz) as [m|]; [|now left].
  destruct (module_course st1 m) as [c|]; [|now left].
  destruct (find_enrollment st1 u (course_id c)) as [e|] eqn:He; [|now left].
  destruct (update_progress now' st1 e) as [[e2 st2]|] eqn:Hup; [|now left].
  right. apply update_progress_inv in Hup.
  destruct Hup as (c' & _ & -> & ->). apply find_some in He.
  destruct He as [Hin _]. eexists. eexists. split; [exact Hin|]. reflexivity.
Qed.

Lemma take_quiz_ok (u q : Z) (method : http_method) (f : form)
                   (now now' : datetime) (st : store) :
  enrollments_ok st ->
  enrollments_ok (fst (take_quiz u q method f now now' st)).
Proof.
  intro Hok.
  destruct (take_quiz_enrollments u q method f now now' st)
    as [E|(e & p & Hin & E)].
  - unfold enrollments_ok, pairs_unique, enrollment_count in *.
    now rewrite E.
  - pose proof (commit_enrollment_ok st e (refreshed now' p e) Hok Hin
                  eq_refl eq_refl eq_refl) as H.
    unfold enrollments_ok, pairs_unique, enrollment_count in *.
    now rewrite E.
Qed.

Lemma delete_content_enrollments (u x : Z) (st : store) :
  enrollments (fst (delete_content u x st)) = enrollments st.
Proof.
  unfold delete_content, session_delete_content.
  destruct (get_content st x) as [item|]; [|reflexivity].
  destruct (content_module st item) as [m|]; [|reflexivity].
  destruct (module_course st m) as [c|]; [|reflexivity].
  destruct (negb (course_instructor_id c =? u)); [reflexivity|].
  destruct (content_responses st item); reflexivity.
Qed.

Lemma backfill_enrollment_inv (now : datetime) (st st' : store)
                              (e e' : CourseEnrollment) :
  backfill_enrollment now st e = Py.Ok (e', st') ->
  st' = commit_enrollment st e'
  /\ enrollment_id e' = enrollment_id e
  /\ enrollment_student_id e' = enrollment_student_id e
  /\ enrollment_course_id e' = enrollment_course_id e.
Proof.
  unfold backfill_enrollment. intro H.
  destruct (enrollment_course st e) as [c|]; [|discriminate].
  injection H as <- <-.
  destruct (Qeq_bool _ 100); repeat split.
Qed.

Lemma commit_enrollment_keeps (st : store) (e x : CourseEnrollment) :
  In x (enrollments st) ->
  enrollment_id x <> enrollment_id e ->
  In x (enrollments (commit_enrollment st e)).
Proof.
  intros Hin Hne. cbn [enrollments commit_enrollment].
  apply in_map_iff. exists x. split; [|assumption].
  apply Z.eqb_neq in Hne. now rewrite Hne.
Qed.

(** The start-up loop keeps the keys of the enrollment rows. *)
Lemma backfill_loop_ok (clock : nat -> datetime)
                       (todo : list CourseEnrollment) :
  forall (i : nat) (st st' : store),
    enrollments_ok st ->
    NoDup (map enrollment_id todo) ->
    (forall e, In e todo -> In e (enrollments st)) ->
    backfill_loop clock i todo st = Py.Ok st' ->
    enrollments_ok st'.
Proof.
  induction todo as [|e todo IH]; intros i st st' Hok Hnd Hin Hrun.
  - cbn in Hrun. now injection Hrun as <-.
  - cbn [backfill_loop] in Hrun.
    destruct (backfill_enrollment (clock i) st e) as [[e2 st2]|] eqn:Hb;
      [|discriminate].
    apply backfill_enrollment_inv in Hb.
    destruct Hb as (-> & Hid & Hs & Hc).
    inversion Hnd as [|? ? Hfresh Hnd']; subst.
    apply (IH (S i) (commit_enrollment st e2) st'); try assumption.
    + apply (commit_enrollment_ok st e e2); auto. apply Hin. now left.
    + intros x Hx. apply commit_enrollment_keeps; [apply Hin; now right|].
      rewrite Hid. intro E. apply Hfresh. rewrite <- E. now apply in_map.
Qed.

Lemma backfill_ok (clock : nat -> datetime) (st st' : store) :
  enrollments_ok st -> backfill clock st = Py.Ok st' -> enrollments_ok st'.
Proof.
  intros Hok Hrun.
  apply (backfill_loop_ok clock (enrollments st) O st st'); auto.
  apply Hok.
Qed.

(** After the start-up loop the completed flag of every enrollment agrees
    with its progress. *)
Lemma backfill_loop_flags (clock : nat -> datetime)
                          (todo : list CourseEnrollment) :
  forall (i : nat) (st st' : store),
    (forall x, In x (enrollments st) -> flag_agrees x \/ In x todo) ->
    backfill_loop clock i todo st = Py.Ok st' ->
    forall x, In x (enrollments st') -> flag_agrees x.
Proof.
  induction todo as [|e todo IH]; intros i st st' Hinv Hrun.
  - cbn in Hrun. injection Hrun as <-. intros x Hx.
    destruct (Hinv x Hx) as [H|[]]. exact H.
  - cbn [backfill_loop] in Hrun.
    destruct (backfill_enrollment (clock i) st e) as [[e2 st2]|] eqn:Hb;
      [|discriminate].
    pose proof (backfill_enrollment_flag _ _ _ _ _ Hb) as [Hflag _].
    apply backfill_enrollment_inv in Hb. destruct Hb as (-> & Hid & _).
    apply (IH (S i) (commit_enrollment st e2) st'); [|assumption].
    intros x Hx. cbn [enrollments commit_enrollment] in Hx.
    apply in_map_iff in Hx. destruct Hx as (y & Ey & Hy).
    destruct (enrollment_id y =? enrollment_id e2) eqn:E.
    + subst x. now left.
    + subst x. destruct (Hinv y Hy) as [H|[->|H]]; [now left | | now right].
      rewrite Hid, Z.eqb_refl in E. discriminate.
Qed.

Lemma backfill_flags (clock : nat -> datetime) (st st' : store) :
  backfill clock st = Py.Ok st' ->
  forall x, In x (enrollments st') -> flag_agrees x.
Proof.
  intro Hrun. apply (backfill_loop_flags clock (enrollments st) O st st');
    [|assumption].
  intros x Hx. now right.
Qed.

(** In every reachable store primary keys are distinct and no student is
    enrolled twice in a course. *)
Lemma reachable_enrollments_ok (st : store) :
  reachable st -> enrollments_ok st.
Proof.
  induction 1 as [st E | st u c now _ IH | st u q method f now now' _ IH
                  | st u x _ IH | st st' clock _ IH Hrun
                  | st st' keep _ IH E].
  - unfold enrollments_ok, pairs_unique, enrollment_count. rewrite E.
    split; [constructor | intros; cbn; lia].
  - now apply enroll_course_ok.
  - now apply take_quiz_ok.
  - unfold enrollments_ok, pairs_unique, enrollment_count in *.
    now rewrite delete_content_enrollments.
  - now apply (backfill_ok clock st st').
  - destruct IH as [Hnd Hu]. unfold enrollments_ok, pairs_unique,
      enrollment_count in *. rewrite E. split.
    + now apply NoDup_map_filter.
    + intros u c. specialize (Hu u c).
      pose proof (filter_filter_length
                    (fun e => (enrollment_student_id e =? u)
                              && (enrollment_course_id e =? c))
                    keep (enrollments st)). lia.
Qed.

End ReachableStores.


(** * Further properties of the handlers *)

(** ** How submissions compose *)

Section SubmissionsCompose.

Import Models App Stated Scenario.

(** A reply that reports a grade comes from the graded path. *)
Lemma take_quiz_graded_inv (u q : Z) (method : http_method) (f : form)
                           (now now' : datetime) (st st1 : store)
                           (msg : flash) :
  take_quiz u q method f now now' st = (st1, Redirect msg) ->
  msg = QuizPassed \/ msg = QuizFailed ->
  exists quiz m c s,
    method = POST
    /\ get_content st q = Some quiz
    /\ content_type quiz = "quiz"%string
    /\ ~ passed_before st u q
    /\ grade f (content_questions st quiz) = Py.Ok s
    /\ content_module st quiz = Some m
    /\ module_course st m = Some c
    /\ msg = (if Qle_bool 7 s then QuizPassed else QuizFailed)
    /\ responses st1 = responses st ++ [recorded_response st u quiz f s now]
    /\ same_catalogue st st1.
Proof.
  intros Hrun Hmsg. unfold take_quiz in Hrun.
  destruct (get_content st q) as [quiz|] eqn:Hq; [|discriminate].
  destruct (String.eqb (content_type quiz) "quiz") eqn:Ht; cbn [negb] in Hrun.
  2:{ injection Hrun as _ <-. destruct Hmsg; discriminate. }
  apply String.eqb_eq in Ht.
  destruct (existing_response st u q) eqn:Hex.
  { injection Hrun as _ <-. destruct Hmsg; discriminate. }
  apply existing_response_none in Hex.
  destruct method; [discriminate|].
  destruct (grade f (content_questions st quiz)) as [s|] eqn:Hg;
    [|discriminate].
  fold (recorded_response st u quiz f s now) in Hrun.
  set (r := recorded_response st u quiz f s now) in *.
  change (content_module (add_response st r) quiz)
    with (content_module st quiz) in Hrun.
  destruct (content_module st quiz) as [m|] eqn:Hm; [|discriminate].
  change (module_course (add_response st r) m)
    with (module_course st m) in Hrun.
  destruct (module_course st m) as [c|] eqn:Hc; [|discriminate].
  exists quiz, m, c, s.
  destruct (find_enrollment (add_response st r) u (course_id c)) as [e|].
  - destruct (update_progress now' (add_response st r) e) as [[e2 st2]|] eqn:Hup;
      [|discriminate].
    apply update_progress_inv in Hup. destruct Hup as (c' & _ & _ & ->).
    injection Hrun as <- <-. repeat split; auto.
  - injection Hrun as <- <-. repeat split; auto.
Qed.


(** Once a submission has been graded 7 or more, every later request of
    that student for that quiz, whatever its method and form, is answered
    "already passed" and leaves the store as it is. *)
Theorem passing_blocks_every_retry
        (u q : Z) (f : form) (now now' : datetime) (st st1 : store) :
  take_quiz u q POST f now now' st = (st1, Redirect QuizPassed) ->
  forall (method : http_method) (f2 : form) (t t' : datetime),
    take_quiz u q method f2 t t' st1 = (st1, Redirect AlreadyPassed).
Proof.
  intros Hrun method f2 t t'.
  destruct (take_quiz_graded_inv _ _ _ _ _ _ _ _ _ Hrun (or_introl eq_refl))
    as (quiz & m & c & s & _ & Hq & Ht & _ & _ & _ & _ & Hmsg & Hresp
        & (_ & _ & His & _)).
  destruct (Qle_bool 7 s) eqn:Hs; [|discriminate].
  destruct (get_content_some st q quiz Hq) as [_ Hid].
  apply take_quiz_blocked with (quiz := quiz); try assumption.
  - unfold get_content in *. now rewrite His.
  - exists (recorded_response st u quiz f s now), s. repeat split.
    + rewrite Hresp. apply in_or_app. right. now left.
    + exact Hid.
    + now apply Qle_bool_iff.
Qed.

Lemma passing_blocks_every_retry_witness :
  take_quiz 7 10 POST [(1, "Paris"%string)] 1001 1002 enrolled
  = (passed_once, Redirect QuizPassed)
  /\ forall (method : http_method) (f2 : form) (t t' : datetime),
       take_quiz 7 10 method f2 t t' passed_once
       = (passed_once, Redirect AlreadyPassed).
Proof.
  split; [reflexivity|].
  apply (passing_blocks_every_retry 7 10 [(1, "Paris"%string)] 1001 1002
           enrolled passed_once).
  reflexivity.
Defined.



(** Either the store is unchanged or the reply reports a grade. *)
Lemma take_quiz_unchanged_or_graded
      (u q : Z) (method : http_method) (f : form) (now now' : datetime)
      (st : store) :
  fst (take_quiz u q method f now now' st) = st
  \/ snd (take_quiz u q method f now now' st) = Redirect QuizPassed
  \/ snd (take_quiz u q method f now now' st) = Redirect QuizFailed.
Proof.
  unfold take_quiz.
  destruct (get_content st q) as [quiz|]; [|now left].
  destruct (negb (String.eqb (content_type quiz) "quiz")); [now left|].
  destruct (existing_response st u q); [now left|].
  destruct method; [now left|].
  destruct (grade f (content_questions st quiz)) as [s|]; [|now left].
  match goal with |- context [add_response st ?r] =>
    set (st1 := add_response st r) end.
  destruct (content_module st1 quiz) as [m|]; [|now left].
  destruct (module_course st1 m) as [c|]; [|now left].
  destruct (find_enrollment st1 u (course_id c)) as [e|].
  - destruct (update_progress now' st1 e) as [[e2 st2]|]; [|now left].
    right. cbn [snd]. destruct (Qle_bool 7 s); [now left | now right].
  - right. cbn [snd]. destruct (Qle_bool 7 s); [now left | now right].
Qed.

(** [take_quiz] writes only when it reports a grade: a request that is
    answered in any other way (a missing item, an item that is not a quiz, a
    student who has passed, the form of a GET, an exception) leaves the
    store exactly as it was. *)
Theorem take_quiz_writes_only_when_graded
        (u q : Z) (method : http_method) (f : form) (now now' : datetime)
        (st st' : store) (answer : reply) :
  take_quiz u q method f now now' st = (st', answer) ->
  answer <> Redirect QuizPassed ->
  answer <> Redirect QuizFailed ->
  st' = st.
Proof.
  intros Hrun Hp Hf.
  destruct (take_quiz_unchanged_or_graded u q method f now now' st)
    as [E|[E|E]]; rewrite Hrun in E; cbn in E; congruence.
Qed.

Lemma take_quiz_writes_only_when_graded_witness :
  fst (take_quiz 7 10 GET wrong_answer 1001 1002 enrolled) = enrolled.
Proof.
  apply (take_quiz_writes_only_when_graded 7 10 GET wrong_answer 1001 1002
           enrolled _ Render); [reflexivity | discriminate | discriminate].
Defined.

End SubmissionsCompose.


(** ** What a submission and an enrollment leave alone *)

Section Frames.

Import Models App Stated Scenario.

Lemma find_app_skip {A : Type} (p : A -> bool) (l : list A) (x : A) :
  p x = false -> find p (l ++ [x]) = find p l.
Proof.
  intro Hx. induction l as [|y l IH]; cbn.
  - now rewrite Hx.
  - destruct (p y); [reflexivity | exact IH].
Qed.

(** [take_quiz] recomputes at most the enrollment of the student who
    submits. *)
Lemma take_quiz_enrollments_of (u q : Z) (method : http_method) (f : form)
                               (now now' : datetime) (st : store) :
  enrollments (fst (take_quiz u q method f now now' st)) = enrollments st
  \/ exists e p,
       In e (enrollments st)
       /\ enrollment_student_id e = u
       /\ enrollments (fst (take_quiz u q method f now now' st))
          = enrollments (commit_enrollment st (refreshed now' p e)).
Proof.
  unfold take_quiz.
  destruct (get_content st q) as [quiz|]; [|now left].
  destruct (negb (String.eqb (content_type quiz) "quiz")); [now left|].
  destruct (existing_response st u q); [now left|].
  destruct method; [now left|].
  destruct (grade f (content_questions st quiz)) as [s|]; [|now left].
  match goal with |- context [add_response st ?r] =>
    set (st1 := add_response st r) end.
  destruct (content_module st1 quiz) as [m|]; [|now left].
  destruct (module_course st1 m) as [c|]; [|now left].
  destruct (find_enrollment st1 u (course_id c)) as [e|] eqn:He; [|now left].
  destruct (update_progress now' st1 e) as [[e2 st2]|] eqn:Hup; [|now left].
  right. apply update_progress_inv in Hup.
  destruct Hup as (c' & _ & -> & ->). apply find_some in He.
  destruct He as [Hin He]. apply andb_prop in He. destruct He as [Hu _].
  apply Z.eqb_eq in Hu.
  eexists. eexists. split; [exact Hin|]. split; [exact Hu|]. reflexivity.
Qed.

(** A quiz request never alters the catalogue, never alters or removes a
    response, and, in a table with distinct primary keys, never alters the
    enrollment row of another student. *)
Theorem take_quiz_frame
        (u q : Z) (method : http_method) (f : form) (now now' : datetime)
        (st : store) :
  NoDup (map enrollment_id (enrollments st)) ->
  let st' := fst (take_quiz u q method f now now' st) in
  same_catalogue st st'
  /\ (responses st' = responses st
      \/ exists r, responses st' = responses st ++ [r]
                   /\ response_student_id r = u
                   /\ response_content_item_id r = q)
  /\ List.length (enrollments st') = List.length (enrollments st)
  /\ (forall x, In x (enrollments st) -> enrollment_student_id x <> u ->
                In x (enrollments st')).
Proof.
  intros Hnd st'. split; [|split].
  - subst st'.
    destruct (take_quiz_unchanged_or_graded u q method f now now' st)
      as [E|H].
    + rewrite E. repeat split.
    + destruct (take_quiz u q method f now now' st) as [st1 reply] eqn:Hrun.
      cbn [fst snd] in *.
      assert (Hr : exists msg, reply = Redirect msg
                               /\ (msg = QuizPassed \/ msg = QuizFailed)).
      { destruct H as [->| ->]; eexists; split; eauto. }
      destruct Hr as (msg & -> & Hmsg).
      destruct (take_quiz_graded_inv _ _ _ _ _ _ _ _ _ Hrun Hmsg)
        as (quiz & m & c & s & _ & _ & _ & _ & _ & _ & _ & _ & _ & Hcat).
      exact Hcat.
  - subst st'.
    destruct (take_quiz_unchanged_or_graded u q method f now now' st)
      as [E|H].
    + rewrite E. now left.
    + destruct (take_quiz u q method f now now' st) as [st1 reply] eqn:Hrun.
      cbn [fst snd] in *.
      assert (Hr : exists msg, reply = Redirect msg
                               /\ (msg = QuizPassed \/ msg = QuizFailed)).
      { destruct H as [->| ->]; eexists; split; eauto. }
      destruct Hr as (msg & -> & Hmsg).
      destruct (take_quiz_graded_inv _ _ _ _ _ _ _ _ _ Hrun Hmsg)
        as (quiz & m & c & s & _ & Hq & _ & _ & _ & _ & _ & _ & Hresp & _).
      right. eexists. split; [exact Hresp|]. split; [reflexivity|].
      exact (proj2 (get_content_some st q quiz Hq)).
  - subst st'.
    destruct (take_quiz_enrollments_of u q method f now now' st)
      as [E|(e & p & Hin & Hu & E)]; rewrite E.
    + split; [reflexivity | auto].
    + cbn [enrollments commit_enrollment]. rewrite length_map.
      split; [reflexivity|]. intros x Hx Hne. apply in_map_iff.
      exists x. split; [|assumption].
      destruct (enrollment_id x =? enrollment_id (refreshed now' p e)) eqn:Ex;
        [|reflexivity].
      apply Z.eqb_eq in Ex. cbn [refreshed enrollment_id] in Ex.
      rewrite (same_id_same_row _ x e Hnd Hx Hin Ex) in Hne. contradiction.
Qed.

Lemma take_quiz_frame_witness :
  let st' := fst (take_quiz 7 10 POST wrong_answer 1001 1002 enrolled) in
  same_catalogue enrolled st'
  /\ (responses st' = responses enrolled
      \/ exists r, responses st' = responses enrolled ++ [r]
                   /\ response_student_id r = 7
                   /\ response_content_item_id r = 10)
  /\ List.length (enrollments st') = List.length (enrollments enrolled)
  /\ (forall x, In x (enrollments enrolled) -> enrollment_student_id x <> 7 ->
                In x (enrollments st')).
Proof.
  apply (take_quiz_frame 7 10 POST wrong_answer 1001 1002 enrolled).
  repeat constructor. intros [].
Defined.

(** Enrolling in a course one is not yet enrolled in appends one row with a
    new primary key, progress 0, not completed and without completion date,
    and changes the answer of the enrollment query for no other pair. *)
Theorem enroll_course_creates
        (u c : Z) (now : datetime) (st : store) (course : Course) :
  get_course st c = Some course ->
  find_enrollment st u c = None ->
  exists e,
    enroll_course u c now st
    = (mkStore (courses st) (modules st) (content_items st)
               (quiz_questions st) (enrollments st ++ [e]) (responses st),
       Redirect Enrolled)
    /\ e = mkCourseEnrollment (enrollment_id e) u c now false 0 None
    /\ ~ In (enrollment_id e) (map enrollment_id (enrollments st))
    /\ (forall u' c', (u', c') <> (u, c) ->
          find_enrollment (fst (enroll_course u c now st)) u' c'
          = find_enrollment st u' c').
Proof.
  intros Hc He. unfold enroll_course. rewrite Hc, He.
  eexists. split; [reflexivity|]. split; [reflexivity|]. split.
  - apply next_id_fresh.
  - intros u' c' Hne. unfold find_enrollment. cbn [fst enrollments].
    apply find_app_skip. cbn.
    destruct (u =? u') eqn:Eu; [|reflexivity].
    destruct (c =? c') eqn:Ec; [|reflexivity].
    apply Z.eqb_eq in Eu, Ec. subst. contradiction.
Qed.

Lemma enroll_course_creates_witness :
  exists e,
    enroll_course 7 1 1000 one_quiz
    = (mkStore (courses one_quiz) (modules one_quiz) (content_items one_quiz)
               (quiz_questions one_quiz) (enrollments one_quiz ++ [e])
               (responses one_quiz),
       Redirect Enrolled)
    /\ e = mkCourseEnrollment (enrollment_id e) 7 1 1000 false 0 None
    /\ ~ In (enrollment_id e) (map enrollment_id (enrollments one_quiz))
    /\ (forall u' c', (u', c') <> (7, 1) ->
          find_enrollment (fst (enroll_course 7 1 1000 one_quiz)) u' c'
          = find_enrollment one_quiz u' c').
Proof.
  apply (enroll_course_creates 7 1 1000 one_quiz algebra); reflexivity.
Defined.

End Frames.


(** ** Deleting content, quizzes, modules and courses *)

Section Deletions.

Import Models App ModelsMore AppMore Stated Scenario.

Lemma same_key_same_row {A : Type} (key : A -> Z) (l : list A) (x y : A) :
  NoDup (map key l) -> In x l -> In y l -> key x = key y -> x = y.
Proof.
  induction l as [|z l IH]; cbn; [contradiction|].
  intros Hnd Hx Hy E. inversion Hnd as [|? ? Hz Hnd']; subst.
  destruct Hx as [->|Hx], Hy as [->|Hy]; try reflexivity.
  - exfalso. apply Hz. rewrite E. now apply in_map.
  - exfalso. apply Hz. rewrite <- E. now apply in_map.
  - now apply IH.
Qed.

Lemma filter_filter_implied {A : Type} (p q : A -> bool) (l : list A) :
  (forall x, In x l -> p x = true -> q x = true) ->
  filter p (filter q l) = filter p l.
Proof.
  induction l as [|x l IH]; cbn; [reflexivity|]. intro H.
  assert (IH' : filter p (filter q l) = filter p l)
    by (apply IH; intros y Hy; apply H; now right).
  destruct (p x) eqn:Ep.
  - rewrite (H x (or_introl eq_refl) Ep). cbn. now rewrite Ep, IH'.
  - destruct (q x); cbn; now rewrite ?Ep, IH'.
Qed.

Lemma find_filter_implied {A : Type} (p q : A -> bool) (l : list A) :
  (forall x, In x l -> p x = true -> q x = true) ->
  find p (filter q l) = find p l.
Proof.
  induction l as [|x l IH]; cbn; [reflexivity|]. intro H.
  assert (IH' : find p (filter q l) = find p l)
    by (apply IH; intros y Hy; apply H; now right).
  destruct (p x) eqn:Ep.
  - rewrite (H x (or_introl eq_refl) Ep). cbn. now rewrite Ep.
  - destruct (q x); cbn; now rewrite ?Ep, IH'.
Qed.

Lemma find_filter_none {A : Type} (p q : A -> bool) (l : list A) :
  (forall x, p x = true -> q x = false) -> find p (filter q l) = None.
Proof.
  intro H. induction l as [|x l IH]; cbn; [reflexivity|].
  destruct (q x) eqn:Eq; [|exact IH]. cbn.
  destruct (p x) eqn:Ep; [|exact IH]. rewrite (H x Ep) in Eq. discriminate.
Qed.

(** A content item that a student has answered cannot be removed through
    [delete_content], [delete_quiz] or [delete_module]: whoever asks, the
    store stays as it is and the reply is not the success message.  For the
    instructor of the course [delete_content] and [delete_module] end in an
    unhandled [IntegrityError], and [delete_quiz] reports it. *)
Theorem answered_quiz_cannot_be_deleted
        (u q : Z) (method : http_method) (f : form) (now now' : datetime)
        (st st1 : store) (msg : flash) (quiz : ContentItem) (i : Z) :
  take_quiz u q method f now now' st = (st1, Redirect msg) ->
  msg = QuizPassed \/ msg = QuizFailed ->
  get_content st q = Some quiz ->
  (delete_content i q st1 = (st1, ServerError Py.IntegrityError)
   \/ delete_content i q st1 = (st1, Redirect NoPermission))
  /\ (delete_quiz i q st1 = (st1, Notice (DeleteFailed Py.IntegrityError))
      \/ delete_quiz i q st1 = (st1, Notice NotYours))
  /\ (delete_module i (content_module_id quiz) st1
      = (st1, Failure Py.IntegrityError)
      \/ delete_module i (content_module_id quiz) st1
         = (st1, Notice NotYours)).
Proof.
  intros Hrun Hmsg Hquiz.
  destruct (take_quiz_graded_inv _ _ _ _ _ _ _ _ _ Hrun Hmsg)
    as (quiz' & m & c & s & _ & Hq & _ & _ & _ & Hm & Hc & _ & Hresp
        & (Hcs & Hms & His & _)).
  rewrite Hquiz in Hq. injection Hq as <-.
  destruct (get_content_some st q quiz Hquiz) as [Hin Hid].
  assert (Hq1 : get_content st1 q = Some quiz)
    by (unfold get_content in *; now rewrite His).
  assert (Hm1 : content_module st1 quiz = Some m)
    by (unfold content_module, get_module in *; now rewrite Hms).
  assert (Hc1 : module_course st1 m = Some c)
    by (unfold module_course, get_course in *; now rewrite Hcs).
  assert (Hr : exists r rs, content_responses st1 quiz = r :: rs).
  { destruct (content_responses st1 quiz) as [|r rs] eqn:E;
      [|now exists r, rs].
    exfalso.
    assert (H : In (recorded_response st u quiz f s now)
                   (content_responses st1 quiz)).
    { unfold content_responses. apply filter_In. split.
      - rewrite Hresp. apply in_or_app. right. now left.
      - cbn. apply Z.eqb_refl. }
    rewrite E in H. destruct H. }
  destruct Hr as (r & rs & Hr).
  destruct (course_instructor_id c =? i) eqn:Hi.
  - split; [left|split; left].
    + unfold delete_content, session_delete_content.
      now rewrite Hq1, Hm1, Hc1, Hi, Hr.
    + unfold delete_quiz, session_delete_content.
      now rewrite Hq1, Hm1, Hc1, Hi, Hr.
    + unfold delete_module, session_delete_module.
      change (get_module st1 (content_module_id quiz))
        with (content_module st1 quiz).
      rewrite Hm1, Hc1, Hi. cbn [negb].
      assert (E : existsb
                    (fun i0 => negb (Nat.eqb (List.length
                                                (content_responses st1 i0)) 0))
                    (module_content_items st1 m) = true).
      { apply existsb_exists. exists quiz. split.
        - unfold module_content_items. apply filter_In. split.
          + now rewrite His.
          + apply Z.eqb_eq. symmetry.
            exact (proj2 (get_module_some st _ m Hm)).
        - now rewrite Hr. }
      now rewrite E.
  - split; [right|split; right].
    + unfold delete_content. now rewrite Hq1, Hm1, Hc1, Hi.
    + unfold delete_quiz. now rewrite Hq1, Hm1, Hc1, Hi.
    + unfold delete_module.
      change (get_module st1 (content_module_id quiz))
        with (content_module st1 quiz).
      now rewrite Hm1, Hc1, Hi.
Qed.

Lemma answered_quiz_cannot_be_deleted_witness :
  (delete_content 100 10 failed_once
   = (failed_once, ServerError Py.IntegrityError)
   \/ delete_content 100 10 failed_once
      = (failed_once, Redirect NoPermission))
  /\ (delete_quiz 100 10 failed_once
      = (failed_once, Notice (DeleteFailed Py.IntegrityError))
      \/ delete_quiz 100 10 failed_once = (failed_once, Notice NotYours))
  /\ (delete_module 100 (content_module_id (quiz 10 1)) failed_once
      = (failed_once, Failure Py.IntegrityError)
      \/ delete_module 100 (content_module_id (quiz 10 1)) failed_once
         = (failed_once, Notice NotYours)).
Proof.
  apply (answered_quiz_cannot_be_deleted 7 10 POST wrong_answer 1001 1002
           enrolled failed_once QuizFailed (quiz 10 1) 100).
  - reflexivity.
  - now right.
  - reflexivity.
Defined.

(** Deleting a content item leaves every other content item, the questions
    of every other item, and all courses, modules and responses as they
    were. *)
Theorem delete_content_keeps_the_rest (u x : Z) (st st' : store) :
  delete_content u x st = (st', Redirect ContentDeleted) ->
  courses st' = courses st
  /\ modules st' = modules st
  /\ responses st' = responses st
  /\ (forall y, y <> x -> get_content st' y = get_content st y)
  /\ (forall item, content_id item <> x ->
        content_questions st' item = content_questions st item).
Proof.
  intro H. apply delete_content_done in H.
  destruct H as (item & Hi & Hr & Hd).
  destruct (get_content_some st x item Hi) as [_ Hid].
  unfold session_delete_content in Hd. rewrite Hr in Hd.
  injection Hd as <-. rewrite Hid.
  split; [reflexivity|]. split; [reflexivity|]. split; [reflexivity|]. split.
  - intros y Hy. unfold get_content. cbn [content_items].
    apply find_filter_implied. intros z _ Hz. apply Z.eqb_eq in Hz.
    apply negb_true_iff, Z.eqb_neq. congruence.
  - intros it Hit. unfold content_questions. cbn [quiz_questions].
    apply filter_filter_implied. intros z _ Hz. apply Z.eqb_eq in Hz.
    apply negb_true_iff, Z.eqb_neq. congruence.
Qed.

Lemma delete_content_keeps_the_rest_witness :
  courses (fst (delete_content 100 11 half_done)) = courses half_done
  /\ modules (fst (delete_content 100 11 half_done)) = modules half_done
  /\ responses (fst (delete_content 100 11 half_done)) = responses half_done
  /\ (forall y, y <> 11 ->
        get_content (fst (delete_content 100 11 half_done)) y
        = get_content half_done y)
  /\ (forall item, content_id item <> 11 ->
        content_questions (fst (delete_content 100 11 half_done)) item
        = content_questions half_done item).
Proof.
  apply (delete_content_keeps_the_rest 100 11 half_done). reflexivity.
Defined.


End Deletions.


(** ** Cascades of [delete_module] and [delete_course] *)

Section Cascades.

Import Models App ModelsMore AppMore Stated Scenario.

Lemma existsb_eqb_In (x : Z) (l : list Z) :
  existsb (Z.eqb x) l = true <-> In x l.
Proof.
  rewrite existsb_exists. split.
  - intros (y & Hy & E). apply Z.eqb_eq in E. now subst.
  - intro H. exists x. split; [assumption | apply Z.eqb_refl].
Qed.

Lemma existsb_eqb_not_In (x : Z) (l : list Z) :
  existsb (Z.eqb x) l = false <-> ~ In x l.
Proof.
  rewrite <- existsb_eqb_In. destruct (existsb (Z.eqb x) l); split;
    congruence.
Qed.

Lemma flat_map_ext_In {A B : Type} (g h : A -> list B) (l : list A) :
  (forall x, In x l -> g x = h x) -> flat_map g l = flat_map h l.
Proof.
  induction l as [|x l IH]; cbn; [reflexivity|]. intro H.
  rewrite (H x (or_introl eq_refl)). f_equal. apply IH.
  intros y Hy. apply H. now right.
Qed.

(** After [delete_module] has succeeded the module is gone with all its
    content items and their questions; no content item of it had a
    response; courses, enrollments and responses are as before, so no
    progress is recomputed. *)
Theorem delete_module_cascade (u mid : Z) (st st' : store) :
  delete_module u mid st = (st', Notice ModuleDeleted) ->
  get_module st' mid = None
  /\ (forall i, In i (content_items st') -> content_module_id i <> mid)
  /\ (forall i q, In i (content_items st) -> content_module_id i = mid ->
        In q (quiz_questions st') ->
        question_content_item_id q <> content_id i)
  /\ (forall i, In i (content_items st) -> content_module_id i = mid ->
        content_responses st i = [])
  /\ courses st' = courses st
  /\ enrollments st' = enrollments st
  /\ responses st' = responses st.
Proof.
  unfold delete_module. intro H.
  destruct (get_module st mid) as [m|] eqn:Hm; [|discriminate].
  destruct (module_course st m) as [c|]; [|discriminate].
  destruct (negb (course_instructor_id c =? u)); [discriminate|].
  destruct (session_delete_module st m) as [st''|e] eqn:Hd; [|discriminate].
  injection H as ->. unfold session_delete_module in Hd.
  destruct (existsb _ (module_content_items st m)) eqn:Hex; [discriminate|].
  injection Hd as <-.
  destruct (get_module_some st mid m Hm) as [_ Hid].
  cbn [courses modules content_items quiz_questions enrollments responses].
  split; [|split; [|split; [|split]]].
  - unfold get_module. cbn [modules]. apply find_filter_none.
    intros z Hz. apply Z.eqb_eq in Hz. rewrite Hz, Hid, Z.eqb_refl.
    reflexivity.
  - intros i Hin E. apply filter_In in Hin. destruct Hin as [_ Hin].
    rewrite E, Hid, Z.eqb_refl in Hin. discriminate.
  - intros i q Hi Hmid Hq E. apply filter_In in Hq. destruct Hq as [_ Hq].
    apply negb_true_iff, existsb_eqb_not_In in Hq. apply Hq.
    rewrite E. apply in_map. unfold module_content_items.
    apply filter_In. split; [assumption|]. apply Z.eqb_eq. congruence.
  - intros i Hi Hmid.
    assert (Hin : In i (module_content_items st m)).
    { unfold module_content_items. apply filter_In. split; [assumption|].
      apply Z.eqb_eq. congruence. }
    destruct (content_responses st i) as [|r rs] eqn:E; [reflexivity|].
    exfalso.
    assert (Ht : existsb
                   (fun i0 => negb (Nat.eqb (List.length
                                               (content_responses st i0)) 0))
                   (module_content_items st m) = true).
    { apply existsb_exists. exists i. split; [assumption|]. now rewrite E. }
    congruence.
  - repeat split.
Qed.

Lemma delete_module_cascade_witness :
  get_module (fst (delete_module 100 1 two_quizzes)) 1 = None
  /\ (forall i, In i (content_items (fst (delete_module 100 1 two_quizzes))) ->
        content_module_id i <> 1)
  /\ (forall i q, In i (content_items two_quizzes) ->
        content_module_id i = 1 ->
        In q (quiz_questions (fst (delete_module 100 1 two_quizzes))) ->
        question_content_item_id q <> content_id i)
  /\ (forall i, In i (content_items two_quizzes) -> content_module_id i = 1 ->
        content_responses two_quizzes i = [])
  /\ courses (fst (delete_module 100 1 two_quizzes)) = courses two_quizzes
  /\ enrollments (fst (delete_module 100 1 two_quizzes))
     = enrollments two_quizzes
  /\ responses (fst (delete_module 100 1 two_quizzes))
     = responses two_quizzes.
Proof.
  apply (delete_module_cascade 100 1 two_quizzes). reflexivity.
Defined.

(** The instructor of a course can always delete it, also when students
    have answered its content: afterwards the course, its modules, their
    content items, the questions and responses of these, and the
    enrollments in the course are all gone. *)
Theorem delete_course_cascade (u cid : Z) (st : store) (course : Course) :
  get_course st cid = Some course ->
  course_instructor_id course = u ->
  exists st',
    delete_course u cid st = (st', Notice CourseDeleted)
    /\ get_course st' cid = None
    /\ (forall m, In m (modules st') -> module_course_id m <> cid)
    /\ (forall e, In e (enrollments st') -> enrollment_course_id e <> cid)
    /\ (forall m i, In m (course_modules st course) ->
          In i (content_items st') -> content_module_id i <> module_id m)
    /\ (forall i q, In i (course_content_items st course) ->
          In q (quiz_questions st') ->
          question_content_item_id q <> content_id i)
    /\ (forall i r, In i (course_content_items st course) ->
          In r (responses st') ->
          response_content_item_id r <> content_id i).
Proof.
  intros Hc Hu. destruct (get_course_some st cid course Hc) as [_ Hid].
  unfold delete_course. rewrite Hc, Hu, Z.eqb_refl. cbn [negb].
  eexists. split; [reflexivity|].
  cbn [courses modules content_items quiz_questions enrollments responses].
  rewrite Hid. split; [|split; [|split; [|split; [|split]]]].
  - unfold get_course. cbn [courses]. apply find_filter_none.
    intros z Hz. now rewrite Hz.
  - intros m Hm E. apply filter_In in Hm. destruct Hm as [_ Hm].
    rewrite E, Z.eqb_refl in Hm. discriminate.
  - intros e He E. apply filter_In in He. destruct He as [_ He].
    rewrite E, Z.eqb_refl in He. discriminate.
  - intros m i Hm Hi E. apply filter_In in Hi. destruct Hi as [_ Hi].
    apply negb_true_iff, existsb_eqb_not_In in Hi. apply Hi.
    rewrite E. now apply in_map.
  - intros i q Hi Hq E. apply filter_In in Hq. destruct Hq as [_ Hq].
    apply negb_true_iff, existsb_eqb_not_In in Hq. apply Hq.
    rewrite E. now apply in_map.
  - intros i r Hi Hr E. apply filter_In in Hr. destruct Hr as [_ Hr].
    apply negb_true_iff, existsb_eqb_not_In in Hr. apply Hr.
    rewrite E. now apply in_map.
Qed.

Lemma delete_course_cascade_witness :
  exists st',
    delete_course 100 1 failed_twice = (st', Notice CourseDeleted)
    /\ get_course st' 1 = None
    /\ (forall m, In m (modules st') -> module_course_id m <> 1)
    /\ (forall e, In e (enrollments st') -> enrollment_course_id e <> 1)
    /\ (forall m i, In m (course_modules failed_twice algebra) ->
          In i (content_items st') -> content_module_id i <> module_id m)
    /\ (forall i q, In i (course_content_items failed_twice algebra) ->
          In q (quiz_questions st') ->
          question_content_item_id q <> content_id i)
    /\ (forall i r, In i (course_content_items failed_twice algebra) ->
          In r (responses st') ->
          response_content_item_id r <> content_id i).
Proof.
  apply (delete_course_cascade 100 1 failed_twice algebra); reflexivity.
Defined.

(** In a store whose modules and content items have distinct primary keys,
    deleting a course changes nothing in what [update_progress] reads for
    any other course: its modules, its total content and every student's
    completed content are the same before and after. *)
Theorem delete_course_keeps_other_courses
        (u cid : Z) (st st' : store) (other : Course) (sid : Z) :
  NoDup (map module_id (modules st)) ->
  NoDup (map content_id (content_items st)) ->
  delete_course u cid st = (st', Notice CourseDeleted) ->
  course_id other <> cid ->
  course_modules st' other = course_modules st other
  /\ total_content st' other = total_content st other
  /\ completed_content st' sid other = completed_content st sid other.
Proof.
  intros Hnm Hni Hrun Hne. unfold delete_course in Hrun.
  destruct (get_course st cid) as [course|] eqn:Hc; [|discriminate].
  destruct (negb (course_instructor_id course =? u)); [discriminate|].
  injection Hrun as <-.
  destruct (get_course_some st cid course Hc) as [_ Hid].
  assert (Hmods : course_modules
                    (mkStore
                       (filter (fun c => negb (course_id c =? course_id course))
                               (courses st))
                       (filter (fun m => negb (module_course_id m
                                               =? course_id course))
                               (modules st))
                       (filter (fun i => negb (existsb
                                                 (Z.eqb (content_module_id i))
                                                 (map module_id
                                                    (course_modules st course))))
                               (content_items st))
                       (filter (fun q => negb (existsb
                                                 (Z.eqb (question_content_item_id q))
                                                 (map content_id
                                                    (course_content_items st course))))
                               (quiz_questions st))
                       (filter (fun e => negb (enrollment_course_id e
                                               =? course_id course))
                               (enrollments st))
                       (filter (fun r => negb (existsb
                                                 (Z.eqb (response_content_item_id r))
                                                 (map content_id
                                                    (course_content_items st course))))
                               (responses st)))
                    other
                  = course_modules st other).
  { unfold course_modules at 1. cbn [modules].
    apply filter_filter_implied. intros m _ Hm. apply Z.eqb_eq in Hm.
    apply negb_true_iff, Z.eqb_neq. congruence. }
  set (st1 := mkStore _ _ _ _ _ _) in *.
  (* a module of the other course is not one of the deleted modules *)
  assert (Hkeep : forall m, In m (course_modules st other) ->
                    ~ In (module_id m)
                         (map module_id (course_modules st course))).
  { intros m Hm Hin. apply filter_In in Hm. destruct Hm as [Hm Hmc].
    apply in_map_iff in Hin. destruct Hin as (m' & E & Hm').
    apply filter_In in Hm'. destruct Hm' as [Hm' Hmc'].
    rewrite (same_key_same_row module_id _ m' m Hnm Hm' Hm E) in Hmc'.
    apply Z.eqb_eq in Hmc, Hmc'. congruence. }
  assert (Hitems : forall m, In m (course_modules st other) ->
                     module_content_items st1 m = module_content_items st m).
  { intros m Hm. unfold module_content_items. cbn [st1 content_items].
    apply filter_filter_implied. intros i _ Hi. apply Z.eqb_eq in Hi.
    apply negb_true_iff, existsb_eqb_not_In. rewrite Hi. now apply Hkeep. }
  assert (Hids : course_content_ids st1 other = course_content_ids st other).
  { unfold course_content_ids. rewrite Hmods.
    apply flat_map_ext_In. intros m Hm. now rewrite Hitems. }
  split; [exact Hmods|]. split.
  - now rewrite !total_content_ids, Hids.
  - unfold completed_content, completed_responses_in. rewrite Hids.
    cbn [st1 responses]. f_equal.
    apply filter_filter_implied. intros r _ Hr.
    apply andb_prop in Hr. destruct Hr as [_ Hr].
    apply existsb_eqb_In in Hr.
    apply negb_true_iff, existsb_eqb_not_In. intro Hdel.
    (* the item answered belongs to the other course and to the deleted one *)
    unfold course_content_ids in Hr. apply in_flat_map in Hr.
    destruct Hr as (m2 & Hm2 & Hi2). apply in_map_iff in Hi2.
    destruct Hi2 as (i2 & E2 & Hi2).
    apply in_map_iff in Hdel. destruct Hdel as (i1 & E1 & Hi1).
    unfold course_content_items in Hi1. apply in_flat_map in Hi1.
    destruct Hi1 as (m1 & Hm1 & Hi1).
    apply filter_In in Hi1. destruct Hi1 as [Hi1 Hmi1].
    apply filter_In in Hi2. destruct Hi2 as [Hi2 Hmi2].
    assert (Ei : i1 = i2)
      by (apply (same_key_same_row content_id _ i1 i2 Hni Hi1 Hi2);
          congruence).
    subst i2. apply Z.eqb_eq in Hmi1, Hmi2.
    apply (Hkeep m2 Hm2). rewrite <- Hmi2, Hmi1. now apply in_map.
Qed.

Lemma delete_course_keeps_other_courses_witness :
  course_modules (fst (delete_course 100 1 ScenarioMore.two_courses))
                 ScenarioMore.geometry
  = course_modules ScenarioMore.two_courses ScenarioMore.geometry
  /\ total_content (fst (delete_course 100 1 ScenarioMore.two_courses))
                   ScenarioMore.geometry
     = total_content ScenarioMore.two_courses ScenarioMore.geometry
  /\ completed_content (fst (delete_course 100 1 ScenarioMore.two_courses))
                       7 ScenarioMore.geometry
     = completed_content ScenarioMore.two_courses 7 ScenarioMore.geometry.
Proof.
  apply (delete_course_keeps_other_courses 100 1 ScenarioMore.two_courses).
  - repeat constructor; cbn; intuition discriminate.
  - repeat constructor; cbn; intuition discriminate.
  - reflexivity.
  - discriminate.
Defined.

End Cascades.


(** ** The start-up loop *)

Section StartUpLoop.

Import Models App Stated StatedMore Scenario.

Lemma backfill_enrollment_lifecycle (now : datetime) (st st' : store)
                                    (e e' : CourseEnrollment) :
  backfill_enrollment now st e = Py.Ok (e', st') -> lifecycle_ok e'.
Proof.
  intro H. destruct (backfill_enrollment_flag _ _ _ _ _ H) as [Hf Hd].
  split; [exact Hf|]. rewrite Hd.
  destruct (enrollment_completed e'); split; congruence.
Qed.

Lemma backfill_loop_lifecycle (clock : nat -> datetime)
                              (todo : list CourseEnrollment) :
  forall (i : nat) (st st' : store),
    (forall x, In x (enrollments st) -> lifecycle_ok x \/ In x todo) ->
    backfill_loop clock i todo st = Py.Ok st' ->
    forall x, In x (enrollments st') -> lifecycle_ok x.
Proof.
  induction todo as [|e todo IH]; intros i st st' Hinv Hrun.
  - cbn in Hrun. injection Hrun as <-. intros x Hx.
    destruct (Hinv x Hx) as [H|[]]. exact H.
  - cbn [backfill_loop] in Hrun.
    destruct (backfill_enrollment (clock i) st e) as [[e2 st2]|] eqn:Hb;
      [|discriminate].
    pose proof (backfill_enrollment_lifecycle _ _ _ _ _ Hb) as Hok.
    apply backfill_enrollment_inv in Hb. destruct Hb as (-> & Hid & _).
    apply (IH (S i) (commit_enrollment st e2) st'); [|assumption].
    intros x Hx. cbn [enrollments commit_enrollment] in Hx.
    apply in_map_iff in Hx. destruct Hx as (y & Ey & Hy).
    destruct (enrollment_id y =? enrollment_id e2) eqn:E.
    + subst x. now left.
    + subst x. destruct (Hinv y Hy) as [H|[->|H]]; [now left | | now right].
      rewrite Hid, Z.eqb_refl in E. discriminate.
Qed.

Lemma backfill_loop_tables (clock : nat -> datetime)
                           (todo : list CourseEnrollment) :
  forall (i : nat) (st st' : store),
    backfill_loop clock i todo st = Py.Ok st' ->
    same_catalogue st st'
    /\ responses st' = responses st
    /\ map enrollment_id (enrollments st') = map enrollment_id (enrollments st).
Proof.
  induction todo as [|e todo IH]; intros i st st' Hrun.
  - cbn in Hrun. injection Hrun as <-. repeat split.
  - cbn [backfill_loop] in Hrun.
    destruct (backfill_enrollment (clock i) st e) as [[e2 st2]|] eqn:Hb;
      [|discriminate].
    apply backfill_enrollment_inv in Hb. destruct Hb as (-> & Hid & _).
    destruct (IH _ _ _ Hrun) as ((H1 & H2 & H3 & H4) & H5 & H6).
    cbn in H1, H2, H3, H4, H5. split; [repeat split; assumption|].
    split; [assumption|]. rewrite H6.
    cbn [enrollments commit_enrollment]. rewrite map_map.
    apply map_ext. intro x.
    destruct (enrollment_id x =? enrollment_id e2) eqn:E; [|reflexivity].
    now apply Z.eqb_eq in E.
Qed.

(** When the start-up loop has run, every enrollment is completed exactly
    when its progress is 100 and has a completion date exactly when it is
    completed; the loop adds and removes no row and touches no other
    table. *)
Theorem backfill_restores_lifecycle (clock : nat -> datetime)
                                    (st st' : store) :
  backfill clock st = Py.Ok st' ->
  same_catalogue st st'
  /\ responses st' = responses st
  /\ map enrollment_id (enrollments st') = map enrollment_id (enrollments st)
  /\ (forall e, In e (enrollments st') ->
        (enrollment_completed e = true <-> (enrollment_progress e == 100)%Q)
        /\ (enrollment_completion_date e = None
            <-> enrollment_completed e = false)).
Proof.
  intro Hrun. unfold backfill in Hrun.
  destruct (backfill_loop_tables _ _ _ _ _ Hrun) as (H1 & H2 & H3).
  split; [assumption|]. split; [assumption|]. split; [assumption|].
  apply (backfill_loop_lifecycle clock (enrollments st) O st st');
    [|assumption].
  intros x Hx. now right.
Qed.

Lemma backfill_restores_lifecycle_witness :
  exists st',
    backfill (fun _ => 7000) after_second_quiz = Py.Ok st'
    /\ same_catalogue after_second_quiz st'
    /\ responses st' = responses after_second_quiz
    /\ map enrollment_id (enrollments st')
       = map enrollment_id (enrollments after_second_quiz)
    /\ (forall e, In e (enrollments st') ->
          (enrollment_completed e = true
           <-> (enrollment_progress e == 100)%Q)
          /\ (enrollment_completion_date e = None
              <-> enrollment_completed e = false)).
Proof.
  eexists. split; [reflexivity|].
  apply (backfill_restores_lifecycle (fun _ => 7000) after_second_quiz).
  reflexivity.
Defined.

Lemma backfill_loop_total (clock : nat -> datetime)
                          (todo : list CourseEnrollment) :
  forall (i : nat) (st : store),
    (forall e, In e todo -> enrollment_course st e <> None) ->
    exists st', backfill_loop clock i todo st = Py.Ok st'.
Proof.
  induction todo as [|e todo IH]; intros i st H.
  - now exists st.
  - cbn [backfill_loop]. unfold backfill_enrollment.
    destruct (enrollment_course st e) as [c|] eqn:Hc.
    + apply IH. intros x Hx. apply H. now right.
    + exfalso. apply (H e); [now left | assumption].
Qed.

Lemma backfill_loop_needs_courses (clock : nat -> datetime)
                                  (todo : list CourseEnrollment) :
  forall (i : nat) (st st' : store),
    backfill_loop clock i todo st = Py.Ok st' ->
    forall e, In e todo -> enrollment_course st e <> None.
Proof.
  induction todo as [|e todo IH]; intros i st st' Hrun x Hx; [destruct Hx|].
  cbn [backfill_loop] in Hrun. unfold backfill_enrollment in Hrun.
  destruct (enrollment_course st e) as [c|] eqn:Hc; [|discriminate].
  destruct Hx as [<-|Hx]; [congruence|].
  exact (IH _ _ _ Hrun x Hx).
Qed.

(** The start-up loop runs to its end exactly when the course of every
    enrollment exists; one enrollment of a missing course makes it raise. *)
Theorem backfill_succeeds_iff_courses_exist (clock : nat -> datetime)
                                            (st : store) :
  (exists st', backfill clock st = Py.Ok st')
  <-> (forall e, In e (enrollments st) -> enrollment_course st e <> None).
Proof.
  split.
  - intros [st' H]. exact (backfill_loop_needs_courses _ _ _ _ _ H).
  - intro H. now apply backfill_loop_total.
Qed.

End StartUpLoop.


(** ** Grading, seen by the student *)

Section GradingMore.

Import Models App Stated StatedMore Scenario.

Lemma list_ascii_of_string_app (a b : string) :
  list_ascii_of_string (a ++ b)%string
  = list_ascii_of_string a ++ list_ascii_of_string b.
Proof. induction a as [|c a IH]; cbn; [reflexivity | now rewrite IH]. Qed.

Lemma lstrip_chars_lower (l : list ascii) :
  Py.lstrip_chars (map Py.lower_char l)
  = map Py.lower_char (Py.lstrip_chars l).
Proof.
  induction l as [|c l IH]; cbn; [reflexivity|].
  rewrite lower_char_isspace. destruct (Py.isspace c); [exact IH | reflexivity].
Qed.

(** Trimming and lower-casing commute. *)
Lemma strip_lower (s : string) : Py.strip (Py.lower s) = Py.lower (Py.strip s).
Proof.
  unfold Py.strip, Py.lower, Py.rstrip_chars.
  rewrite !list_ascii_of_string_of_list_ascii.
  now rewrite lstrip_chars_lower, <- map_rev, lstrip_chars_lower, map_rev.
Qed.

Lemma strip_trailing (c : ascii) (s : string) :
  Py.isspace c = true ->
  Py.strip (s ++ String c EmptyString)%string = Py.strip s.
Proof.
  intro Hc. unfold Py.strip. rewrite list_ascii_of_string_app.
  cbn [list_ascii_of_string]. now rewrite strip_chars_trailing.
Qed.

(** The check of an answer does not depend on whitespace put before or
    after the answer, nor on the case of its letters. *)
Theorem answer_check_ignores_padding_and_case
        (q : QuizQuestion) (a : string) (c : ascii) :
  Py.isspace c = true ->
  is_answer_correct q (Some (String c a)) = is_answer_correct q (Some a)
  /\ is_answer_correct q (Some (a ++ String c EmptyString)%string)
     = is_answer_correct q (Some a)
  /\ is_answer_correct q (Some (Py.lower a)) = is_answer_correct q (Some a).
Proof.
  intro Hc. unfold is_answer_correct. cbn [Py.str].
  rewrite (strip_leading c a Hc), (strip_trailing c a Hc).
  rewrite strip_lower, lower_idempotent. repeat split.
Qed.

Lemma answer_check_ignores_padding_and_case_witness :
  is_answer_correct (question 1 10 "Paris") (Some (String " " "PARIS"))
  = is_answer_correct (question 1 10 "Paris") (Some "PARIS"%string)
  /\ is_answer_correct (question 1 10 "Paris")
       (Some ("PARIS" ++ String " " EmptyString)%string)
     = is_answer_correct (question 1 10 "Paris") (Some "PARIS"%string)
  /\ is_answer_correct (question 1 10 "Paris") (Some (Py.lower "PARIS"))
     = is_answer_correct (question 1 10 "Paris") (Some "PARIS"%string).
Proof.
  apply (answer_check_ignores_padding_and_case
           (question 1 10 "Paris") "PARIS" " "%char).
  reflexivity.
Defined.

(** A graded submission passes (score 7 or more) exactly when at least
    seven tenths of the questions are counted correct; the score is 10
    exactly when all are, and 0 exactly when none is. *)
Theorem pass_iff_seven_tenths (f : form) (qs : list QuizQuestion) (s : Q) :
  grade f qs = Py.Ok s ->
  (Qle_bool 7 s = true
   <-> (7 * List.length qs <= 10 * counted_answers f qs)%nat)
  /\ ((s == 10)%Q <-> counted_answers f qs = List.length qs)
  /\ ((s == 0)%Q <-> counted_answers f qs = 0%nat).
Proof.
  intro Hg.
  assert (Hne : qs <> [])
    by (intro E; rewrite E, grade_no_question in Hg; discriminate).
  rewrite (grade_some_question f qs Hne) in Hg. injection Hg as <-.
  pose proof (counted_le_total f qs) as Hle.
  destruct (List.length qs) as [|n] eqn:El;
    [destruct qs; [contradiction | discriminate]|].
  set (c := counted_answers f qs) in *.
  unfold score_of. split; [|split].
  - rewrite Qle_bool_iff. unfold Qle, Qdiv, Qmult, Qinv, inject_Z.
    cbn [Qnum Qden Z.of_nat].
    rewrite !Z.mul_1_r, Pos.mul_1_l, !Pos.mul_1_r.
    change (Z.pos (Pos.of_succ_nat n)) with (Z.of_nat (S n)). lia.
  - rewrite Qeq_alt.
    change 10%Q with (inject_Z 1 * inject_Z 10)%Q at 2.
    change 10%Q with (inject_Z 10).
    rewrite ratio_compare, Z.compare_eq_iff by lia. lia.
  - rewrite Qeq_alt.
    change 0%Q with (inject_Z 0 * inject_Z 10)%Q.
    change 10%Q with (inject_Z 10).
    rewrite ratio_compare, Z.compare_eq_iff by lia. lia.
Qed.

Lemma pass_iff_seven_tenths_witness :
  (Qle_bool 7 (30 # 4) = true
   <-> (7 * List.length four_questions
        <= 10 * counted_answers three_counted four_questions)%nat)
  /\ ((30 # 4 == 10)%Q
      <-> counted_answers three_counted four_questions
          = List.length four_questions)
  /\ ((30 # 4 == 0)%Q
      <-> counted_answers three_counted four_questions = 0%nat).
Proof.
  apply (pass_iff_seven_tenths three_counted four_questions (30 # 4)).
  reflexivity.
Defined.

End GradingMore.


(** ** Orders of modules and content items *)

Section Orders.

Import Models App ModelsMore AppMore Stated StatedMore Scenario.

Variable A : Type.
Variable key : A -> Z.

Lemma insert_by_perm (a : A) (l : list A) :
  Permutation (insert_by key a l) (a :: l).
Proof.
  induction l as [|b l IH]; cbn; [reflexivity|].
  destruct (key a <=? key b); [reflexivity|].
  rewrite IH. apply perm_swap.
Qed.

Lemma sorted_perm (l : list A) : Permutation (sorted key l) l.
Proof.
  induction l as [|a l IH]; cbn; [constructor|].
  fold (sorted key l). rewrite insert_by_perm. now constructor.
Qed.

Lemma insert_by_sorted (a : A) (l : list A) :
  StronglySorted (fun x y => key x <= key y) l ->
  StronglySorted (fun x y => key x <= key y) (insert_by key a l).
Proof.
  induction 1 as [|b l Hs IH Hb]; cbn.
  - constructor; constructor.
  - destruct (key a <=? key b) eqn:E.
    + apply Z.leb_le in E. constructor; [now constructor|].
      constructor; [assumption|].
      rewrite Forall_forall in *. intros y Hy. specialize (Hb y Hy). lia.
    + apply Z.leb_gt in E. constructor; [assumption|].
      rewrite Forall_forall in *. intros y Hy.
      apply (Permutation_in _ (insert_by_perm a l)) in Hy.
      destruct Hy as [<-|Hy]; [lia | now apply Hb].
Qed.

Lemma sorted_sorted (l : list A) :
  StronglySorted (fun x y => key x <= key y) (sorted key l).
Proof.
  induction l as [|a l IH]; cbn; [constructor|].
  now apply insert_by_sorted.
Qed.

Lemma insert_by_stable (a : A) (l : list A) (k : Z) :
  filter (fun x => key x =? k) (insert_by key a l)
  = filter (fun x => key x =? k) (a :: l).
Proof.
  induction l as [|b l IH]; [reflexivity|].
  cbn [insert_by]. destruct (key a <=? key b) eqn:E; [reflexivity|].
  apply Z.leb_gt in E. cbn [filter] in *. rewrite IH.
  destruct (key a =? k) eqn:Ea, (key b =? k) eqn:Eb; try reflexivity.
  apply Z.eqb_eq in Ea, Eb. lia.
Qed.

Lemma sorted_stable (l : list A) (k : Z) :
  filter (fun x => key x =? k) (sorted key l)
  = filter (fun x => key x =? k) l.
Proof.
  induction l as [|a l IH]; [reflexivity|].
  cbn [sorted fold_right]. fold (sorted key l).
  rewrite insert_by_stable. cbn [filter]. now rewrite IH.
Qed.

Lemma insert_by_snoc (a x : A) (l : list A) :
  key a <= key x -> insert_by key a (l ++ [x]) = insert_by key a l ++ [x].
Proof.
  intro H. induction l as [|b l IH]; cbn.
  - apply Z.leb_le in H. now rewrite H.
  - destruct (key a <=? key b); [reflexivity | now rewrite IH].
Qed.

(** An element whose key is not below any other is sorted to the end. *)
Lemma sorted_snoc (x : A) (l : list A) :
  (forall y, In y l -> key y <= key x) ->
  sorted key (l ++ [x]) = sorted key l ++ [x].
Proof.
  induction l as [|a l IH]; intro H; [reflexivity|].
  cbn [app sorted fold_right]. fold (sorted key (l ++ [x])) (sorted key l).
  rewrite IH by (intros y Hy; apply H; now right).
  apply insert_by_snoc. apply H. now left.
Qed.

End Orders.

Section OrdersOfTheCatalogue.

Import Models App ModelsMore AppMore Stated StatedMore Scenario.

Lemma fold_left_max_ge (l : list Z) (a : Z) :
  a <= fold_left Z.max l a /\ (forall x, In x l -> x <= fold_left Z.max l a).
Proof.
  revert a. induction l as [|b l IH]; intro a; cbn.
  - split; [lia | contradiction].
  - destruct (IH (Z.max a b)) as [H1 H2]. split; [lia|].
    intros x [<-|Hx]; [lia | now apply H2].
Qed.

Lemma max_default_ge (d : Z) (l : list Z) (x : Z) :
  In x l -> x <= max_default d l.
Proof.
  destruct l as [|a l]; [contradiction|]. cbn [max_default].
  destruct (fold_left_max_ge l a) as [H1 H2].
  intros [<-|Hx]; [assumption | now apply H2].
Qed.

(** [get_modules_sorted] and [get_content_items_sorted] return exactly the
    modules of the course, and the content items of the module, rearranged
    in non-decreasing [order]; rows with the same [order] stay in the order
    of the table. *)
Theorem sorted_relationships (st : store) (c : Course) (m : Module_) :
  (Permutation (get_modules_sorted st c) (course_modules st c)
   /\ StronglySorted (fun x y => module_order x <= module_order y)
                     (get_modules_sorted st c)
   /\ forall k, filter (fun x => module_order x =? k)
                       (get_modules_sorted st c)
                = filter (fun x => module_order x =? k)
                         (course_modules st c))
  /\ (Permutation (get_content_items_sorted st m)
                  (module_content_items st m)
      /\ StronglySorted (fun x y => content_order x <= content_order y)
                        (get_content_items_sorted st m)
      /\ forall k, filter (fun x => content_order x =? k)
                          (get_content_items_sorted st m)
                   = filter (fun x => content_order x =? k)
                            (module_content_items st m)).
Proof.
  unfold get_modules_sorted, get_content_items_sorted. split; split.
  - apply sorted_perm.
  - split; [apply sorted_sorted | apply sorted_stable].
  - apply sorted_perm.
  - split; [apply sorted_sorted | apply sorted_stable].
Qed.

Lemma sorted_relationships_witness :
  Permutation (get_content_items_sorted ScenarioMore.shuffled vectors)
              (module_content_items ScenarioMore.shuffled vectors)
  /\ StronglySorted (fun x y => content_order x <= content_order y)
                    (get_content_items_sorted ScenarioMore.shuffled vectors)
  /\ forall k, filter (fun x => content_order x =? k)
                      (get_content_items_sorted ScenarioMore.shuffled vectors)
               = filter (fun x => content_order x =? k)
                        (module_content_items ScenarioMore.shuffled vectors).
Proof.
  exact (proj2 (sorted_relationships ScenarioMore.shuffled algebra vectors)).
Defined.

(** [get_next_content_order] is 1 for a module without content and is
    larger than the order of every content item of the module. *)
Theorem get_next_content_order_is_new (st : store) (m : Module_) :
  (module_content_items st m = [] -> get_next_content_order st m = 1)
  /\ (forall i, In i (module_content_items st m) ->
        content_order i < get_next_content_order st m).
Proof.
  unfold get_next_content_order. split.
  - intros ->. reflexivity.
  - intros i Hi.
    assert (H : content_order i
                <= max_default 0 (map content_order
                                      (module_content_items st m)))
      by (apply max_default_ge; now apply in_map).
    lia.
Qed.

Lemma get_total_content_eq (st : store) (c : Course) :
  get_total_content st c = total_content st c.
Proof.
  assert (H : forall (l : list Module_) (n : nat),
             fold_left (fun total module =>
                          (total + List.length
                                     (module_content_items st module))%nat)
                       l n
             = (n + list_sum (map (fun x => List.length
                                              (module_content_items st x))
                                  l))%nat).
  { induction l as [|x l IH]; intro n; cbn [fold_left map].
    - cbn. lia.
    - rewrite IH. unfold list_sum. cbn [fold_right]. lia. }
  unfold get_total_content, total_content. now rewrite H.
Qed.

(** [Course.get_total_content] computes the denominator of
    [update_progress]: the number of content items of the modules of the
    course. *)
Theorem get_total_content_is_total (st : store) (c : Course) :
  get_total_content st c = total_content st c
  /\ get_total_content st c = List.length (course_content_items st c).
Proof.
  rewrite get_total_content_eq. split; [reflexivity|].
  unfold total_content, course_content_items.
  induction (course_modules st c) as [|x l IH]; [reflexivity|].
  cbn [map flat_map list_sum fold_right]. rewrite length_app.
  f_equal. exact IH.
Qed.

End OrdersOfTheCatalogue.

(** ** Authoring: modules and content items are appended in order *)

Section Authoring.

Import Models App ModelsMore AppMore Stated StatedMore Scenario ScenarioMore.

Lemma truthy_filled (s : string) :
  s <> EmptyString -> Py.truthy (Some s) = true.
Proof.
  intro H. cbn.
  destruct (String.eqb_spec s EmptyString); [contradiction | reflexivity].
Qed.

Lemma find_fresh {A : Type} (key : A -> Z) (l : list A) (k : Z) :
  ~ In k (map key l) -> find (fun x => key x =? k) l = None.
Proof.
  induction l as [|a l IH]; cbn; [reflexivity|]. intro H.
  destruct (Z.eqb_spec (key a) k) as [E|E]; [exfalso; apply H; now left|].
  apply IH. intro; apply H; now right.
Qed.

Lemma filter_snoc_in {A : Type} (p : A -> bool) (l : list A) (x : A) :
  p x = true -> filter p (l ++ [x]) = filter p l ++ [x].
Proof. intro H. rewrite filter_app. cbn. now rewrite H. Qed.

Lemma filter_snoc_out {A : Type} (p : A -> bool) (l : list A) (x : A) :
  p x = false -> filter p (l ++ [x]) = filter p l.
Proof. intro H. rewrite filter_app. cbn. rewrite H. apply app_nil_r. Qed.

Lemma sorted_append_max {A : Type} (key : A -> Z) (l : list A) (x : A) :
  key x = max_default 0 (map key l) + 1 ->
  sorted key (l ++ [x]) = sorted key l ++ [x].
Proof.
  intro H. apply sorted_snoc. intros y Hy.
  assert (key y <= max_default 0 (map key l))
    by (apply max_default_ge; now apply in_map).
  lia.
Qed.

(** The store after [db.session.add(module)] and the commit. *)
Lemma new_module_created
  (st : store) (uid cid : Z) (t d : string) (course : Course) :
  get_course st cid = Some course ->
  course_instructor_id course = uid ->
  t <> EmptyString -> d <> EmptyString ->
  new_module uid cid POST (Some t) (Some d) st
  = (mkStore (courses st)
       (modules st
          ++ [mkModule (next_id (map module_id (modules st))) t d
                (max_default 0 (map module_order (course_modules st course))
                 + 1)
                (course_id course)])
       (content_items st) (quiz_questions st) (enrollments st)
       (responses st),
     Notice ModuleCreated).
Proof.
  intros Hc Hi Ht Hd. unfold new_module.
  rewrite Hc, Hi, Z.eqb_refl. cbn [negb].
  rewrite (truthy_filled t Ht), (truthy_filled d Hd). reflexivity.
Qed.

(** The store after [db.session.add(new_content)] and the commit. *)
Lemma new_content_created
  (stored_path : string -> string) (st : store) (uid mid : Z)
  (t ty : string) (text url file : option string)
  (module : Module_) (course : Course) :
  get_module st mid = Some module ->
  module_course st module = Some course ->
  course_instructor_id course = uid ->
  t <> EmptyString -> ty <> EmptyString ->
  new_content stored_path uid mid POST (Some t) (Some ty) text url file st
  = (mkStore (courses st) (modules st)
       (content_items st
          ++ [mkContentItem (next_id (map content_id (content_items st)))
                t ty
                (if String.eqb ty "text" then text
                 else if String.eqb ty "video" then url else None)
                (if String.eqb ty "text" then None
                 else if String.eqb ty "video" then None
                 else if String.eqb ty "file" && Py.truthy file
                         && allowed_file (Py.str file)
                      then Some (stored_path (Py.str file))
                      else None)
                (get_next_content_order st module) mid])
       (quiz_questions st) (enrollments st) (responses st),
     Notice ContentAdded).
Proof.
  intros Hm Hc Hi Ht Hty. unfold new_content.
  rewrite Hm, Hc, Hi, Z.eqb_refl. cbn [negb].
  rewrite (truthy_filled t Ht), (truthy_filled ty Hty). reflexivity.
Qed.

(** A module created with [new_module] by the instructor of the course
    gets an unused id and an [order] above that of every module of the
    course (1 in a course without modules), so [get_modules_sorted] lists it
    last, after the modules it listed before; the lists of the other
    courses do not change. *)
Theorem new_module_goes_last
  (st : store) (uid cid : Z) (t d : string) (course : Course) :
  get_course st cid = Some course ->
  course_instructor_id course = uid ->
  t <> EmptyString -> d <> EmptyString ->
  exists m : Module_,
    new_module uid cid POST (Some t) (Some d) st
    = (mkStore (courses st) (modules st ++ [m]) (content_items st)
               (quiz_questions st) (enrollments st) (responses st),
       Notice ModuleCreated)
    /\ module_title m = t /\ module_description m = d
    /\ module_course_id m = cid
    /\ ~ In (module_id m) (map module_id (modules st))
    /\ (forall x, In x (course_modules st course) ->
          module_order x < module_order m)
    /\ (course_modules st course = [] -> module_order m = 1)
    /\ (let st' := fst (new_module uid cid POST (Some t) (Some d) st) in
        get_modules_sorted st' course = get_modules_sorted st course ++ [m]
        /\ forall other, course_id other <> cid ->
             get_modules_sorted st' other = get_modules_sorted st other).
Proof.
  intros Hc Hi Ht Hd. destruct (get_course_some _ _ _ Hc) as [_ Hid].
  rewrite (new_module_created st uid cid t d course Hc Hi Ht Hd).
  eexists. split; [reflexivity|]. cbn [fst module_title module_description
    module_course_id module_id module_order].
  repeat split; try assumption.
  - apply next_id_fresh.
  - intros x Hx.
    assert (module_order x
            <= max_default 0 (map module_order (course_modules st course)))
      by (apply max_default_ge; now apply in_map).
    lia.
  - intros ->. reflexivity.
  - unfold get_modules_sorted, course_modules. cbn [modules].
    rewrite filter_snoc_in by (cbn; apply Z.eqb_refl).
    now apply sorted_append_max.
  - intros other Hother. unfold get_modules_sorted, course_modules.
    cbn [modules]. rewrite filter_snoc_out; [reflexivity|].
    cbn. apply Z.eqb_neq. congruence.
Qed.

Lemma new_module_goes_last_witness :
  exists m : Module_,
    new_module 100 1 POST (Some "Matrices"%string) (Some "Week 2"%string)
               one_quiz
    = (mkStore (courses one_quiz) (modules one_quiz ++ [m])
               (content_items one_quiz) (quiz_questions one_quiz)
               (enrollments one_quiz) (responses one_quiz),
       Notice ModuleCreated)
    /\ module_title m = "Matrices"%string
    /\ module_description m = "Week 2"%string
    /\ module_course_id m = 1
    /\ ~ In (module_id m) (map module_id (modules one_quiz))
    /\ (forall x, In x (course_modules one_quiz algebra) ->
          module_order x < module_order m)
    /\ (course_modules one_quiz algebra = [] -> module_order m = 1)
    /\ (let st' := fst (new_module 100 1 POST (Some "Matrices"%string)
                                   (Some "Week 2"%string) one_quiz) in
        get_modules_sorted st' algebra
        = get_modules_sorted one_quiz algebra ++ [m]
        /\ forall other, course_id other <> 1 ->
             get_modules_sorted st' other
             = get_modules_sorted one_quiz other).
Proof.
  apply (new_module_goes_last one_quiz 100 1 "Matrices" "Week 2" algebra);
    [reflexivity | reflexivity | discriminate | discriminate].
Defined.

(** [new_content] stores the type it is given, whatever it is, gives the
    new item an unused id and the [order] that [get_next_content_order]
    computes, so [get_content_items_sorted] lists it last in its module; a
    file path is stored only for the type ["file"] with an uploaded file
    whose name [allowed_file] accepts. *)
Theorem new_content_goes_last
  (stored_path : string -> string) (st : store) (uid mid : Z)
  (t ty : string) (text url file : option string)
  (module : Module_) (course : Course) :
  get_module st mid = Some module ->
  module_course st module = Some course ->
  course_instructor_id course = uid ->
  t <> EmptyString -> ty <> EmptyString ->
  exists item : ContentItem,
    new_content stored_path uid mid POST (Some t) (Some ty) text url file st
    = (mkStore (courses st) (modules st) (content_items st ++ [item])
               (quiz_questions st) (enrollments st) (responses st),
       Notice ContentAdded)
    /\ content_title item = t /\ content_type item = ty
    /\ content_module_id item = mid
    /\ ~ In (content_id item) (map content_id (content_items st))
    /\ content_order item = get_next_content_order st module
    /\ (forall x, In x (module_content_items st module) ->
          content_order x < content_order item)
    /\ (content_file_path item <> None ->
          ty = "file"%string /\ Py.truthy file = true
          /\ allowed_file (Py.str file) = true)
    /\ (let st' := fst (new_content stored_path uid mid POST (Some t)
                                    (Some ty) text url file st) in
        get_content_items_sorted st' module
        = get_content_items_sorted st module ++ [item]
        /\ forall other, module_id other <> mid ->
             get_content_items_sorted st' other
             = get_content_items_sorted st other).
Proof.
  intros Hm Hc Hi Ht Hty. destruct (get_module_some _ _ _ Hm) as [_ Hid].
  rewrite (new_content_created stored_path st uid mid t ty text url file
             module course Hm Hc Hi Ht Hty).
  eexists. split; [reflexivity|].
  cbn [fst content_title content_type content_module_id content_id
       content_order content_file_path].
  assert (Hlt : forall x, In x (module_content_items st module) ->
                  content_order x < get_next_content_order st module).
  { intros x Hx. unfold get_next_content_order.
    assert (content_order x
            <= max_default 0 (map content_order
                                  (module_content_items st module)))
      by (apply max_default_ge; now apply in_map).
    lia. }
  split; [reflexivity|]. split; [reflexivity|]. split; [reflexivity|].
  split; [apply next_id_fresh|]. split; [reflexivity|].
  split; [exact Hlt|]. split; [|split].
  - destruct (String.eqb ty "text"); [congruence|].
    destruct (String.eqb ty "video"); [congruence|].
    destruct (String.eqb_spec ty "file") as [E|E]; cbn [andb];
      [|congruence].
    destruct (Py.truthy file); cbn [andb]; [|congruence].
    destruct (allowed_file (Py.str file)); [|congruence].
    intros _. now repeat split.
  - unfold get_content_items_sorted, module_content_items.
    cbn [content_items].
    rewrite filter_snoc_in by (cbn; rewrite Hid; apply Z.eqb_refl).
    apply sorted_append_max. reflexivity.
  - intros other Hother.
    unfold get_content_items_sorted, module_content_items.
    cbn [content_items]. rewrite filter_snoc_out; [reflexivity|].
    cbn. apply Z.eqb_neq. congruence.
Qed.

Lemma new_content_goes_last_witness :
  exists item : ContentItem,
    new_content (fun n => n) 100 1 POST (Some "Notes"%string)
                (Some "homework"%string) None None
                (Some "notes.exe"%string) one_quiz
    = (mkStore (courses one_quiz) (modules one_quiz)
               (content_items one_quiz ++ [item])
               (quiz_questions one_quiz) (enrollments one_quiz)
               (responses one_quiz),
       Notice ContentAdded)
    /\ content_title item = "Notes"%string
    /\ content_type item = "homework"%string
    /\ content_module_id item = 1
    /\ ~ In (content_id item) (map content_id (content_items one_quiz))
    /\ content_order item = get_next_content_order one_quiz vectors
    /\ (forall x, In x (module_content_items one_quiz vectors) ->
          content_order x < content_order item)
    /\ (content_file_path item <> None ->
          "homework"%string = "file"%string
          /\ Py.truthy (Some "notes.exe"%string) = true
          /\ allowed_file (Py.str (Some "notes.exe"%string)) = true)
    /\ (let st' := fst (new_content (fun n => n) 100 1 POST
                          (Some "Notes"%string) (Some "homework"%string)
                          None None (Some "notes.exe"%string) one_quiz) in
        get_content_items_sorted st' vectors
        = get_content_items_sorted one_quiz vectors ++ [item]
        /\ forall other, module_id other <> 1 ->
             get_content_items_sorted st' other
             = get_content_items_sorted one_quiz other).
Proof.
  apply (new_content_goes_last (fun n => n) one_quiz 100 1 "Notes" "homework"
           None None (Some "notes.exe"%string) vectors algebra);
    [reflexivity | reflexivity | reflexivity | discriminate | discriminate].
Defined.

(** A content item of type ["quiz"] added with [new_content] has no
    question; in a store whose questions and responses refer to existing
    content items, every submission to it with [take_quiz] raises
    [ZeroDivisionError] and leaves the store as it is. *)
Theorem quiz_added_as_content_cannot_be_taken
  (stored_path : string -> string) (st : store) (uid mid : Z) (t : string)
  (text url file : option string) (module : Module_) (course : Course) :
  get_module st mid = Some module ->
  module_course st module = Some course ->
  course_instructor_id course = uid ->
  t <> EmptyString ->
  (forall q, In q (quiz_questions st) ->
     In (question_content_item_id q) (map content_id (content_items st))) ->
  (forall r, In r (responses st) ->
     In (response_content_item_id r) (map content_id (content_items st))) ->
  let st' := fst (new_content stored_path uid mid POST (Some t)
                              (Some "quiz"%string) text url file st) in
  exists item : ContentItem,
    content_items st' = content_items st ++ [item]
    /\ get_content st' (content_id item) = Some item
    /\ content_type item = "quiz"%string
    /\ content_questions st' item = []
    /\ forall (student : Z) (f : form) (now now' : datetime),
         take_quiz student (content_id item) POST f now now' st'
         = (st', ServerError Py.ZeroDivisionError).
Proof.
  intros Hm Hc Hi Ht Hq Hr st'. subst st'.
  rewrite (new_content_created stored_path st uid mid t "quiz" text url file
             module course Hm Hc Hi Ht) by discriminate.
  cbn [fst]. eexists. split; [reflexivity|].
  cbn [content_id content_type].
  set (n := next_id (map content_id (content_items st))).
  assert (Hn : ~ In n (map content_id (content_items st)))
    by apply next_id_fresh.
  match goal with |- get_content ?s _ = Some ?i /\ _ =>
    set (st' := s); set (item := i) end.
  assert (Hget : get_content st' n = Some item).
  { unfold get_content, st'. cbn [content_items].
    apply find_app_none; [now apply find_fresh | apply Z.eqb_refl]. }
  assert (Hnoq : content_questions st' item = []).
  { unfold content_questions, st', item. cbn [quiz_questions content_id].
    apply find_none_filter.
    destruct (find _ _) as [q|] eqn:E; [|reflexivity].
    apply find_some in E. destruct E as [Hin E].
    apply Z.eqb_eq in E. apply Hq in Hin. rewrite E in Hin. contradiction. }
  split; [exact Hget|]. split; [reflexivity|]. split; [exact Hnoq|].
  intros student f now now'.
  apply (take_quiz_no_question st' student n f now now' item Hget);
    [reflexivity | | exact Hnoq].
  intros (r & s & Hin & _ & E & _). unfold st' in Hin. cbn [responses] in Hin.
  apply Hr in Hin. rewrite E in Hin. contradiction.
Qed.

Lemma quiz_added_as_content_cannot_be_taken_witness :
  let st' := fst (new_content (fun n => n) 100 1 POST (Some "Final"%string)
                              (Some "quiz"%string) None None None
                              enrolled) in
  exists item : ContentItem,
    content_items st' = content_items enrolled ++ [item]
    /\ get_content st' (content_id item) = Some item
    /\ content_type item = "quiz"%string
    /\ content_questions st' item = []
    /\ forall (student : Z) (f : form) (now now' : datetime),
         take_quiz student (content_id item) POST f now now' st'
         = (st', ServerError Py.ZeroDivisionError).
Proof.
  apply (quiz_added_as_content_cannot_be_taken (fun n => n) enrolled 100 1
           "Final" None None None vectors algebra);
    [reflexivity | reflexivity | reflexivity | discriminate | | ].
  - intros q [<-|[]]. cbn. now left.
  - intros r [].
Defined.

End Authoring.

(** ** The dashboard count and the denominator of the progress *)

Section DashboardCount.

Import Models App ModelsMore AppMore Stated StatedMore Scenario ScenarioMore.

Lemma filter_andb_le {A : Type} (p q : A -> bool) (l : list A) :
  (List.length (filter (fun x => p x && q x) l)
   <= List.length (filter p l))%nat.
Proof.
  induction l as [|a l IH]; cbn; [lia|].
  destruct (p a), (q a); cbn; lia.
Qed.

Lemma filter_orb_le {A : Type} (p q : A -> bool) (l : list A) :
  (List.length (filter (fun x => p x || q x) l)
   <= List.length (filter p l) + List.length (filter q l))%nat.
Proof.
  induction l as [|a l IH]; cbn; [lia|].
  destruct (p a), (q a); cbn; lia.
Qed.

Lemma items_of_modules_le (st : store) (ms : list Module_) :
  (List.length
     (filter (fun item => existsb (Z.eqb (content_module_id item))
                                  (map module_id ms))
             (content_items st))
   <= list_sum (map (fun m => List.length (module_content_items st m)) ms))%nat.
Proof.
  induction ms as [|m ms IH]; cbn [map existsb list_sum fold_right].
  - induction (content_items st); cbn; lia.
  - etransitivity; [apply filter_orb_le|].
    unfold module_content_items at 1. fold (list_sum
      (map (fun m => List.length (module_content_items st m)) ms)).
    apply Nat.add_le_mono; [apply Nat.le_refl | exact IH].
Qed.

(** The number of completed content items that [instructor_dashboard]
    counts for a student never exceeds the number of content items of the
    course, the denominator of [update_progress]. *)
Theorem dashboard_count_bounded (st : store) (sid : Z) (c : Course) :
  (dashboard_completed_quizzes st sid c <= total_content st c)%nat
  /\ (dashboard_completed_quizzes st sid c <= get_total_content st c)%nat.
Proof.
  assert (H : (dashboard_completed_quizzes st sid c <= total_content st c)%nat).
  { unfold dashboard_completed_quizzes, total_content.
    etransitivity; [apply filter_andb_le | apply items_of_modules_le]. }
  split; [exact H|].
  rewrite get_total_content_eq. exact H.
Qed.

End DashboardCount.

(** ** Uploaded file names *)

Section Uploads.

Import Models App ModelsMore AppMore Stated StatedMore Scenario ScenarioMore.

Lemma after_last_dot_dotless (l : list ascii) :
  dotless l -> after_last_dot l = None.
Proof.
  unfold dotless. induction l as [|c l IH]; cbn; [reflexivity|]. intro H.
  rewrite IH by (intro; apply H; now right).
  destruct (Ascii.eqb_spec c "."%char) as [E|E]; [|reflexivity].
  exfalso. apply H. left. exact E.
Qed.

Lemma after_last_dot_app (base ext : list ascii) :
  dotless ext -> after_last_dot (base ++ "."%char :: ext) = Some ext.
Proof.
  intro H. induction base as [|c base IH]; cbn.
  - now rewrite (after_last_dot_dotless ext H).
  - now rewrite IH.
Qed.

(** [allowed_file] refuses every name without a dot, and decides a name
    with a dot by the text after the last dot alone, compared in lower
    case with pdf, docx, txt and mp4. *)
Theorem allowed_file_by_extension :
  (forall name : string,
     dotless (list_ascii_of_string name) -> allowed_file name = false)
  /\ (forall base ext : string,
        dotless (list_ascii_of_string ext) ->
        allowed_file (base ++ "." ++ ext)%string
        = existsb (String.eqb (Py.lower ext)) ALLOWED_EXTENSIONS).
Proof.
  split.
  - intros name H. unfold allowed_file.
    now rewrite (after_last_dot_dotless _ H).
  - intros base ext H. unfold allowed_file.
    rewrite !list_ascii_of_string_app.
    change (list_ascii_of_string ".") with ["."%char].
    cbn [app]. rewrite (after_last_dot_app _ _ H).
    now rewrite string_of_list_ascii_of_string.
Qed.

Lemma allowed_file_by_extension_witness :
  allowed_file "archive.pdf.gz" = false
  /\ allowed_file "Report.final.PDF" = true
  /\ allowed_file "pdf" = false.
Proof.
  split; [|split].
  - refine (proj2 allowed_file_by_extension "archive.pdf"%string
                  "gz"%string _).
    unfold dotless. cbn. intro H.
    repeat (destruct H as [H|H]; [discriminate|]). exact H.
  - refine (proj2 allowed_file_by_extension "Report.final"%string
                  "PDF"%string _).
    unfold dotless. cbn. intro H.
    repeat (destruct H as [H|H]; [discriminate|]). exact H.
  - refine (proj1 allowed_file_by_extension "pdf"%string _).
    unfold dotless. cbn. intro H.
    repeat (destruct H as [H|H]; [discriminate|]). exact H.
Defined.

End Uploads.

(** ** The catalogue a student sees and the enrollment it leads to *)

Section Exploring.

Import Models App ModelsMore AppMore Stated StatedMore Scenario ScenarioMore.

Lemma find_enrollment_none_iff (st : store) (uid cid : Z) :
  find_enrollment st uid cid = None
  <-> ~ In cid (map enrollment_course_id
                    (filter (fun e => enrollment_student_id e =? uid)
                            (enrollments st))).
Proof.
  unfold find_enrollment.
  induction (enrollments st) as [|e l IH]; cbn; [tauto|].
  destruct (enrollment_student_id e =? uid); cbn [andb map In].
  - destruct (Z.eqb_spec (enrollment_course_id e) cid) as [E|E].
    + split; [discriminate | intro H; exfalso; apply H; now left].
    + rewrite IH. tauto.
  - exact IH.
Qed.

Lemma in_courses_get (st : store) (c : Course) :
  In c (courses st) -> exists c', get_course st (course_id c) = Some c'.
Proof.
  intro H. unfold get_course.
  destruct (find _ _) as [c'|] eqn:E; [now exists c'|].
  apply (find_none _ _ E) in H. now rewrite Z.eqb_refl in H.
Qed.

Lemma explore_courses_In (st : store) (uid : Z) (c : Course) :
  In c (explore_courses uid st)
  <-> In c (courses st) /\ find_enrollment st uid (course_id c) = None.
Proof.
  unfold explore_courses. rewrite filter_In, find_enrollment_none_iff.
  rewrite negb_true_iff, existsb_eqb_not_In. tauto.
Qed.

Lemma filter_andb {A : Type} (p q : A -> bool) (l : list A) :
  filter (fun x => p x && q x) l = filter q (filter p l).
Proof.
  induction l as [|a l IH]; cbn; [reflexivity|].
  destruct (p a); cbn; [destruct (q a)|]; now rewrite IH.
Qed.

(** [explore_courses] offers a student exactly the courses for which
    [enroll_course] creates an enrollment; for every other course of the
    catalogue [enroll_course] answers that the student is already
    enrolled. *)
Theorem explore_offers_what_enroll_accepts
  (st : store) (uid : Z) (now : datetime) (c : Course) :
  In c (courses st) ->
  (In c (explore_courses uid st)
   <-> snd (enroll_course uid (course_id c) now st) = Redirect Enrolled)
  /\ (~ In c (explore_courses uid st)
      <-> snd (enroll_course uid (course_id c) now st)
          = Redirect AlreadyEnrolled).
Proof.
  intro Hc. destruct (in_courses_get st c Hc) as [c' Hget].
  rewrite explore_courses_In. unfold enroll_course. rewrite Hget.
  destruct (find_enrollment st uid (course_id c)) as [e|]; cbn [snd].
  - split; split; try discriminate; try reflexivity.
    + intros [_ H]. discriminate.
    + intros _ [_ H]. discriminate.
  - split; split; try discriminate; try reflexivity.
    + now split.
    + intro H. exfalso. apply H. now split.
Qed.

Lemma explore_offers_what_enroll_accepts_witness :
  (In algebra (explore_courses 8 passed_once)
   <-> snd (enroll_course 8 (course_id algebra) 2000 passed_once)
       = Redirect Enrolled)
  /\ (~ In algebra (explore_courses 8 passed_once)
      <-> snd (enroll_course 8 (course_id algebra) 2000 passed_once)
          = Redirect AlreadyEnrolled).
Proof.
  apply (explore_offers_what_enroll_accepts passed_once 8 2000 algebra).
  now left.
Defined.

(** After [enroll_course] on a course of the catalogue, be the
    enrollment new or already there, [explore_courses] offers the student
    what it offered before without that course, and offers every other
    student what it offered before. *)
Theorem enrolling_removes_the_offer
  (st : store) (uid cid : Z) (now : datetime) (course : Course) :
  get_course st cid = Some course ->
  let st' := fst (enroll_course uid cid now st) in
  explore_courses uid st'
  = filter (fun c => negb (course_id c =? cid)) (explore_courses uid st)
  /\ (forall c, In c (explore_courses uid st') -> course_id c <> cid)
  /\ (forall other, other <> uid ->
        explore_courses other st' = explore_courses other st).
Proof.
  intros Hget st'.
  assert (E : explore_courses uid st'
              = filter (fun c => negb (course_id c =? cid))
                       (explore_courses uid st)).
  { subst st'. unfold enroll_course. rewrite Hget.
    destruct (find_enrollment st uid cid) as [e|] eqn:Ef; cbn [fst].
    - symmetry. unfold explore_courses. rewrite <- filter_andb.
      apply filter_ext_in. intros c Hc.
      destruct (existsb _ _) eqn:Ex; [reflexivity|]. cbn [negb andb].
      apply existsb_eqb_not_In in Ex.
      destruct (Z.eqb_spec (course_id c) cid) as [Eq|]; [|reflexivity].
      exfalso. rewrite Eq in Ex.
      apply find_enrollment_none_iff in Ex. congruence.
    - unfold explore_courses at 1. cbn [enrollments].
      rewrite filter_snoc_in
        by (cbn [enrollment_student_id]; apply Z.eqb_refl).
      rewrite map_app. cbn [map enrollment_course_id].
      unfold explore_courses. rewrite <- filter_andb.
      apply filter_ext. intro c. rewrite existsb_app. cbn [existsb].
      rewrite orb_false_r. apply negb_orb. }
  split; [exact E|]. split.
  - intros c Hc. rewrite E in Hc. apply filter_In in Hc.
    destruct Hc as [_ Hc]. apply negb_true_iff, Z.eqb_neq in Hc. exact Hc.
  - intros other Hother. subst st'. unfold enroll_course. rewrite Hget.
    destruct (find_enrollment st uid cid); cbn [fst]; [reflexivity|].
    unfold explore_courses. cbn [enrollments].
    rewrite filter_snoc_out; [reflexivity|].
    cbn [enrollment_student_id]. apply Z.eqb_neq. congruence.
Qed.

Lemma enrolling_removes_the_offer_witness :
  let st' := fst (enroll_course 7 2 3000 (fst (new_course 200 POST
                    (Some "Geometry"%string) (Some "Plane"%string)
                    enrolled))) in
  explore_courses 7 st'
  = filter (fun c => negb (course_id c =? 2))
           (explore_courses 7 (fst (new_course 200 POST
              (Some "Geometry"%string) (Some "Plane"%string) enrolled)))
  /\ (forall c, In c (explore_courses 7 st') -> course_id c <> 2)
  /\ (forall other, other <> 7 ->
        explore_courses other st'
        = explore_courses other (fst (new_course 200 POST
            (Some "Geometry"%string) (Some "Plane"%string) enrolled))).
Proof.
  apply (enrolling_removes_the_offer
           (fst (new_course 200 POST (Some "Geometry"%string)
                            (Some "Plane"%string) enrolled))
           7 2 3000 (mkCourse 2 "Geometry" "Plane" 200)).
  reflexivity.
Defined.

End Exploring.

(** ** Marking a response as completed *)

Section MarkAsCompleted.

Import Models App ModelsMore AppMore Stated StatedMore Scenario ScenarioMore.

Lemma commit_enrollment_ids (st : store) (e : CourseEnrollment) :
  map enrollment_id (enrollments (commit_enrollment st e))
  = map enrollment_id (enrollments st).
Proof.
  unfold commit_enrollment. cbn [enrollments]. rewrite map_map.
  apply map_ext. intro x.
  destruct (Z.eqb_spec (enrollment_id x) (enrollment_id e)); congruence.
Qed.

Lemma commit_enrollment_rows (st : store) (e x : CourseEnrollment) :
  In x (enrollments (commit_enrollment st e)) ->
  In x (enrollments st) \/ x = e.
Proof.
  unfold commit_enrollment. cbn [enrollments]. rewrite in_map_iff.
  intros (y & E & Hy).
  destruct (enrollment_id y =? enrollment_id e); subst; tauto.
Qed.

Lemma find_enrollment_some (st : store) (uid cid : Z)
                           (e : CourseEnrollment) :
  find_enrollment st uid cid = Some e ->
  In e (enrollments st)
  /\ enrollment_student_id e = uid /\ enrollment_course_id e = cid.
Proof.
  unfold find_enrollment. intro H. apply find_some in H.
  destruct H as [Hin H]. apply andb_true_iff in H.
  destruct H as [H1 H2]. apply Z.eqb_eq in H1, H2. tauto.
Qed.

(** The store committed by [mark_as_completed]: the one with the response
    marked, or that one with the enrollment of the student refreshed. *)
Lemma mark_as_completed_cases
  (now now' : datetime) (st : store) (self : StudentResponse) :
  fst (mark_as_completed now now' st self)
  = commit_response st (marked now self)
  \/ exists e',
       enrollment_student_id e' = response_student_id self
       /\ fst (mark_as_completed now now' st self)
          = commit_enrollment (commit_response st (marked now self)) e'.
Proof.
  unfold mark_as_completed. fold (marked now self).
  set (st1 := commit_response st (marked now self)).
  destruct (get_content st1 _) as [item|]; [|now left].
  destruct (content_module st1 item) as [module|]; [|now left].
  destruct (_ =? _)%nat; [|now left].
  destruct (module_course st1 module) as [course|]; [|now left].
  destruct (find_enrollment st1 _ _) as [e|] eqn:Ee; [|now left].
  destruct (update_progress now' st1 e) as [[e' st2]|x] eqn:Eu; [|now left].
  apply update_progress_inv in Eu. destruct Eu as (c & _ & Ee' & ->).
  apply find_enrollment_some in Ee. destruct Ee as (_ & Es & _).
  right. exists e'. split; [|reflexivity]. rewrite Ee'. exact Es.
Qed.

Lemma mark_as_completed_no_item
  (now now' : datetime) (st : store) (self : StudentResponse) :
  get_content st (response_content_item_id self) = None ->
  snd (mark_as_completed now now' st self) = Py.Raise Py.AttributeError.
Proof.
  intro H. unfold mark_as_completed. fold (marked now self).
  change (get_content (commit_response st (marked now self))
                      (response_content_item_id (marked now self)))
    with (get_content st (response_content_item_id self)).
  now rewrite H.
Qed.

Lemma mark_as_completed_gate
  (now now' : datetime) (st : store) (self : StudentResponse)
  (item : ContentItem) (module : Module_) :
  get_content st (response_content_item_id self) = Some item ->
  content_module st item = Some module ->
  List.length
    (completed_responses_in (commit_response st (marked now self))
       (response_student_id self)
       (map content_id (module_content_items st module)))
  <> List.length (module_content_items st module) ->
  fst (mark_as_completed now now' st self)
  = commit_response st (marked now self)
  /\ snd (mark_as_completed now now' st self) = Py.Ok tt.
Proof.
  intros Hi Hm Hne. unfold mark_as_completed. fold (marked now self).
  change (get_content (commit_response st (marked now self))
                      (response_content_item_id (marked now self)))
    with (get_content st (response_content_item_id self)).
  rewrite Hi.
  change (content_module (commit_response st (marked now self)) item)
    with (content_module st item).
  rewrite Hm.
  change (module_content_items (commit_response st (marked now self)) module)
    with (module_content_items st module).
  change (response_student_id (marked now self))
    with (response_student_id self).
  apply Nat.eqb_neq in Hne. rewrite Hne. now split.
Qed.

(** [mark_as_completed] always commits the response with
    [completed = True] and the date, also when it then raises because the
    content item or its module is missing; it never touches courses,
    modules, content items or questions, adds or removes no enrollment,
    changes only enrollment rows of the student of the response, and
    changes none unless the student has as many completed responses in
    the module as the module has content items. *)
Theorem mark_as_completed_effects
  (now now' : datetime) (st : store) (self : StudentResponse) :
  let st' := fst (mark_as_completed now now' st self) in
  let r := snd (mark_as_completed now now' st self) in
  same_catalogue st st'
  /\ responses st'
     = map (fun x => if response_id x =? response_id self
                     then marked now self else x)
           (responses st)
  /\ map enrollment_id (enrollments st') = map enrollment_id (enrollments st)
  /\ (forall e, In e (enrollments st') ->
        In e (enrollments st)
        \/ enrollment_student_id e = response_student_id self)
  /\ (get_content st (response_content_item_id self) = None ->
        r = Py.Raise Py.AttributeError)
  /\ (forall item module,
        get_content st (response_content_item_id self) = Some item ->
        content_module st item = Some module ->
        List.length
          (completed_responses_in (commit_response st (marked now self))
             (response_student_id self)
             (map content_id (module_content_items st module)))
        <> List.length (module_content_items st module) ->
        enrollments st' = enrollments st /\ r = Py.Ok tt).
Proof.
  cbv zeta.
  destruct (mark_as_completed_cases now now' st self) as [E|(e' & Es & E)];
    rewrite E; (split; [|split; [|split; [|split; [|split]]]]).
  - now repeat split.
  - reflexivity.
  - reflexivity.
  - intros e He. now left.
  - intro H. now apply mark_as_completed_no_item.
  - intros item module Hi Hm Hne. split; [reflexivity|].
    now apply (mark_as_completed_gate now now' st self item module).
  - now repeat split.
  - reflexivity.
  - now rewrite commit_enrollment_ids.
  - intros e He. apply commit_enrollment_rows in He.
    destruct He as [He| ->]; [now left | now right].
  - intro H. now apply mark_as_completed_no_item.
  - intros item module Hi Hm Hne.
    assert (Hg := mark_as_completed_gate now now' st self item module
                    Hi Hm Hne).
    destruct Hg as [Hg1 Hg2]. split; [|exact Hg2].
    rewrite <- E, Hg1. reflexivity.
Qed.

End MarkAsCompleted.

(** ** Ownership, and undoing what was just created *)

Section Ownership.

Import Models App ModelsMore AppMore Stated StatedMore Scenario ScenarioMore.

Lemma store_eta (st : store) :
  mkStore (courses st) (modules st) (content_items st) (quiz_questions st)
          (enrollments st) (responses st) = st.
Proof. now destruct st. Qed.

Lemma filter_all {A : Type} (p : A -> bool) (l : list A) :
  (forall x, In x l -> p x = true) -> filter p l = l.
Proof.
  induction l as [|a l IH]; cbn; [reflexivity|]. intro H.
  rewrite (H a) by now left. f_equal. apply IH. intros x Hx. apply H.
  now right.
Qed.

Lemma filter_nothing {A : Type} (p : A -> bool) (l : list A) :
  (forall x, In x l -> p x = false) -> filter p l = [].
Proof.
  induction l as [|a l IH]; cbn; [reflexivity|]. intro H.
  rewrite (H a) by now left. apply IH. intros x Hx. apply H. now right.
Qed.

(** Rows that refer to the keys [ids] do not refer to a key outside. *)
Lemma refers_elsewhere {A : Type} (f : A -> Z) (l : list A) (ids : list Z)
                       (k : Z) (x : A) :
  (forall y, In y l -> In (f y) ids) -> ~ In k ids -> In x l ->
  (f x =? k) = false.
Proof.
  intros H Hk Hx. apply Z.eqb_neq. intro E. apply Hk. rewrite <- E.
  now apply H.
Qed.

Lemma fresh_key {A : Type} (key : A -> Z) (l : list A) (k : Z) (x : A) :
  ~ In k (map key l) -> In x l -> (key x =? k) = false.
Proof.
  intros Hk Hx. apply Z.eqb_neq. intro E. apply Hk. rewrite <- E.
  now apply in_map.
Qed.

Lemma new_course_created (st : store) (uid : Z) (t d : string) :
  t <> EmptyString -> d <> EmptyString ->
  new_course uid POST (Some t) (Some d) st
  = (mkStore
       (courses st ++ [mkCourse (next_id (map course_id (courses st)))
                                t d uid])
       (modules st) (content_items st) (quiz_questions st) (enrollments st)
       (responses st),
     Notice CourseCreated).
Proof.
  intros Ht Hd. unfold new_course.
  now rewrite (truthy_filled t Ht), (truthy_filled d Hd).
Qed.

Lemma get_appended {A : Type} (key : A -> Z) (l : list A) (x : A) :
  ~ In (key x) (map key l) ->
  find (fun y => key y =? key x) (l ++ [x]) = Some x.
Proof.
  intro H. apply find_app_none; [now apply find_fresh | apply Z.eqb_refl].
Qed.

(** A course created with [new_course] belongs to the user who created
    it: [new_module] and [delete_course] on it by any other user answer
    that the course is not theirs and change nothing, and [new_module] by
    its creator is accepted. *)
Theorem new_course_belongs_to_its_creator
  (st : store) (uid : Z) (t d : string) :
  t <> EmptyString -> d <> EmptyString ->
  let st' := fst (new_course uid POST (Some t) (Some d) st) in
  exists c : Course,
    courses st' = courses st ++ [c]
    /\ course_name c = t /\ course_description c = d
    /\ course_instructor_id c = uid
    /\ get_course st' (course_id c) = Some c
    /\ (forall other method tt dd, other <> uid ->
          new_module other (course_id c) method tt dd st'
          = (st', Notice NotYours))
    /\ (forall other, other <> uid ->
          delete_course other (course_id c) st' = (st', Notice NotYours))
    /\ (forall tt dd, tt <> EmptyString -> dd <> EmptyString ->
          snd (new_module uid (course_id c) POST (Some tt) (Some dd) st')
          = Notice ModuleCreated).
Proof.
  intros Ht Hd st'. subst st'. rewrite (new_course_created st uid t d Ht Hd).
  cbn [fst]. eexists. split; [reflexivity|].
  cbn [course_name course_description course_instructor_id course_id].
  match goal with |- _ /\ _ /\ _ /\ get_course ?s ?n = Some ?c /\ _ =>
    set (st' := s); set (c0 := c);
    assert (Hget : get_course st' n = Some c0)
      by (apply (get_appended course_id (courses st) c0);
          apply next_id_fresh)
  end.
  split; [reflexivity|]. split; [reflexivity|]. split; [reflexivity|].
  split; [exact Hget|]. split; [|split].
  - intros other method tt dd Hother. unfold new_module. rewrite Hget.
    cbn [course_instructor_id c0].
    apply Z.eqb_neq in Hother. rewrite Z.eqb_sym, Hother. reflexivity.
  - intros other Hother. unfold delete_course. rewrite Hget.
    cbn [course_instructor_id c0].
    apply Z.eqb_neq in Hother. rewrite Z.eqb_sym, Hother. reflexivity.
  - intros tt dd Htt Hdd.
    now rewrite (new_module_created st' uid _ tt dd c0 Hget eq_refl Htt Hdd).
Qed.

Lemma new_course_belongs_to_its_creator_witness :
  let st' := fst (new_course 200 POST (Some "Geometry"%string)
                             (Some "Plane"%string) enrolled) in
  exists c : Course,
    courses st' = courses enrolled ++ [c]
    /\ course_name c = "Geometry"%string
    /\ course_description c = "Plane"%string
    /\ course_instructor_id c = 200
    /\ get_course st' (course_id c) = Some c
    /\ (forall other method tt dd, other <> 200 ->
          new_module other (course_id c) method tt dd st'
          = (st', Notice NotYours))
    /\ (forall other, other <> 200 ->
          delete_course other (course_id c) st' = (st', Notice NotYours))
    /\ (forall tt dd, tt <> EmptyString -> dd <> EmptyString ->
          snd (new_module 200 (course_id c) POST (Some tt) (Some dd) st')
          = Notice ModuleCreated).
Proof.
  apply (new_course_belongs_to_its_creator enrolled 200 "Geometry" "Plane");
    discriminate.
Defined.

(** In a store whose modules and enrollments refer to existing
    courses, deleting a course right after creating it gives back the
    store as it was before the creation. *)
Theorem new_course_then_delete_course
  (st : store) (uid : Z) (t d : string) :
  t <> EmptyString -> d <> EmptyString ->
  (forall m, In m (modules st) ->
     In (module_course_id m) (map course_id (courses st))) ->
  (forall e, In e (enrollments st) ->
     In (enrollment_course_id e) (map course_id (courses st))) ->
  let st' := fst (new_course uid POST (Some t) (Some d) st) in
  exists c : Course,
    courses st' = courses st ++ [c]
    /\ delete_course uid (course_id c) st' = (st, Notice CourseDeleted).
Proof.
  intros Ht Hd Hm He st'. subst st'.
  rewrite (new_course_created st uid t d Ht Hd). cbn [fst].
  eexists. split; [reflexivity|]. cbn [course_id].
  assert (Hn := next_id_fresh (map course_id (courses st))).
  set (n := next_id (map course_id (courses st))) in *.
  match goal with |- delete_course _ _ ?s = _ => set (st' := s) end.
  set (c0 := mkCourse n t d uid).
  assert (Hget : get_course st' n = Some c0)
    by (apply (get_appended course_id (courses st) c0); exact Hn).
  unfold delete_course. rewrite Hget.
  cbn [course_instructor_id course_id c0]. rewrite Z.eqb_refl. cbn [negb].
  assert (Hmods : course_modules st' c0 = []).
  { unfold course_modules. cbn [modules course_id st' c0].
    apply filter_nothing. intros x Hx.
    now apply (refers_elsewhere module_course_id (modules st)
                 (map course_id (courses st))). }
  unfold course_content_items. rewrite Hmods. cbn [map flat_map existsb negb].
  cbn [courses modules content_items quiz_questions enrollments responses
       st'].
  rewrite filter_app. cbn [filter course_id]. rewrite Z.eqb_refl.
  cbn [negb]. rewrite app_nil_r.
  rewrite (filter_all _ (courses st))
    by (intros x Hx; apply negb_true_iff;
        now apply (fresh_key course_id (courses st))).
  rewrite (filter_all _ (modules st))
    by (intros x Hx; apply negb_true_iff;
        now apply (refers_elsewhere module_course_id (modules st)
                     (map course_id (courses st)))).
  rewrite (filter_all _ (enrollments st))
    by (intros x Hx; apply negb_true_iff;
        now apply (refers_elsewhere enrollment_course_id (enrollments st)
                     (map course_id (courses st)))).
  rewrite !(filter_all (fun _ => true)) by reflexivity.
  now rewrite store_eta.
Qed.

Lemma new_course_then_delete_course_witness :
  let st' := fst (new_course 200 POST (Some "Geometry"%string)
                             (Some "Plane"%string) passed_once) in
  exists c : Course,
    courses st' = courses passed_once ++ [c]
    /\ delete_course 200 (course_id c) st'
       = (passed_once, Notice CourseDeleted).
Proof.
  apply (new_course_then_delete_course passed_once 200 "Geometry" "Plane");
    [discriminate | discriminate | |].
  - intros m [<-|[]]. now left.
  - intros e [<-|[]]. now left.
Defined.

(** In a store whose questions and responses refer to existing content
    items, deleting a content item right after adding it with
    [new_content] gives back the store as it was before. *)
Theorem new_content_then_delete_content
  (stored_path : string -> string) (st : store) (uid mid : Z)
  (t ty : string) (text url file : option string)
  (module : Module_) (course : Course) :
  get_module st mid = Some module ->
  module_course st module = Some course ->
  course_instructor_id course = uid ->
  t <> EmptyString -> ty <> EmptyString ->
  (forall q, In q (quiz_questions st) ->
     In (question_content_item_id q) (map content_id (content_items st))) ->
  (forall r, In r (responses st) ->
     In (response_content_item_id r) (map content_id (content_items st))) ->
  let st' := fst (new_content stored_path uid mid POST (Some t) (Some ty)
                              text url file st) in
  exists item : ContentItem,
    content_items st' = content_items st ++ [item]
    /\ delete_content uid (content_id item) st'
       = (st, Redirect ContentDeleted).
Proof.
  intros Hm Hc Hi Ht Hty Hq Hr st'. subst st'.
  rewrite (new_content_created stored_path st uid mid t ty text url file
             module course Hm Hc Hi Ht Hty).
  cbn [fst]. eexists. split; [reflexivity|]. cbn [content_id].
  assert (Hn := next_id_fresh (map content_id (content_items st))).
  set (n := next_id (map content_id (content_items st))) in *.
  match goal with |- delete_content _ _ ?s = _ => set (st' := s) end.
  match goal with st' := mkStore _ _ (_ ++ [?i]) _ _ _ |- _ =>
    set (item := i) in * end.
  assert (Hget : get_content st' n = Some item)
    by (apply (get_appended content_id (content_items st) item); exact Hn).
  unfold delete_content. rewrite Hget.
  change (content_module st' item) with (get_module st mid). rewrite Hm.
  change (module_course st' module) with (module_course st module).
  rewrite Hc, Hi, Z.eqb_refl. cbn [negb].
  unfold session_delete_content.
  assert (Hnor : content_responses st' item = []).
  { unfold content_responses. cbn [responses st' content_id item].
    apply filter_nothing. intros x Hx.
    now apply (refers_elsewhere response_content_item_id (responses st)
                 (map content_id (content_items st))). }
  rewrite Hnor.
  cbn [courses modules content_items quiz_questions enrollments responses
       st' content_id item].
  rewrite filter_app. cbn [filter content_id]. rewrite Z.eqb_refl.
  cbn [negb]. rewrite app_nil_r.
  rewrite (filter_all _ (content_items st))
    by (intros x Hx; apply negb_true_iff;
        now apply (fresh_key content_id (content_items st))).
  rewrite (filter_all _ (quiz_questions st))
    by (intros x Hx; apply negb_true_iff;
        now apply (refers_elsewhere question_content_item_id
                     (quiz_questions st)
                     (map content_id (content_items st)))).
  now rewrite store_eta.
Qed.

Lemma new_content_then_delete_content_witness :
  let st' := fst (new_content (fun n => n) 100 1 POST (Some "Notes"%string)
                              (Some "text"%string) (Some "Read"%string)
                              None None passed_once) in
  exists item : ContentItem,
    content_items st' = content_items passed_once ++ [item]
    /\ delete_content 100 (content_id item) st'
       = (passed_once, Redirect ContentDeleted).
Proof.
  apply (new_content_then_delete_content (fun n => n) passed_once 100 1
           "Notes" "text" (Some "Read"%string) None None vectors algebra);
    [reflexivity | reflexivity | reflexivity | discriminate | discriminate
    | | ].
  - intros q [<-|[]]. now left.
  - intros r [<-|[]]. now left.
Defined.

End Ownership.

(** ** Roles and users *)

Section AccountsProperties.

Import App Accounts StatedMore ScenarioMore.

Lemma find_app_some {A : Type} (p : A -> bool) (l l' : list A) (x : A) :
  find p l = Some x -> find p (l ++ l') = Some x.
Proof.
  induction l as [|a l IH]; cbn; [discriminate|].
  destruct (p a); [trivial | exact IH].
Qed.

Lemma create_role_found (name : string) (acc : accounts) :
  find_role (create_role name acc) name <> None.
Proof.
  unfold create_role. destruct (find_role acc name) eqn:E; [congruence|].
  unfold find_role, add_role. cbn [roles].
  rewrite (find_app_none _ _ _ E); [discriminate|].
  cbn. apply String.eqb_refl.
Qed.

Lemma create_role_keeps (name other : string) (acc : accounts) :
  find_role acc other <> None ->
  find_role (create_role name acc) other <> None.
Proof.
  unfold create_role. destruct (find_role acc name); [trivial|].
  destruct (find_role acc other) as [r|] eqn:E; [|congruence]. intros _.
  unfold find_role, add_role. cbn [roles].
  unfold find_role in E. now rewrite (find_app_some _ _ _ _ E).
Qed.

Lemma create_role_again (name : string) (acc : accounts) :
  find_role acc name <> None -> create_role name acc = acc.
Proof.
  unfold create_role. destruct (find_role acc name); congruence.
Qed.

Lemma create_role_users (name : string) (acc : accounts) :
  users (create_role name acc) = users acc.
Proof.
  unfold create_role. now destruct (find_role acc name).
Qed.

(** The loop over the default roles at start-up. *)
Lemma roles_loop_found (acc : accounts) (name : string) :
  In name default_roles ->
  find_role (fold_left (fun a n => create_role n a) default_roles acc) name
  <> None.
Proof.
  cbn [default_roles fold_left].
  intros [<-|[<-|[<-|[]]]].
  - do 2 apply create_role_keeps. apply create_role_found.
  - apply create_role_keeps. apply create_role_found.
  - apply create_role_found.
Qed.

Lemma roles_loop_fixed (acc : accounts) :
  (forall name, In name default_roles -> find_role acc name <> None) ->
  fold_left (fun a n => create_role n a) default_roles acc = acc.
Proof.
  intro H. cbn [default_roles fold_left].
  rewrite (create_role_again "admin" acc) by (apply H; cbn; tauto).
  rewrite (create_role_again "instructor" acc) by (apply H; cbn; tauto).
  apply create_role_again. apply H. cbn. tauto.
Qed.

Lemma roles_loop_users (acc : accounts) :
  users (fold_left (fun a n => create_role n a) default_roles acc)
  = users acc.
Proof.
  cbn [default_roles fold_left]. now rewrite !create_role_users.
Qed.

Lemma insert_user_inv (acc acc' : accounts)
                      (username email password : string) (role : Role) :
  insert_user acc username email password role = Py.Ok acc' ->
  (forall u, In u (users acc) ->
     user_username u <> username /\ user_email u <> email)
  /\ acc' = mkAccounts (roles acc)
              (users acc ++ [mkUser (next_id (map user_id (users acc)))
                                    username email password
                                    (role_id role)]).
Proof.
  unfold insert_user. destruct (existsb _ _) eqn:E; [discriminate|].
  intros [= <-]. split; [|reflexivity]. intros u Hu.
  rewrite <- not_true_iff_false, existsb_exists in E.
  split; intro Eq; apply E; exists u; (split; [exact Hu|]);
    apply orb_true_iff; [left | right]; now apply String.eqb_eq.
Qed.

Lemma insert_user_taken (acc : accounts)
                        (username email password : string) (role : Role) :
  (exists u, In u (users acc)
             /\ (user_username u = username \/ user_email u = email)) ->
  insert_user acc username email password role
  = Py.Raise Py.IntegrityError.
Proof.
  intros (u & Hu & H). unfold insert_user.
  assert (E : existsb (fun u => String.eqb (user_username u) username
                                || String.eqb (user_email u) email)
                      (users acc) = true).
  { apply existsb_exists. exists u. split; [exact Hu|].
    apply orb_true_iff.
    destruct H as [H|H]; [left | right]; now apply String.eqb_eq. }
  now rewrite E.
Qed.

Lemma insert_user_unique (acc acc' : accounts)
                         (username email password : string) (role : Role) :
  users_unique acc ->
  insert_user acc username email password role = Py.Ok acc' ->
  users_unique acc'.
Proof.
  intros [Hu He] H. apply insert_user_inv in H. destruct H as [Hfresh ->].
  unfold users_unique. cbn [users]. rewrite !map_app. cbn [map].
  split; (apply NoDup_snoc; [assumption|]); rewrite in_map_iff;
    intros (u & E & Hin); apply Hfresh in Hin; cbn in E; tauto.
Qed.

(** The three results the start-up block can have. *)
Lemma init_db_cases (password_hash : string) (acc : accounts) :
  let acc1 := fold_left (fun a n => create_role n a) default_roles acc in
  (init_db password_hash acc = acc1
   /\ (find_user acc1 "admin" <> None
       \/ exists r, find_role acc1 "admin" = Some r
            /\ insert_user acc1 "admin" "admin@example.com" password_hash r
               = Py.Raise Py.IntegrityError))
  \/ (exists r acc2,
        find_user acc1 "admin" = None
        /\ find_role acc1 "admin" = Some r
        /\ insert_user acc1 "admin" "admin@example.com" password_hash r
           = Py.Ok acc2
        /\ init_db password_hash acc = acc2).
Proof.
  intro acc1. unfold init_db.
  change (fold_left _ ["admin"%string; "instructor"%string;
                       "student"%string] acc) with acc1.
  assert (Hr : find_role acc1 "admin" <> None)
    by (apply roles_loop_found; cbn; tauto).
  destruct (find_user acc1 "admin") eqn:Eu;
    [left; split; [reflexivity | left; discriminate]|].
  destruct (find_role acc1 "admin") as [r|] eqn:Er; [|congruence].
  destruct (insert_user acc1 "admin" "admin@example.com" password_hash r)
    as [acc2|e] eqn:Ei.
  - right. now exists r, acc2.
  - left. split; [reflexivity|]. right. exists r. split; [reflexivity|].
    unfold insert_user in *. destruct (existsb _ _); [reflexivity|].
    discriminate.
Qed.

(** After the start-up block the roles admin, instructor and student
    exist, so [register_user] with one of them never answers that the role
    is not found; the users that were there are kept; a user named admin
    exists unless another user holds the address admin@example.com; and
    running the block again, with whatever password hash, changes
    nothing. *)
Theorem init_db_settles (password_hash password_hash' : string)
                        (acc : accounts) :
  (forall name, In name default_roles ->
     find_role (init_db password_hash acc) name <> None
     /\ forall username email password,
          snd (register_user POST username email password name
                             (init_db password_hash acc))
          <> RoleNotFound)
  /\ (exists more, users (init_db password_hash acc) = users acc ++ more)
  /\ ((forall u, In u (users acc) -> user_email u <> "admin@example.com"%string)
      -> find_user (init_db password_hash acc) "admin" <> None)
  /\ init_db password_hash' (init_db password_hash acc)
     = init_db password_hash acc.
Proof.
  pose proof (init_db_cases password_hash acc) as Hcases. cbv zeta in Hcases.
  set (acc1 := fold_left (fun a n => create_role n a) default_roles acc)
    in *.
  assert (Hroles1 : forall name, In name default_roles ->
                      find_role acc1 name <> None)
    by (intros; now apply roles_loop_found).
  assert (Husers1 : users acc1 = users acc) by apply roles_loop_users.
  assert (Hroles : forall name, In name default_roles ->
                     find_role (init_db password_hash acc) name <> None).
  { intros name Hn.
    destruct Hcases as [[-> _]|(r & acc2 & _ & _ & Hi & ->)];
      [now apply Hroles1|].
    apply insert_user_inv in Hi. destruct Hi as [_ ->].
    now apply Hroles1. }
  split; [|split; [|split]].
  - intros name Hn. split; [now apply Hroles|].
    intros username email password. unfold register_user.
    specialize (Hroles name Hn).
    destruct (find_role (init_db password_hash acc) name); [|congruence].
    now destruct (insert_user _ _ _ _ _).
  - destruct Hcases as [[-> _]|(r & acc2 & _ & _ & Hi & ->)].
    + exists []. now rewrite app_nil_r.
    + apply insert_user_inv in Hi. destruct Hi as [_ ->]. cbn [users].
      rewrite Husers1. now eexists.
  - intro Hmail.
    destruct Hcases as [[-> [H|(r & _ & Hi)]]|(r & acc2 & Hu & _ & Hi & ->)].
    + exact H.
    + unfold insert_user in Hi.
      destruct (existsb _ _) eqn:E; [|discriminate].
      apply existsb_exists in E. destruct E as (u & Hin & E).
      apply orb_true_iff in E. destruct E as [E|E].
      * intro Ef. unfold find_user in Ef.
        apply (find_none _ _ Ef) in Hin. cbn beta in Hin. congruence.
      * apply String.eqb_eq in E. rewrite Husers1 in Hin. exfalso.
        now apply (Hmail u).
    + apply insert_user_inv in Hi. destruct Hi as [_ ->].
      unfold find_user. cbn [users].
      unfold find_user in Hu. rewrite (find_app_none _ _ _ Hu); [discriminate|].
      reflexivity.
  - destruct Hcases as [[E [H|(r & Er & Hi)]]|(r & acc2 & Hu & Er & Hi & E)].
    + rewrite E. unfold init_db.
      change (fold_left _ ["admin"%string; "instructor"%string;
                           "student"%string] acc1)
        with (fold_left (fun a n => create_role n a) default_roles acc1).
      rewrite (roles_loop_fixed acc1 Hroles1).
      now destruct (find_user acc1 "admin").
    + rewrite E. unfold init_db.
      change (fold_left _ ["admin"%string; "instructor"%string;
                           "student"%string] acc1)
        with (fold_left (fun a n => create_role n a) default_roles acc1).
      rewrite (roles_loop_fixed acc1 Hroles1).
      destruct (find_user acc1 "admin"); [reflexivity|]. rewrite Er.
      unfold insert_user in *. now destruct (existsb _ _).
    + rewrite E. assert (Hi' := Hi).
      apply insert_user_inv in Hi'. destruct Hi' as [_ E2].
      assert (Hroles2 : forall name, In name default_roles ->
                          find_role acc2 name <> None).
      { intros name Hn. rewrite E2. now apply Hroles1. }
      unfold init_db.
      change (fold_left _ ["admin"%string; "instructor"%string;
                           "student"%string] acc2)
        with (fold_left (fun a n => create_role n a) default_roles acc2).
      rewrite (roles_loop_fixed acc2 Hroles2).
      assert (Hfound : find_user acc2 "admin" <> None).
      { rewrite E2. unfold find_user. cbn [users]. unfold find_user in Hu.
        rewrite (find_app_none _ _ _ Hu); [discriminate | reflexivity]. }
      now destruct (find_user acc2 "admin").
Qed.

(** Usernames and emails stay unique: the start-up block and
    [register_user] keep them so; a registration with a username or an
    email already in use raises [IntegrityError]; a registration that
    succeeds appends one user with an unused id, the fields of the form and
    the id of the role named; every other registration leaves the tables
    as they are. *)
Theorem users_stay_unique (acc : accounts) :
  users_unique acc ->
  (forall password_hash, users_unique (init_db password_hash acc))
  /\ forall (method : http_method)
            (username email password role_name : string),
       let out :=
         register_user method username email password role_name acc in
       users_unique (fst out)
       /\ (method = POST -> find_role acc role_name <> None ->
           (exists u, In u (users acc)
                      /\ (user_username u = username
                          \/ user_email u = email)) ->
           out = (acc, RegistrationError Py.IntegrityError))
       /\ (snd out = UserCreated ->
           exists r u,
             find_role acc role_name = Some r
             /\ fst out = mkAccounts (roles acc) (users acc ++ [u])
             /\ user_username u = username /\ user_email u = email
             /\ user_password u = password
             /\ user_role_id u = role_id r
             /\ ~ In (user_id u) (map user_id (users acc)))
       /\ (snd out <> UserCreated -> fst out = acc).
Proof.
  intro Hacc. split.
  - intro password_hash.
    pose proof (init_db_cases password_hash acc) as Hcases.
    cbv zeta in Hcases.
    assert (H1 : users_unique
                   (fold_left (fun a n => create_role n a) default_roles
                              acc))
      by (unfold users_unique; now rewrite roles_loop_users).
    destruct Hcases as [[-> _]|(r & acc2 & _ & _ & Hi & ->)];
      [exact H1 | exact (insert_user_unique _ _ _ _ _ _ H1 Hi)].
  - intros method username email password role_name. cbv zeta.
    unfold register_user. destruct method; cbn [fst snd].
    { split; [exact Hacc|]. split; [discriminate|].
      split; [discriminate | reflexivity]. }
    destruct (find_role acc role_name) as [r|] eqn:Er; cbn [fst snd].
    2:{ split; [exact Hacc|]. split; [congruence|].
        split; [discriminate | reflexivity]. }
    destruct (insert_user acc username email password r) as [acc'|e] eqn:Ei;
      cbn [fst snd].
    + split; [exact (insert_user_unique _ _ _ _ _ _ Hacc Ei)|].
      split; [|split].
      * intros _ _ Htaken.
        rewrite (insert_user_taken _ _ _ password r Htaken) in Ei.
        discriminate.
      * intros _. apply insert_user_inv in Ei. destruct Ei as [_ ->].
        exists r. eexists. split; [reflexivity|]. split; [reflexivity|].
        cbn [user_username user_email user_password user_role_id user_id].
        repeat split. apply next_id_fresh.
      * congruence.
    + split; [exact Hacc|]. split; [|split].
      * intros _ _ Htaken.
        rewrite (insert_user_taken _ _ _ password r Htaken) in Ei.
        congruence.
      * discriminate.
      * reflexivity.
Qed.

Lemma users_stay_unique_witness :
  (forall password_hash,
     users_unique (init_db password_hash
                           (init_db "$2b$12$hash" no_accounts)))
  /\ forall (method : http_method)
            (username email password role_name : string),
       let acc := init_db "$2b$12$hash" no_accounts in
       let out :=
         register_user method username email password role_name acc in
       users_unique (fst out)
       /\ (method = POST -> find_role acc role_name <> None ->
           (exists u, In u (users acc)
                      /\ (user_username u = username
                          \/ user_email u = email)) ->
           out = (acc, RegistrationError Py.IntegrityError))
       /\ (snd out = UserCreated ->
           exists r u,
             find_role acc role_name = Some r
             /\ fst out = mkAccounts (roles acc) (users acc ++ [u])
             /\ user_username u = username /\ user_email u = email
             /\ user_password u = password
             /\ user_role_id u = role_id r
             /\ ~ In (user_id u) (map user_id (users acc)))
       /\ (snd out <> UserCreated -> fst out = acc).
Proof.
  apply (users_stay_unique (init_db "$2b$12$hash" no_accounts)).
  split; cbn; (constructor; [intros [] | constructor]).
Defined.

End AccountsProperties.
